(** * NYC energy demand forecasting notebook: the data-handling cells

    A shallow embedding of the code cells of
    [auto-ml-energy-demand-forecasting.ipynb] that touch the data:

    - cell 2.2, the chronological train/test split;
    - cell 4.3, prediction on the test frame and the residuals;
    - cell 5, the all-NaN query vector and the call to [forecast].

    The notebook is a sequence of statements over Python's global
    namespace and a heap of mutable objects (pandas frames, numpy
    arrays).  Both are modelled explicitly, because two of the statements
    mutate an object in place ([DataFrame.pop], [ndarray.fill]).  The
    fitted model comes from the AutoML SDK; it is a parameter here. *)

From Stdlib Require Import ZArith Floats.PrimFloat.
From stdpp Require Import base option list gmap strings fin_maps.
From stdpp Require Import sorting.

Local Open Scope Z_scope.

(** ** Values *)

(** A cell of the [timeStamp] column after [parse_dates]: nanoseconds since
    the epoch, or pandas' not-a-time. *)
Inductive Timestamp : Type :=
  | NaT
  | At (ns : Z).

(** [np.nan], the "question mark" the forecaster is asked to fill. *)
Definition np_nan : float := PrimFloat.nan.

(** One row of a frame: its index label, its [timeStamp] and the cells of
    the float64 columns by column name. *)
Record Row : Type := mkRow {
  label : Z;
  timeStamp : Timestamp;
  cells : gmap string float
}.

(** A frame, held row-wise; [columns] lists the float64 columns in order
    (the datetime column [timeStamp] is a field of every row). *)
Record DataFrame : Type := mkFrame {
  columns : list string;
  rows : list Row
}.

Definition time_column_name : string := "timeStamp".
Definition target_column_name : string := "demand".

(** The split date of cell 2.2, '2017-02-01', as a pandas timestamp. *)
Definition cutoff_2017_02_01 : Z := 1485907200000000000.

(** ** Exceptions and results *)

Inductive exn : Type :=
  | NameError
  | KeyError
  | TypeError
  | ValueError
  | BackendError.

Inductive result (A : Type) : Type :=
  | Ok (a : A)
  | Raise (e : exn).
Arguments Ok {A} a.
Arguments Raise {A} e.

(** ** pandas and numpy operations on values *)

(** [series < cutoff] and [series >= cutoff] on a datetime column; every
    comparison with [NaT] is [False]. *)
Definition ts_lt (t : Timestamp) (c : Z) : bool :=
  match t with NaT => false | At ns => ns <? c end.

Definition ts_ge (t : Timestamp) (c : Z) : bool :=
  match t with NaT => false | At ns => ns >=? c end.

Definition series_lt (ts : list Timestamp) (c : Z) : list bool :=
  (λ t, ts_lt t c) <$> ts.

Definition series_ge (ts : list Timestamp) (c : Z) : list bool :=
  (λ t, ts_ge t c) <$> ts.

(** Selection of the entries at which a boolean mask is [True]. *)
Fixpoint take_mask {A : Type} (mask : list bool) (l : list A) : list A :=
  match mask, l with
  | b :: mask', x :: l' =>
      if b then x :: take_mask mask' l' else take_mask mask' l'
  | _, _ => []
  end.

(** [df[mask]]: a new frame with the selected rows and the same columns.
    The mask is a plain list of booleans here, one per row in row order:
    every mask the cells build is a comparison on a column of the very
    frame they select from, so it has that frame's index and length.
    pandas aligns a boolean Series on the index and refuses one it cannot
    align; without an index to align on, a mask of another length is
    refused outright.  No cell reaches that branch. *)
Definition getitem_mask (df : DataFrame) (mask : list bool) : result DataFrame :=
  if decide (length mask = length (rows df))
  then Ok (mkFrame (columns df) (take_mask mask (rows df)))
  else Raise ValueError.

Definition drop_cell (name : string) (r : Row) : Row :=
  mkRow (label r) (timeStamp r) (delete name (cells r)).

Definition cell_of (name : string) (r : Row) : float :=
  default np_nan (cells r !! name).

(** [df.pop(name)]: the column's values, and the frame without it;
    [KeyError] when the frame has no such column. *)
Definition pop_column (df : DataFrame) (name : string)
  : result (list float * DataFrame) :=
  if decide (name ∈ columns df)
  then Ok (cell_of name <$> rows df,
           mkFrame (filter (λ c, c ≠ name) (columns df))
                   (drop_cell name <$> rows df))
  else Raise KeyError.

(** [a - b] on one-dimensional float64 arrays, with numpy's broadcasting:
    equal lengths subtract elementwise, a length-one operand is stretched,
    anything else is a [ValueError]. *)
Definition np_subtract (a b : list float) : result (list float) :=
  if decide (length a = length b) then Ok (zip_with PrimFloat.sub a b)
  else match a, b with
       | [x], _ => Ok ((λ y, PrimFloat.sub x y) <$> b)
       | _, [y] => Ok ((λ x, PrimFloat.sub x y) <$> a)
       | _, _ => Raise ValueError
       end.

(** ** The interpreter state *)

(** Objects are named by their position in the heap. *)
Abbreviation loc := nat.

Inductive obj : Type :=
  | OFrame (df : DataFrame)
  | OArray (a : list float)
  | OFloat (x : float).

Record state : Type := mkState {
  globals : gmap string loc;
  heap : list obj
}.

(** Statements run in a state and may raise; the state survives a raise
    (names bound before the failing statement stay bound). *)
Definition M (A : Type) : Type := state → result A * state.

#[export] Instance M_ret : MRet M := λ A a σ, (Ok a, σ).

#[export] Instance M_bind : MBind M := λ A B f m σ,
  match m σ with
  | (Ok a, σ') => f a σ'
  | (Raise e, σ') => (Raise e, σ')
  end.

Definition lift {A : Type} (r : result A) : M A := λ σ, (r, σ).

(** Reading a global name. *)
Definition load (x : string) : M loc := λ σ,
  match globals σ !! x with
  | Some l => (Ok l, σ)
  | None => (Raise NameError, σ)
  end.

(** Binding a global name. *)
Definition store (x : string) (l : loc) : M unit := λ σ,
  (Ok tt, mkState (<[x := l]> (globals σ)) (heap σ)).

(** A new object. *)
Definition alloc (o : obj) : M loc := λ σ,
  (Ok (length (heap σ)), mkState (globals σ) (heap σ ++ [o])).

(** In-place update of an object. *)
Definition assign (l : loc) (o : obj) : M unit := λ σ,
  (Ok tt, mkState (globals σ) (<[l := o]> (heap σ))).

Definition deref_frame (l : loc) : M DataFrame := λ σ,
  match heap σ !! l with
  | Some (OFrame df) => (Ok df, σ)
  | _ => (Raise TypeError, σ)
  end.

Definition deref_array (l : loc) : M (list float) := λ σ,
  match heap σ !! l with
  | Some (OArray a) => (Ok a, σ)
  | _ => (Raise TypeError, σ)
  end.

(** [df[time_column_name]]: the datetime column of the frame at [l]. *)
Definition df_time_column (l : loc) : M (list Timestamp) :=
  df ← deref_frame l; mret (timeStamp <$> rows df).

(** [df[mask]] allocates the selected rows as a new frame. *)
Definition df_getitem_mask (l : loc) (mask : list bool) : M loc :=
  df ← deref_frame l;
  df' ← lift (getitem_mask df mask);
  alloc (OFrame df').

(** [df.pop(name).values]: removes the column from the frame at [l], in
    place, and returns its values as a new array. *)
Definition df_pop_values (l : loc) (name : string) : M loc :=
  df ← deref_frame l;
  '(col, df') ← lift (pop_column df name);
  assign l (OFrame df');;
  alloc (OArray col).

(** ** Cell 2.2: split the data into train and test sets *)

(** [X_train = data[data[time_column_name] < cutoff]]
    [X_test = data[data[time_column_name] >= cutoff]] *)
Definition select_rows (cutoff : Z) : M unit :=
  data ← load "data";
  ts ← df_time_column data;
  X_train ← df_getitem_mask data (series_lt ts cutoff);
  store "X_train" X_train;;
  data ← load "data";
  ts ← df_time_column data;
  X_test ← df_getitem_mask data (series_ge ts cutoff);
  store "X_test" X_test.

(** [y_train = X_train.pop(target_column_name).values]
    [y_test = X_test.pop(target_column_name).values] *)
Definition pop_targets : M unit :=
  X_train ← load "X_train";
  y_train ← df_pop_values X_train target_column_name;
  store "y_train" y_train;;
  X_test ← load "X_test";
  y_test ← df_pop_values X_test target_column_name;
  store "y_test" y_test.

Definition split_cell (cutoff : Z) : M unit :=
  select_rows cutoff;; pop_targets.

(** The cell as the notebook runs it, with its split date. *)
Definition cell_2_2 : M unit := split_cell cutoff_2017_02_01.

(** ** The fitted model *)

(** The two entry points of the SDK's fitted pipeline that the notebook
    calls.  Their bodies are the service's. *)
Record FittedModel : Type := mkModel {
  predict : DataFrame → result (list float);
  forecast : DataFrame → list float → result (list float * DataFrame)
}.

(** ** Cell 4.3: test the best fitted model *)

(** [y_pred_test = fitted_model.predict(X_test)]
    [y_residual_test = y_test - y_pred_test]
    (the plotting calls that follow leave the state alone) *)
Definition test_cell (fitted_model : FittedModel) : M unit :=
  X_test ← load "X_test";
  X ← deref_frame X_test;
  p ← lift (predict fitted_model X);
  y_pred_test ← alloc (OArray p);
  store "y_pred_test" y_pred_test;;
  y_test ← load "y_test";
  a ← deref_array y_test;
  y_pred_test ← load "y_pred_test";
  b ← deref_array y_pred_test;
  r ← lift (np_subtract a b);
  y_residual_test ← alloc (OArray r);
  store "y_residual_test" y_residual_test.

(** ** Cell 5: the query vector and the forecast *)

(** [a.fill(v)]: every entry of the array at [l] is overwritten. *)
Definition ndarray_fill (l : loc) (v : float) : M unit :=
  a ← deref_array l;
  assign l (OArray ((λ _, v) <$> a)).

(** [a.copy()] and [a.astype(np.float)] each return a new array. *)
Definition ndarray_copy (l : loc) : M loc :=
  a ← deref_array l; alloc (OArray a).

Definition ndarray_astype_float (l : loc) : M loc :=
  a ← deref_array l; alloc (OArray a).

(** [y_query = y_test.copy().astype(np.float)]
    [y_query.fill(np.nan)] *)
Definition make_query : M unit :=
  y_test ← load "y_test";
  c ← ndarray_copy y_test;
  y_query ← ndarray_astype_float c;
  store "y_query" y_query;;
  y_query ← load "y_query";
  ndarray_fill y_query np_nan.

(** [y_fcst, X_trans = fitted_model.forecast(X_test, y_query)] *)
Definition call_forecast (fitted_model : FittedModel) : M unit :=
  X_test ← load "X_test";
  X ← deref_frame X_test;
  y_query ← load "y_query";
  q ← deref_array y_query;
  '(f, Xt) ← lift (forecast fitted_model X q);
  y_fcst ← alloc (OArray f);
  X_trans ← alloc (OFrame Xt);
  store "y_fcst" y_fcst;;
  store "X_trans" X_trans.

(** The statements of cell 5 from the query to the call, in order.  The
    cell goes on with the feature names ([columns_but_last] below) and
    with [explain_model], a call into the service whose result it unpacks
    into six names; these statements are not part of [forecast_cell]. *)
Definition forecast_cell (fitted_model : FittedModel) : M unit :=
  make_query;; call_forecast fitted_model.

(** ** Reading the state *)

Definition frame_of (σ : state) (x : string) : option DataFrame :=
  l ← globals σ !! x;
  match heap σ !! l with Some (OFrame df) => Some df | _ => None end.

Definition array_of (σ : state) (x : string) : option (list float) :=
  l ← globals σ !! x;
  match heap σ !! l with Some (OArray a) => Some a | _ => None end.

Definition scalar_of (σ : state) (x : string) : option float :=
  l ← globals σ !! x;
  match heap σ !! l with Some (OFloat v) => Some v | _ => None end.

(** Python floats and numpy scalars among the objects. *)
Definition is_scalar (o : obj) : bool :=
  match o with OFloat _ => true | _ => false end.

(** ** A small dataset to run the cells on *)

Definition row (i : Z) (t : Z) (demand temp : float) : Row :=
  mkRow i (At t) (<["demand" := demand]> (<["temp" := temp]> ∅)).

Definition demo_frame : DataFrame :=
  mkFrame ["demand"; "temp"]
    [ row 0 100 7%float 20.5%float;
      row 1 200 8%float 21%float;
      row 2 300 9%float 19%float;
      row 3 400 10%float 18.5%float ].

Definition demo_state : state :=
  mkState (<["data" := 0%nat]> ∅) [OFrame demo_frame].

(** The state cell 2.2 leaves when run on the four-row dataset. *)
Definition demo_split (c : Z) : state := (split_cell c demo_state).2.

(** A dataset whose demand never moves. *)
Definition flat_frame : DataFrame :=
  mkFrame ["demand"; "temp"]
    [ row 0 100 5%float 20.5%float;
      row 1 200 5%float 21%float;
      row 2 300 5%float 19%float;
      row 3 400 5%float 18.5%float ].

Definition flat_split (c : Z) : state :=
  (split_cell c (mkState (<["data" := 0%nat]> ∅) [OFrame flat_frame])).2.

(** A dataset with a blank timestamp in its second row. *)
Definition untimed_frame : DataFrame :=
  mkFrame ["demand"; "temp"]
    [ row 0 100 7%float 20.5%float;
      mkRow 1 NaT (<["demand" := 8%float]> (<["temp" := 21%float]> ∅));
      row 2 300 9%float 19%float ].

Definition untimed_split (c : Z) : state :=
  (split_cell c (mkState (<["data" := 0%nat]> ∅) [OFrame untimed_frame])).2.

(** A stand-in for the service's pipeline, to run cells 4.3 and 5 on
    concrete data: [predict] answers [p], [forecast] answers [f] and hands
    the frame back. *)
Definition canned_model (p f : list float) : FittedModel :=
  mkModel (λ _, Ok p) (λ X _, Ok (f, X)).

(** ** Notions used to state the properties *)

(** The frame has the target column: it is listed, and every row has a
    cell in it. *)
Definition has_target (D : DataFrame) : Prop :=
  target_column_name ∈ columns D ∧
  Forall (λ r, is_Some (cells r !! target_column_name)) (rows D).

(** Every row carries a timestamp (no [NaT]). *)
Definition timestamped (D : DataFrame) : Prop :=
  Forall (λ r, timeStamp r ≠ NaT) (rows D).

(** Putting a popped target back next to the rows it came from. *)
Definition with_target (rs : list Row) (y : list float) : list Row :=
  zip_with
    (λ r v, mkRow (label r) (timeStamp r) (<[target_column_name := v]> (cells r)))
    rs y.

(** The forecast origin as section 4.3 of the notebook words it: "the last
    time at which a definite (non-NaN) value is seen". *)
Definition forecast_origin (ts : list Timestamp) (y : list float)
  : option Timestamp :=
  last (fst <$> filter (λ p, is_nan p.2 = false) (zip ts y)).

(** ** Closed forms of the states the cells leave behind *)

Definition train_rows (c : Z) (D : DataFrame) : list Row :=
  take_mask (series_lt (timeStamp <$> rows D) c) (rows D).

Definition test_rows (c : Z) (D : DataFrame) : list Row :=
  take_mask (series_ge (timeStamp <$> rows D) c) (rows D).

Definition features (D : DataFrame) : list string :=
  filter (λ c, c ≠ target_column_name) (columns D).

(** After the two selections. *)
Definition selected (c : Z) (σ : state) (D : DataFrame) : state :=
  let n := length (heap σ) in
  mkState
    (<["X_test" := (n + 1)%nat]> (<["X_train" := n]> (globals σ)))
    (heap σ ++
       [ OFrame (mkFrame (columns D) (train_rows c D));
         OFrame (mkFrame (columns D) (test_rows c D)) ]).

(** After the two pops. *)
Definition split_post (c : Z) (σ : state) (D : DataFrame) : state :=
  let n := length (heap σ) in
  mkState
    (<["y_test" := (n + 3)%nat]> (<["y_train" := (n + 2)%nat]>
       (<["X_test" := (n + 1)%nat]> (<["X_train" := n]> (globals σ)))))
    (heap σ ++
       [ OFrame (mkFrame (features D)
                   (drop_cell target_column_name <$> train_rows c D));
         OFrame (mkFrame (features D)
                   (drop_cell target_column_name <$> test_rows c D));
         OArray (cell_of target_column_name <$> train_rows c D);
         OArray (cell_of target_column_name <$> test_rows c D) ]).

(** After cell 4.3 has bound the predictions [p]. *)
Definition with_predictions (σ : state) (p : list float) : state :=
  mkState (<["y_pred_test" := length (heap σ)]> (globals σ))
          (heap σ ++ [OArray p]).

(** After cell 4.3 has bound the residuals [r] as well. *)
Definition with_residuals (σ : state) (p r : list float) : state :=
  let n := length (heap σ) in
  mkState
    (<["y_residual_test" := (n + 1)%nat]> (<["y_pred_test" := n]> (globals σ)))
    (heap σ ++ [OArray p; OArray r]).

(** After the query vector has been built from the test targets [a]. *)
Definition with_query (σ : state) (a : list float) : state :=
  let n := length (heap σ) in
  mkState
    (<["y_query" := (n + 1)%nat]> (globals σ))
    (heap σ ++ [OArray a; OArray ((λ _, np_nan) <$> a)]).

(** After [forecast] has answered [(f, Xt)]. *)
Definition with_forecast (σ : state) (f : list float) (Xt : DataFrame) : state :=
  let n := length (heap σ) in
  mkState
    (<["X_trans" := (n + 1)%nat]> (<["y_fcst" := n]> (globals σ)))
    (heap σ ++ [OArray f; OFrame Xt]).

(** ** Cells 2.1: the two plots of the raw data *)

(** [series > c] and [series <= c] on a datetime column. *)
Definition ts_gt (t : Timestamp) (c : Z) : bool :=
  match t with NaT => false | At ns => ns >? c end.

Definition ts_le (t : Timestamp) (c : Z) : bool :=
  match t with NaT => false | At ns => ns <=? c end.

Definition series_gt (ts : list Timestamp) (c : Z) : list bool :=
  (λ t, ts_gt t c) <$> ts.

Definition series_le (ts : list Timestamp) (c : Z) : list bool :=
  (λ t, ts_le t c) <$> ts.

(** [a & b] on two boolean Series taken from the same frame. *)
Definition series_and (a b : list bool) : list bool := zip_with andb a b.

(** [df[name]] for a float64 column; [KeyError] when the frame has no
    such column. *)
Definition df_float_column (l : loc) (name : string) : M (list float) :=
  df ← deref_frame l;
  if decide (name ∈ columns df)
  then mret (cell_of name <$> rows df)
  else lift (Raise KeyError).

(** [df.copy()]: a new frame with the same content. *)
Definition df_copy (l : loc) : M loc :=
  df ← deref_frame l; alloc (OFrame df).

(** [plt.plot(x, y)]: matplotlib refuses an [x] and a [y] of different
    lengths; the figure it draws on is not part of the state. *)
Definition plt_plot {A : Type} (x : list A) (y : list float) : M unit :=
  if decide (length x = length y) then mret tt else lift (Raise ValueError).

(** The dates of the two plots, '2016-07-01', '2016-07-07', '2016-01-01'
    and '2017-01-01', as pandas timestamps. *)
Definition date_2016_07_01 : Z := 1467331200000000000.
Definition date_2016_07_07 : Z := 1467849600000000000.
Definition date_2016_01_01 : Z := 1451606400000000000.
Definition date_2017_01_01 : Z := 1483228800000000000.

(** [plt_df = data.loc[(data.timeStamp > lo) & (data.timeStamp <= hi)]]
    [plt.plot(plt_df['timeStamp'], plt_df['demand'])]
    (title, ticks and [show] leave the state alone) *)
Definition week_plot_cell (lo hi : Z) : M unit :=
  data ← load "data";
  d1 ← load "data";
  ts1 ← df_time_column d1;
  d2 ← load "data";
  ts2 ← df_time_column d2;
  plt_df ← df_getitem_mask data (series_and (series_gt ts1 lo) (series_le ts2 hi));
  store "plt_df" plt_df;;
  p ← load "plt_df";
  x ← df_time_column p;
  p ← load "plt_df";
  y ← df_float_column p "demand";
  plt_plot x y.

(** [plt_df = data.copy().loc[(data['timeStamp'] >= lo)
                              & (data['timeStamp'] < hi), ]]
    [plt.plot(plt_df['timeStamp'], plt_df['demand'], markersize=1)] *)
Definition year_plot_cell (lo hi : Z) : M unit :=
  data ← load "data";
  cp ← df_copy data;
  d1 ← load "data";
  ts1 ← df_time_column d1;
  d2 ← load "data";
  ts2 ← df_time_column d2;
  plt_df ← df_getitem_mask cp (series_and (series_ge ts1 lo) (series_lt ts2 hi));
  store "plt_df" plt_df;;
  p ← load "plt_df";
  x ← df_time_column p;
  p ← load "plt_df";
  y ← df_float_column p "demand";
  plt_plot x y.

(** The two cells with the notebook's dates. *)
Definition cell_2_1_week : M unit :=
  week_plot_cell date_2016_07_01 date_2016_07_07.

Definition cell_2_1_year : M unit :=
  year_plot_cell date_2016_01_01 date_2017_01_01.

(** ** Cell 4.3, the two plots *)

(** [plt.plot(X_test['timeStamp'], y_test, label='Actual')]
    [plt.plot(X_test['timeStamp'], y_pred_test, label="Predicted")] *)
Definition test_plots : M unit :=
  X_test ← load "X_test";
  x ← df_time_column X_test;
  y_test ← load "y_test";
  a ← deref_array y_test;
  plt_plot x a;;
  X_test ← load "X_test";
  x ← df_time_column X_test;
  y_pred_test ← load "y_pred_test";
  p ← deref_array y_pred_test;
  plt_plot x p.

(** Cell 4.3 in full. *)
Definition test_cell_with_plots (fitted_model : FittedModel) : M unit :=
  test_cell fitted_model;; test_plots.

(** ** Cell 5, the feature names *)

(** [features = X_trans.columns[:-1]], on the column labels: every label
    but the last. *)
Definition columns_but_last (cols : list string) : list string :=
  take (length cols - 1) cols.

(** ** Cell 4.1: the metrics of the child runs *)

(** A value logged as a metric of a run. *)
Inductive metric : Type :=
  | MFloat (x : float)
  | MInt (n : Z)
  | MStr (s : string)
  | MTable (t : list float).

(** What the cell reads of a child run: [get_properties()] and
    [get_metrics()]. *)
Record Run : Type := mkRun {
  run_properties : gmap string string;
  run_metrics : gmap string metric
}.

(** [isinstance(v, float)] *)
Definition as_float (v : metric) : option float :=
  match v with MFloat x => Some x | _ => None end.

(** [{k: v for k, v in run.get_metrics().items() if isinstance(v, float)}] *)
Definition float_metrics (run : Run) : gmap string float :=
  omap as_float (run_metrics run).

Section MetricsCell.
(** Python's [int] on a string; [None] stands for its [ValueError]. *)
Variable py_int : string → option Z.

(** [int(properties['iteration'])] *)
Definition iteration_of (run : Run) : result Z :=
  match run_properties run !! "iteration" with
  | None => Raise KeyError
  | Some s =>
      match py_int s with
      | Some i => Ok i
      | None => Raise ValueError
      end
  end.

(** [for run in children: ... metricslist[int(properties['iteration'])] = metrics]
    The dictionary built so far survives a raise. *)
Fixpoint metrics_loop (children : list Run)
    (metricslist : gmap Z (gmap string float))
  : result unit * gmap Z (gmap string float) :=
  match children with
  | [] => (Ok tt, metricslist)
  | run :: rest =>
      match iteration_of run with
      | Ok i => metrics_loop rest (<[i := float_metrics run]> metricslist)
      | Raise e => (Raise e, metricslist)
      end
  end.
End MetricsCell.

(** [pd.DataFrame(metricslist)]: one column per iteration, one row per
    metric name, NaN where an iteration lacks a metric. *)
Record MetricsFrame : Type := mkMetricsFrame {
  mf_columns : list Z;
  mf_index : gset string;
  mf_data : gmap Z (gmap string float)
}.

(** [rundata[i][k]]: the cell of column [i] in row [k].  The frame has
    to have the column and the row, [KeyError] otherwise; the cell is NaN
    where iteration [i] lacks the metric [k]. *)
Definition mf_getitem (f : MetricsFrame) (i : Z) (k : string) : result float :=
  if decide (i ∈ mf_columns f) then
    if decide (k ∈ mf_index f) then
      Ok (default np_nan (mf_data f !! i ≫= (λ d, d !! k)))
    else Raise KeyError
  else Raise KeyError.

(** [pd.DataFrame(metricslist).sort_index(1)]: the columns in ascending
    order of their labels. *)
Definition rundata_of (metricslist : gmap Z (gmap string float)) : MetricsFrame :=
  mkMetricsFrame
    (merge_sort Z.le (elements (dom metricslist)))
    (⋃ ((λ p, dom p.2) <$> map_to_list metricslist))
    metricslist.

(** The cell: [metricslist = {}], the loop, [rundata]. *)
Definition metrics_cell (py_int : string → option Z) (children : list Run)
  : result MetricsFrame * gmap Z (gmap string float) :=
  match metrics_loop py_int children ∅ with
  | (Ok _, metricslist) => (Ok (rundata_of metricslist), metricslist)
  | (Raise e, metricslist) => (Raise e, metricslist)
  end.

(** ** More notions used to state the properties *)

(** Timestamps in ascending order, as an hourly series is. *)
Definition ts_before (t1 t2 : Timestamp) : Prop :=
  match t1, t2 with
  | At a, At b => a ≤ b
  | _, _ => False
  end.

Definition ascending (D : DataFrame) : Prop :=
  StronglySorted (λ r1 r2, ts_before (timeStamp r1) (timeStamp r2)) (rows D).

(** Three child runs to run the metrics cell on: iterations 1, 0 and 1
    again. *)
Definition first_report : Run :=
  mkRun (<["iteration" := "1"]> ∅)
        (<["r2_score" := MFloat 0.5]> (<["run_algorithm" := MStr "ElasticNet"]> ∅)).

Definition second_report : Run :=
  mkRun (<["iteration" := "0"]> ∅)
        (<["r2_score" := MFloat 0.25]> (<["residuals" := MTable [1; 2]%float]> ∅)).

Definition third_report : Run :=
  mkRun (<["iteration" := "1"]> ∅)
        (<["r2_score" := MFloat 0.75]> (<["n_features" := MInt 3]> ∅)).

Definition demo_children : list Run :=
  [first_report; second_report; third_report].

(** A fourth run, iteration 2, with a metric no other run has. *)
Definition fourth_report : Run :=
  mkRun (<["iteration" := "2"]> ∅) (<["mape" := MFloat 1.5]> ∅).

(** A run whose iteration is not a number. *)
Definition unreadable_report : Run := mkRun (<["iteration" := "two"]> ∅) ∅.

(** A run that changes no object that existed before it and rebinds no
    name outside [names]. *)
Definition untouched_outside (names : list string) (σ σ' : state) : Prop :=
  (∀ l o, heap σ !! l = Some o → heap σ' !! l = Some o) ∧
  (∀ x, x ∉ names → globals σ' !! x = globals σ !! x).

Definition keeps_outside {A : Type} (names : list string) (m : M A) : Prop :=
  ∀ σ, untouched_outside names σ (m σ).2.

(** The four-row dataset without its demand column, and the three-row
    dataset with a blank timestamp, loaded. *)
Definition no_target_frame : DataFrame := mkFrame ["temp"] (rows demo_frame).

Definition no_target_state : state :=
  mkState (<["data" := 0%nat]> ∅) [OFrame no_target_frame].

Definition untimed_state : state :=
  mkState (<["data" := 0%nat]> ∅) [OFrame untimed_frame].

(** The dataset whose demand never moves, loaded. *)
Definition flat_state : state :=
  mkState (<["data" := 0%nat]> ∅) [OFrame flat_frame].

(** A row without a timestamp. *)
Definition untimed (r : Row) : bool :=
  match timeStamp r with NaT => true | At _ => false end.

(** Python's [int] cut down to strings of ASCII digits, to run the metrics
    cell on examples: a sign, surrounding blanks or underscores, which
    [int] accepts, are not read.  The properties of the metrics cell are
    stated for any reading of [int]. *)
Fixpoint digits_value (s : string) (acc : Z) : option Z :=
  match s with
  | EmptyString => Some acc
  | String ch s' =>
      let n := Z.of_nat (Ascii.nat_of_ascii ch) in
      if (48 <=? n) && (n <=? 57)
      then digits_value s' (10 * acc + (n - 48))
      else None
  end.

Definition digits_int (s : string) : option Z :=
  match s with
  | EmptyString => None
  | _ => digits_value s 0
  end.

(** A dataset whose second row has no demand reading: the cell is NaN. *)
Definition gap_frame : DataFrame :=
  mkFrame ["demand"; "temp"]
    [ row 0 100 7%float 20.5%float;
      row 1 200 np_nan 21%float;
      row 2 300 9%float 19%float;
      row 3 400 10%float 18.5%float ].

Definition gap_state : state :=
  mkState (<["data" := 0%nat]> ∅) [OFrame gap_frame].

(** Six readings with the dates the notebook's cells compare against:
    2015-12-31, 2016-03-01, 2016-07-04, 2017-01-15, 2017-02-01 and
    2017-03-01, each at midnight, in nanoseconds. *)
Definition dated_frame : DataFrame :=
  mkFrame ["demand"; "temp"]
    [ row 0 1451520000000000000 7%float 20.5%float;
      row 1 1456790400000000000 8%float 21%float;
      row 2 1467590400000000000 9%float 19%float;
      row 3 1484438400000000000 10%float 18.5%float;
      row 4 1485907200000000000 11%float 18%float;
      row 5 1488326400000000000 12%float 17.5%float ].

Definition dated_state : state :=
  mkState (<["data" := 0%nat]> ∅) [OFrame dated_frame].

(** * Properties *)

(** ** Running statements *)

Section Stepping.
Context {A B : Type}.
Implicit Types (f : A → M B) (σ : state).

Lemma bind_ok (m : M A) f σ a σ' :
  m σ = (Ok a, σ') → (m ≫= f) σ = f a σ'.
Proof. intros H. unfold mbind, M_bind. by rewrite H. Qed.

Lemma bind_raise (m : M A) f σ e σ' :
  m σ = (Raise e, σ') → (m ≫= f) σ = (Raise e, σ').
Proof. intros H. unfold mbind, M_bind. by rewrite H. Qed.

Lemma bind_assoc {C : Type} (m : M C) (g : C → M A) f σ :
  ((m ≫= g) ≫= f) σ = (m ≫= λ c, g c ≫= f) σ.
Proof. unfold mbind, M_bind. by destruct (m σ) as [[c|e] σ']. Qed.

Lemma mret_bind (a : A) f σ : (mret a ≫= f) σ = f a σ.
Proof. done. Qed.

Lemma lift_bind (r : result A) f σ a :
  r = Ok a → (lift r ≫= f) σ = f a σ.
Proof. by intros ->. Qed.

Lemma lift_bind_raise (r : result A) f σ e :
  r = Raise e → (lift r ≫= f) σ = (Raise e, σ).
Proof. by intros ->. Qed.
End Stepping.

Section SteppingPrimitives.
Context {B : Type}.
Implicit Types (σ : state).

Lemma load_bind x (f : loc → M B) σ l :
  globals σ !! x = Some l → (load x ≫= f) σ = f l σ.
Proof. intros H. apply bind_ok. unfold load. by rewrite H. Qed.

Lemma store_bind x l (f : unit → M B) σ :
  (store x l ≫= f) σ = f tt (mkState (<[x := l]> (globals σ)) (heap σ)).
Proof. done. Qed.

Lemma alloc_bind o (f : loc → M B) σ :
  (alloc o ≫= f) σ
  = f (length (heap σ)) (mkState (globals σ) (heap σ ++ [o])).
Proof. done. Qed.

Lemma assign_bind l o (f : unit → M B) σ :
  (assign l o ≫= f) σ = f tt (mkState (globals σ) (<[l := o]> (heap σ))).
Proof. done. Qed.

Lemma deref_frame_bind l (f : DataFrame → M B) σ df :
  heap σ !! l = Some (OFrame df) → (deref_frame l ≫= f) σ = f df σ.
Proof. intros H. apply bind_ok. unfold deref_frame. by rewrite H. Qed.

Lemma deref_array_bind l (f : list float → M B) σ a :
  heap σ !! l = Some (OArray a) → (deref_array l ≫= f) σ = f a σ.
Proof. intros H. apply bind_ok. unfold deref_array. by rewrite H. Qed.
End SteppingPrimitives.

(** ** The heap grows at its end *)

Lemma heap_lookup_new (h t : list obj) (k : nat) :
  (h ++ t) !! (length h + k)%nat = t !! k.
Proof. rewrite lookup_app_r by lia. f_equal. lia. Qed.

Lemma heap_lookup_new0 (h t : list obj) :
  (h ++ t) !! (length h) = t !! 0%nat.
Proof. rewrite <- (heap_lookup_new h t 0). f_equal. lia. Qed.

Lemma heap_insert_new0 (h t : list obj) o :
  <[length h := o]> (h ++ t) = h ++ <[0%nat := o]> t.
Proof. rewrite <- (insert_app_r h t 0). f_equal. lia. Qed.

Lemma heap_lookup_old (h t : list obj) l o :
  h !! l = Some o → (h ++ t) !! l = Some o.
Proof. apply lookup_app_l_Some. Qed.

(** ** Cell 2.2 step by step *)

Lemma series_lt_length ts c : length (series_lt ts c) = length ts.
Proof. apply length_fmap. Qed.

Lemma series_ge_length ts c : length (series_ge ts c) = length ts.
Proof. apply length_fmap. Qed.

Lemma getitem_mask_lt D c :
  getitem_mask D (series_lt (timeStamp <$> rows D) c)
  = Ok (mkFrame (columns D) (train_rows c D)).
Proof.
  unfold getitem_mask. rewrite series_lt_length, length_fmap.
  by rewrite decide_True.
Qed.

Lemma getitem_mask_ge D c :
  getitem_mask D (series_ge (timeStamp <$> rows D) c)
  = Ok (mkFrame (columns D) (test_rows c D)).
Proof.
  unfold getitem_mask. rewrite series_ge_length, length_fmap.
  by rewrite decide_True.
Qed.

Lemma select_rows_run c σ d D :
  globals σ !! "data" = Some d →
  heap σ !! d = Some (OFrame D) →
  select_rows c σ = (Ok tt, selected c σ D).
Proof.
  intros Hd Hh. unfold select_rows, df_time_column, df_getitem_mask.
  rewrite (load_bind _ _ _ d) by done.
  rewrite bind_assoc, (deref_frame_bind _ _ _ D) by done.
  rewrite mret_bind, !bind_assoc, (deref_frame_bind _ _ _ D) by done.
  rewrite bind_assoc, (lift_bind _ _ _ _ (getitem_mask_lt D c)).
  rewrite alloc_bind, store_bind. simpl.
  rewrite (load_bind _ _ _ d) by (simpl; by rewrite lookup_insert_ne).
  rewrite bind_assoc, (deref_frame_bind _ _ _ D)
    by (simpl; by apply heap_lookup_old).
  rewrite mret_bind, !bind_assoc, (deref_frame_bind _ _ _ D)
    by (simpl; by apply heap_lookup_old).
  rewrite bind_assoc, (lift_bind _ _ _ _ (getitem_mask_ge D c)).
  rewrite alloc_bind. unfold store, selected. simpl.
  by rewrite length_app, <- app_assoc.
Qed.

Lemma pop_column_target D rs :
  target_column_name ∈ columns D →
  pop_column (mkFrame (columns D) rs) target_column_name
  = Ok (cell_of target_column_name <$> rs,
        mkFrame (features D) (drop_cell target_column_name <$> rs)).
Proof. intros H. unfold pop_column. simpl. by rewrite decide_True. Qed.

Lemma pop_column_missing D rs :
  target_column_name ∉ columns D →
  pop_column (mkFrame (columns D) rs) target_column_name = Raise KeyError.
Proof. intros H. unfold pop_column. simpl. by rewrite decide_False. Qed.

Lemma pop_targets_run c σ D :
  target_column_name ∈ columns D →
  pop_targets (selected c σ D) = (Ok tt, split_post c σ D).
Proof.
  intros Ht. unfold pop_targets, df_pop_values, selected.
  rewrite (load_bind _ _ _ (length (heap σ))) by (simpl; by simplify_map_eq).
  rewrite bind_assoc,
    (deref_frame_bind _ _ _ (mkFrame (columns D) (train_rows c D)))
    by (simpl; by rewrite heap_lookup_new0).
  rewrite bind_assoc, (lift_bind _ _ _ _ (pop_column_target D _ Ht)).
  rewrite bind_assoc, assign_bind, alloc_bind, store_bind. simpl.
  rewrite heap_insert_new0. simpl.
  rewrite (load_bind _ _ _ (length (heap σ) + 1)%nat)
    by (simpl; by simplify_map_eq).
  rewrite bind_assoc,
    (deref_frame_bind _ _ _ (mkFrame (columns D) (test_rows c D)))
    by (simpl; by rewrite <- app_assoc, heap_lookup_new).
  rewrite bind_assoc, (lift_bind _ _ _ _ (pop_column_target D _ Ht)).
  rewrite bind_assoc, assign_bind, alloc_bind. unfold store, split_post. simpl.
  rewrite <- !app_assoc. simpl. rewrite insert_app_r. simpl.
  rewrite !length_app. simpl.
  by rewrite <- app_assoc.
Qed.

Lemma split_cell_run c σ d D :
  globals σ !! "data" = Some d →
  heap σ !! d = Some (OFrame D) →
  target_column_name ∈ columns D →
  split_cell c σ = (Ok tt, split_post c σ D).
Proof.
  intros Hd Hh Ht. unfold split_cell.
  rewrite (bind_ok _ _ _ _ _ (select_rows_run c σ d D Hd Hh)).
  by apply pop_targets_run.
Qed.

(** The cell on the four-row dataset, split at its third row. *)
Example demo_split_targets :
  let σ := (split_cell 300 demo_state).2 in
  array_of σ "y_train" = Some [7%float; 8%float] ∧
  array_of σ "y_test" = Some [9%float; 10%float] ∧
  (columns <$> frame_of σ "X_train") = Some ["temp"] ∧
  (length ∘ rows <$> frame_of σ "X_test") = Some 2%nat ∧
  frame_of σ "data" = Some demo_frame.
Proof. vm_compute. repeat split; reflexivity. Qed.

(** ** Masks are filters *)

Lemma take_mask_fmap {A : Type} (p : A → bool) (l : list A) :
  take_mask (p <$> l) l = filter (λ x, p x) l.
Proof.
  induction l as [|x l IH]; [done|].
  rewrite fmap_cons. cbn [take_mask]. rewrite IH.
  destruct (p x) eqn:E.
  - rewrite filter_cons_True; [done|]. by rewrite E.
  - rewrite filter_cons_False; [done|]. rewrite E. tauto.
Qed.

Lemma train_rows_filter c D :
  train_rows c D = filter (λ r, ts_lt (timeStamp r) c) (rows D).
Proof.
  unfold train_rows, series_lt. rewrite <- list_fmap_compose.
  apply (take_mask_fmap (λ r, ts_lt (timeStamp r) c)).
Qed.

Lemma test_rows_filter c D :
  test_rows c D = filter (λ r, ts_ge (timeStamp r) c) (rows D).
Proof.
  unfold test_rows, series_ge. rewrite <- list_fmap_compose.
  apply (take_mask_fmap (λ r, ts_ge (timeStamp r) c)).
Qed.

(** A timestamp is on exactly one side of the cutoff, unless it is [NaT],
    which is on neither. *)
Lemma ts_ge_not_lt t c : t ≠ NaT → ts_ge t c = negb (ts_lt t c).
Proof.
  destruct t as [|ns]; [done|]. intros _. simpl.
  rewrite Z.geb_leb. destruct (Z.ltb_spec ns c), (Z.leb_spec c ns); simpl; lia.
Qed.

Lemma ts_lt_ge_exclusive t c : ts_lt t c → ts_ge t c → False.
Proof.
  destruct t as [|ns]; simpl; [done|].
  rewrite Z.geb_leb. intros H1%Is_true_true H2%Is_true_true. lia.
Qed.

Lemma NaT_on_neither_side c : ts_lt NaT c = false ∧ ts_ge NaT c = false.
Proof. done. Qed.

Lemma filter_sides_perm (rs : list Row) c :
  Forall (λ r, timeStamp r ≠ NaT) rs →
  filter (λ r, ts_lt (timeStamp r) c) rs
    ++ filter (λ r, ts_ge (timeStamp r) c) rs ≡ₚ rs.
Proof.
  induction 1 as [|r rs Hr _ IH]; [done|].
  pose proof (ts_ge_not_lt _ c Hr) as Hge.
  destruct (ts_lt (timeStamp r) c) eqn:E; simpl in Hge.
  - rewrite filter_cons_True by (by rewrite E).
    rewrite (filter_cons_False (λ r, ts_ge (timeStamp r) c))
      by (rewrite Hge; simpl; tauto).
    simpl. by rewrite IH.
  - rewrite filter_cons_False by (rewrite E; simpl; tauto).
    rewrite (filter_cons_True (λ r, ts_ge (timeStamp r) c))
      by (by rewrite Hge).
    by rewrite <- Permutation_middle, IH.
Qed.

Lemma Forall_filter_keep {A : Type} (P Q : A → Prop)
    `{∀ x, Decision (Q x)} (l : list A) :
  Forall P l → Forall P (filter Q l).
Proof.
  rewrite !Forall_forall. intros HP x [_ Hx]%list_elem_of_filter. auto.
Qed.

(** A row without a timestamp is selected by neither mask: of the three
    rows of [untimed_frame] one goes to train and one to test. *)
Example split_drops_untimed_rows :
  (length ∘ rows <$> frame_of (untimed_split 300) "X_train") = Some 1%nat ∧
  (length ∘ rows <$> frame_of (untimed_split 300) "X_test") = Some 1%nat ∧
  length (rows untimed_frame) = 3%nat.
Proof. vm_compute. repeat split; reflexivity. Qed.

(** ** Popping a column and putting it back *)

Lemma with_target_restores (rs : list Row) :
  Forall (λ r, is_Some (cells r !! target_column_name)) rs →
  with_target (drop_cell target_column_name <$> rs)
              (cell_of target_column_name <$> rs) = rs.
Proof.
  induction 1 as [|r rs [v Hv] _ IH]; [done|].
  unfold with_target in *. rewrite !fmap_cons. cbn [zip_with].
  rewrite IH. f_equal.
  destruct r as [i t m]. unfold cell_of. simpl in *. rewrite Hv. simpl.
  by rewrite insert_delete_id.
Qed.

Lemma target_not_in_features D : target_column_name ∉ features D.
Proof. unfold features. rewrite list_elem_of_filter. by intros [? _]. Qed.

Lemma drop_cell_lookup name r : cells (drop_cell name r) !! name = None.
Proof. apply lookup_delete_eq. Qed.

(** ** Reading the state after the split *)

Section AfterSplit.
Context (c : Z) (σ : state) (D : DataFrame).

Lemma split_post_X_train :
  frame_of (split_post c σ D) "X_train"
  = Some (mkFrame (features D)
            (drop_cell target_column_name <$> train_rows c D)).
Proof.
  unfold frame_of, split_post. simpl.
  rewrite !lookup_insert_ne, lookup_insert_eq by done. simpl.
  by rewrite heap_lookup_new0.
Qed.

Lemma split_post_X_test :
  frame_of (split_post c σ D) "X_test"
  = Some (mkFrame (features D)
            (drop_cell target_column_name <$> test_rows c D)).
Proof.
  unfold frame_of, split_post. simpl.
  rewrite !lookup_insert_ne, lookup_insert_eq by done. simpl.
  by rewrite heap_lookup_new.
Qed.

Lemma split_post_y_train :
  array_of (split_post c σ D) "y_train"
  = Some (cell_of target_column_name <$> train_rows c D).
Proof.
  unfold array_of, split_post. simpl.
  rewrite !lookup_insert_ne, lookup_insert_eq by done. simpl.
  by rewrite heap_lookup_new.
Qed.

Lemma split_post_y_test :
  array_of (split_post c σ D) "y_test"
  = Some (cell_of target_column_name <$> test_rows c D).
Proof.
  unfold array_of, split_post. simpl.
  rewrite lookup_insert_eq. simpl.
  by rewrite heap_lookup_new.
Qed.

Lemma split_post_old_heap l o :
  heap σ !! l = Some o → heap (split_post c σ D) !! l = Some o.
Proof. apply heap_lookup_old. Qed.

Lemma split_post_old_global x :
  x ∉ ["X_train"; "X_test"; "y_train"; "y_test"] →
  globals (split_post c σ D) !! x = globals σ !! x.
Proof.
  intros Hx. unfold split_post. simpl.
  rewrite !lookup_insert_ne; [done|intros <-; apply Hx; set_solver..].
Qed.
End AfterSplit.

Lemma demo_has_target : has_target demo_frame.
Proof.
  split; [set_solver|].
  unfold demo_frame, row. simpl. repeat constructor; by eexists.
Qed.

Lemma demo_timestamped : timestamped demo_frame.
Proof. unfold timestamped. simpl. repeat constructor; done. Qed.

Lemma untimed_has_target : has_target untimed_frame.
Proof.
  split; [apply list_elem_of_here|].
  unfold untimed_frame, row. simpl. repeat constructor; by eexists.
Qed.

(** Each row is on one side of the cutoff or has no timestamp. *)
Lemma one_side_or_untimed (r : Row) c :
  (ts_lt (timeStamp r) c = true ∧ ts_ge (timeStamp r) c = false
   ∧ untimed r = false) ∨
  (ts_lt (timeStamp r) c = false ∧ ts_ge (timeStamp r) c = true
   ∧ untimed r = false) ∨
  (ts_lt (timeStamp r) c = false ∧ ts_ge (timeStamp r) c = false
   ∧ untimed r = true).
Proof.
  unfold untimed. destruct (timeStamp r) as [|ns]; simpl; [tauto|].
  rewrite Z.geb_leb.
  destruct (Z.ltb_spec ns c), (Z.leb_spec c ns); try lia; tauto.
Qed.

Lemma filter_cons_bool {A : Type} (p : A → bool) (x : A) (l : list A) :
  filter (λ y, p y) (x :: l)
  = if p x then x :: filter (λ y, p y) l else filter (λ y, p y) l.
Proof.
  destruct (p x) eqn:E.
  - rewrite filter_cons_True; [done|]. by rewrite E.
  - rewrite filter_cons_False; [done|]. rewrite E. simpl. tauto.
Qed.

Lemma filter_sides_untimed_perm (rs : list Row) c :
  filter (λ r, ts_lt (timeStamp r) c) rs
    ++ filter (λ r, ts_ge (timeStamp r) c) rs
    ++ filter (λ r, untimed r) rs ≡ₚ rs.
Proof.
  induction rs as [|r rs IH]; [done|].
  rewrite (filter_cons_bool (λ r, ts_lt (timeStamp r) c)),
          (filter_cons_bool (λ r, ts_ge (timeStamp r) c)),
          (filter_cons_bool untimed).
  destruct (one_side_or_untimed r c) as
    [(-> & -> & ->)|[(-> & -> & ->)|(-> & -> & ->)]].
  - simpl. by constructor.
  - rewrite <- app_comm_cons, <- Permutation_middle. by constructor.
  - rewrite app_assoc, <- Permutation_middle, <- app_assoc. by constructor.
Qed.

(** ** The split is a partition *)

(** C1, as the code has it.  On a dataset in which every record has a
    target cell the split cell runs to the end.  The train partition is
    [X_train] with [y_train], the test partition [X_test] with [y_test],
    as the later cells pass them on.  With the targets put back next to
    their rows on both sides, the train rows, the test rows and the rows
    of the dataset that have no timestamp are together the dataset's rows:
    none lost, none twice.  Train rows are strictly before the cutoff,
    test rows at or after it, no row is on both sides, and a row without
    a timestamp is on neither.  So when every record has a timestamp, the
    train rows together with the test rows are the dataset's rows. *)
Theorem split_partitions_timed_rows
    (c : Z) (σ : state) (d : loc) (D : DataFrame) :
  globals σ !! "data" = Some d →
  heap σ !! d = Some (OFrame D) →
  has_target D →
  ∃ σ' X_train X_test y_train y_test,
    split_cell c σ = (Ok tt, σ') ∧
    frame_of σ' "X_train" = Some X_train ∧
    frame_of σ' "X_test" = Some X_test ∧
    array_of σ' "y_train" = Some y_train ∧
    array_of σ' "y_test" = Some y_test ∧
    with_target (rows X_train) y_train ++ with_target (rows X_test) y_test
      ++ filter (λ r, untimed r) (rows D) ≡ₚ rows D ∧
    (timestamped D →
     with_target (rows X_train) y_train ++ with_target (rows X_test) y_test
       ≡ₚ rows D) ∧
    (∀ r, r ∈ with_target (rows X_train) y_train → ts_lt (timeStamp r) c) ∧
    (∀ r, r ∈ with_target (rows X_test) y_test → ts_ge (timeStamp r) c) ∧
    (∀ r, r ∈ with_target (rows X_train) y_train →
          r ∈ with_target (rows X_test) y_test → False) ∧
    (∀ r, r ∈ rows D → timeStamp r = NaT →
          ¬ (r ∈ with_target (rows X_train) y_train) ∧
          ¬ (r ∈ with_target (rows X_test) y_test)).
Proof.
  intros Hd Hh [Hcol Hcells].
  assert (Htr : with_target (drop_cell target_column_name <$> train_rows c D)
                  (cell_of target_column_name <$> train_rows c D)
                = filter (λ r, ts_lt (timeStamp r) c) (rows D)).
  { rewrite with_target_restores; [apply train_rows_filter|].
    rewrite train_rows_filter. by apply Forall_filter_keep. }
  assert (Hte : with_target (drop_cell target_column_name <$> test_rows c D)
                  (cell_of target_column_name <$> test_rows c D)
                = filter (λ r, ts_ge (timeStamp r) c) (rows D)).
  { rewrite with_target_restores; [apply test_rows_filter|].
    rewrite test_rows_filter. by apply Forall_filter_keep. }
  eexists _, _, _, _, _.
  split; [by apply (split_cell_run c σ d D)|].
  split; [apply split_post_X_train|].
  split; [apply split_post_X_test|].
  split; [apply split_post_y_train|].
  split; [apply split_post_y_test|].
  simpl. rewrite Htr, Hte.
  split; [apply filter_sides_untimed_perm|].
  split; [by apply filter_sides_perm|].
  split; [|split; [|split]].
  - by intros r [? _]%list_elem_of_filter.
  - by intros r [? _]%list_elem_of_filter.
  - intros r [H1 _]%list_elem_of_filter [H2 _]%list_elem_of_filter.
    by apply (ts_lt_ge_exclusive (timeStamp r) c).
  - intros r _ Hr. split.
    + intros [H1 _]%list_elem_of_filter. by rewrite Hr in H1.
    + intros [H1 _]%list_elem_of_filter. by rewrite Hr in H1.
Qed.

Lemma split_partitions_timed_rows_witness :
  ∃ σ' X_train X_test y_train y_test,
    split_cell 300 untimed_state = (Ok tt, σ') ∧
    frame_of σ' "X_train" = Some X_train ∧
    frame_of σ' "X_test" = Some X_test ∧
    array_of σ' "y_train" = Some y_train ∧
    array_of σ' "y_test" = Some y_test ∧
    with_target (rows X_train) y_train ++ with_target (rows X_test) y_test
      ++ filter (λ r, untimed r) (rows untimed_frame) ≡ₚ rows untimed_frame ∧
    (timestamped untimed_frame →
     with_target (rows X_train) y_train ++ with_target (rows X_test) y_test
       ≡ₚ rows untimed_frame) ∧
    (∀ r, r ∈ with_target (rows X_train) y_train → ts_lt (timeStamp r) 300) ∧
    (∀ r, r ∈ with_target (rows X_test) y_test → ts_ge (timeStamp r) 300) ∧
    (∀ r, r ∈ with_target (rows X_train) y_train →
          r ∈ with_target (rows X_test) y_test → False) ∧
    (∀ r, r ∈ rows untimed_frame → timeStamp r = NaT →
          ¬ (r ∈ with_target (rows X_train) y_train) ∧
          ¬ (r ∈ with_target (rows X_test) y_test)).
Proof.
  apply (split_partitions_timed_rows 300 untimed_state 0%nat untimed_frame).
  - reflexivity.
  - reflexivity.
  - exact untimed_has_target.
Defined.

(** On the four-row dataset, where every row has a timestamp, the two
    sides with their targets put back are the four rows again. *)
Example split_of_demo_rows_is_exact :
  ∃ X_train X_test y_train y_test,
    frame_of (demo_split 300) "X_train" = Some X_train ∧
    frame_of (demo_split 300) "X_test" = Some X_test ∧
    array_of (demo_split 300) "y_train" = Some y_train ∧
    array_of (demo_split 300) "y_test" = Some y_test ∧
    with_target (rows X_train) y_train ++ with_target (rows X_test) y_test
      = rows demo_frame.
Proof. eexists _, _, _, _. repeat split; reflexivity. Qed.

(** The dataset with a blank timestamp in its second row, split at its
    third row: the cell runs to the end, row 0 goes to train and row 2 to
    test, and row 1 is in neither partition.  The two partitions do not
    reconstruct the dataset, whether or not the train targets are put
    back. *)
Lemma split_loses_row_without_timestamp :
  ∃ σ' X_train X_test y_train y_test,
    split_cell 300 untimed_state = (Ok tt, σ') ∧
    frame_of σ' "X_train" = Some X_train ∧
    frame_of σ' "X_test" = Some X_test ∧
    array_of σ' "y_train" = Some y_train ∧
    array_of σ' "y_test" = Some y_test ∧
    label <$> rows untimed_frame = [0; 1; 2] ∧
    label <$> rows X_train = [0] ∧
    label <$> rows X_test = [2] ∧
    ¬ (rows X_train ++ with_target (rows X_test) y_test
         ≡ₚ rows untimed_frame) ∧
    ¬ (with_target (rows X_train) y_train ++ with_target (rows X_test) y_test
         ≡ₚ rows untimed_frame).
Proof.
  eexists _, _, _, _, _.
  split.
  { apply (split_cell_run 300 untimed_state 0%nat untimed_frame);
      [reflexivity|reflexivity|apply list_elem_of_here]. }
  split; [apply split_post_X_train|].
  split; [apply split_post_X_test|].
  split; [apply split_post_y_train|].
  split; [apply split_post_y_test|].
  split; [reflexivity|].
  split; [reflexivity|].
  split; [reflexivity|].
  split; intros H%Permutation_length; vm_compute in H; discriminate.
Qed.

(** ** What the split does with the target column *)

Lemma filter_all {A : Type} (P : A → Prop) `{∀ x, Decision (P x)} (l : list A) :
  Forall P l → filter P l = l.
Proof.
  induction 1 as [|x l Hx _ IH]; [done|].
  by rewrite filter_cons_True, IH.
Qed.

Lemma filter_none {A : Type} (P : A → Prop) `{∀ x, Decision (P x)} (l : list A) :
  Forall (λ x, ¬ P x) l → filter P l = [].
Proof.
  induction 1 as [|x l Hx _ IH]; [done|].
  by rewrite filter_cons_False.
Qed.

Lemma dropped_rows_lack_target (rs : list Row) :
  Forall (λ r, cells r !! target_column_name = None)
         (drop_cell target_column_name <$> rs).
Proof. apply Forall_fmap, Forall_forall. intros r _. apply drop_cell_lookup. Qed.

(** C2, as the code has it.  Each record goes to the train side exactly
    when its timestamp is strictly before the cutoff and to the test side
    exactly when it is at or after it.  The target column is popped from
    both frames alike: neither frame lists it afterwards and no row of
    either keeps a cell in it (the test frame gets no sentinel).  The
    popped values are kept as [y_train] and [y_test], one per row of the
    frame they came from, in the same order. *)
Theorem split_pops_target_from_both (c : Z) (σ : state) (d : loc) (D : DataFrame) :
  globals σ !! "data" = Some d →
  heap σ !! d = Some (OFrame D) →
  target_column_name ∈ columns D →
  ∃ σ' X_train X_test y_train y_test,
    split_cell c σ = (Ok tt, σ') ∧
    frame_of σ' "X_train" = Some X_train ∧
    frame_of σ' "X_test" = Some X_test ∧
    array_of σ' "y_train" = Some y_train ∧
    array_of σ' "y_test" = Some y_test ∧
    rows X_train = (drop_cell target_column_name
                      <$> filter (λ r, ts_lt (timeStamp r) c) (rows D)) ∧
    rows X_test = (drop_cell target_column_name
                      <$> filter (λ r, ts_ge (timeStamp r) c) (rows D)) ∧
    y_train = (cell_of target_column_name
                 <$> filter (λ r, ts_lt (timeStamp r) c) (rows D)) ∧
    y_test = (cell_of target_column_name
                 <$> filter (λ r, ts_ge (timeStamp r) c) (rows D)) ∧
    length y_train = length (rows X_train) ∧
    length y_test = length (rows X_test) ∧
    ¬ (target_column_name ∈ columns X_train) ∧
    ¬ (target_column_name ∈ columns X_test) ∧
    Forall (λ r, cells r !! target_column_name = None)
           (rows X_train ++ rows X_test).
Proof.
  intros Hd Hh Hcol.
  eexists _, _, _, _, _.
  split; [by apply (split_cell_run c σ d D)|].
  split; [apply split_post_X_train|].
  split; [apply split_post_X_test|].
  split; [apply split_post_y_train|].
  split; [apply split_post_y_test|].
  simpl. rewrite train_rows_filter, test_rows_filter.
  repeat split; try done.
  - by rewrite !length_fmap.
  - by rewrite !length_fmap.
  - apply target_not_in_features.
  - apply target_not_in_features.
  - apply Forall_app; split; apply dropped_rows_lack_target.
Qed.

Lemma split_pops_target_from_both_witness :
  ∃ σ' X_train X_test y_train y_test,
    split_cell 300 demo_state = (Ok tt, σ') ∧
    frame_of σ' "X_train" = Some X_train ∧
    frame_of σ' "X_test" = Some X_test ∧
    array_of σ' "y_train" = Some y_train ∧
    array_of σ' "y_test" = Some y_test ∧
    rows X_train = (drop_cell target_column_name
                      <$> filter (λ r, ts_lt (timeStamp r) 300) (rows demo_frame)) ∧
    rows X_test = (drop_cell target_column_name
                      <$> filter (λ r, ts_ge (timeStamp r) 300) (rows demo_frame)) ∧
    y_train = (cell_of target_column_name
                 <$> filter (λ r, ts_lt (timeStamp r) 300) (rows demo_frame)) ∧
    y_test = (cell_of target_column_name
                 <$> filter (λ r, ts_ge (timeStamp r) 300) (rows demo_frame)) ∧
    length y_train = length (rows X_train) ∧
    length y_test = length (rows X_test) ∧
    ¬ (target_column_name ∈ columns X_train) ∧
    ¬ (target_column_name ∈ columns X_test) ∧
    Forall (λ r, cells r !! target_column_name = None)
           (rows X_train ++ rows X_test).
Proof.
  apply (split_pops_target_from_both 300 demo_state 0%nat demo_frame).
  - reflexivity.
  - reflexivity.
  - apply demo_has_target.
Defined.

(** The train frame of the four-row dataset, split at its third row, has
    lost the target column: it is not retained in train. *)
Lemma train_frame_loses_target :
  ∃ σ' X_train,
    split_cell 300 demo_state = (Ok tt, σ') ∧
    frame_of σ' "X_train" = Some X_train ∧
    columns demo_frame = ["demand"; "temp"] ∧
    columns X_train = ["temp"] ∧
    ¬ (target_column_name ∈ columns X_train) ∧
    Forall (λ r, cells r !! target_column_name = None) (rows X_train).
Proof.
  eexists _, _.
  split; [apply (split_cell_run 300 demo_state 0%nat demo_frame);
          [done|done|apply demo_has_target]|].
  split; [apply split_post_X_train|].
  split; [done|]. split; [done|]. split.
  - apply target_not_in_features.
  - apply dropped_rows_lack_target.
Qed.

(** ** Empty partitions *)




(** A cutoff at the last timestamp keeps the last row on the test side. *)
Example split_at_last_row :
  (length ∘ rows <$> frame_of (split_cell 400 demo_state).2 "X_test")
  = Some 1%nat.
Proof. vm_compute. reflexivity. Qed.

(** ** The loaded frame and the objects made from it *)

(** C9, as the code has it.  The split cell leaves the loaded frame as it
    was: [data] names the same object, and that object, like every object
    that existed before the cell ran, holds what it held (same rows, same
    columns with the target among them, same values).  The two partitions
    are new objects, distinct from the loaded frame and from each other.
    They are not left as they were selected: each is created by its
    selection with the target column, as the rows of the loaded frame on
    its side of the cutoff, and the [pop] that follows rewrites that same
    object in place, which then lists every column but the target and
    holds the same rows less their target cell. *)
Theorem split_leaves_data_alone (c : Z) (σ : state) (d : loc) (D : DataFrame) :
  globals σ !! "data" = Some d →
  heap σ !! d = Some (OFrame D) →
  target_column_name ∈ columns D →
  ∃ σ' l_train l_test,
    split_cell c σ = (Ok tt, σ') ∧
    globals σ' !! "data" = Some d ∧
    heap σ' !! d = Some (OFrame D) ∧
    frame_of σ' "data" = Some D ∧
    (∀ l o, heap σ !! l = Some o → heap σ' !! l = Some o) ∧
    globals σ' !! "X_train" = Some l_train ∧
    globals σ' !! "X_test" = Some l_test ∧
    heap σ !! l_train = None ∧
    heap σ !! l_test = None ∧
    (l_train ≠ d ∧ l_test ≠ d ∧ l_train ≠ l_test) ∧
    ∃ σ1 train1 train2 test1 test2,
      select_rows c σ = (Ok tt, σ1) ∧
      pop_targets σ1 = (Ok tt, σ') ∧
      globals σ1 !! "X_train" = Some l_train ∧
      globals σ1 !! "X_test" = Some l_test ∧
      heap σ1 !! d = Some (OFrame D) ∧
      heap σ1 !! l_train = Some (OFrame train1) ∧
      heap σ' !! l_train = Some (OFrame train2) ∧
      heap σ1 !! l_test = Some (OFrame test1) ∧
      heap σ' !! l_test = Some (OFrame test2) ∧
      columns train1 = columns D ∧
      rows train1 = filter (λ r, ts_lt (timeStamp r) c) (rows D) ∧
      columns test1 = columns D ∧
      rows test1 = filter (λ r, ts_ge (timeStamp r) c) (rows D) ∧
      target_column_name ∈ columns train1 ∧
      target_column_name ∈ columns test1 ∧
      ¬ (target_column_name ∈ columns train2) ∧
      ¬ (target_column_name ∈ columns test2) ∧
      columns train2 = filter (λ x, x ≠ target_column_name) (columns train1) ∧
      columns test2 = filter (λ x, x ≠ target_column_name) (columns test1) ∧
      rows train2 = drop_cell target_column_name <$> rows train1 ∧
      rows test2 = drop_cell target_column_name <$> rows test1 ∧
      Forall (λ r, cells r !! target_column_name = None) (rows train2) ∧
      Forall (λ r, cells r !! target_column_name = None) (rows test2).
Proof.
  intros Hd Hh Hcol.
  assert (d < length (heap σ))%nat as Hlt by (by eapply lookup_lt_Some).
  exists (split_post c σ D), (length (heap σ)), (length (heap σ) + 1)%nat.
  split; [by apply (split_cell_run c σ d D)|].
  assert (globals (split_post c σ D) !! "data" = Some d) as Hd'.
  { rewrite split_post_old_global; [done|].
    rewrite !not_elem_of_cons. repeat split; try done. apply not_elem_of_nil. }
  assert (heap (split_post c σ D) !! d = Some (OFrame D)) as Hh'
    by (by apply split_post_old_heap).
  split; [done|]. split; [done|].
  split.
  { unfold frame_of. rewrite Hd'. simpl.
    by rewrite (heap_lookup_old _ _ _ _ Hh). }
  split; [intros l o; apply split_post_old_heap|].
  split; [unfold split_post; simpl;
          by rewrite !lookup_insert_ne, lookup_insert_eq by done|].
  split; [unfold split_post; simpl;
          by rewrite !lookup_insert_ne, lookup_insert_eq by done|].
  split; [apply lookup_ge_None; lia|].
  split; [apply lookup_ge_None; lia|].
  split; [lia|].
  exists (selected c σ D),
         (mkFrame (columns D) (train_rows c D)),
         (mkFrame (features D) (drop_cell target_column_name <$> train_rows c D)),
         (mkFrame (columns D) (test_rows c D)),
         (mkFrame (features D) (drop_cell target_column_name <$> test_rows c D)).
  split; [by apply (select_rows_run c σ d D)|].
  split; [by apply pop_targets_run|].
  split; [unfold selected; simpl;
          by rewrite lookup_insert_ne, lookup_insert_eq by done|].
  split; [unfold selected; simpl; by rewrite lookup_insert_eq|].
  split; [unfold selected; simpl; by apply heap_lookup_old|].
  split; [unfold selected; simpl; by rewrite heap_lookup_new0|].
  split; [unfold split_post; simpl; by rewrite heap_lookup_new0|].
  split; [unfold selected; simpl; by rewrite heap_lookup_new|].
  split; [unfold split_post; simpl; by rewrite heap_lookup_new|].
  simpl.
  split; [done|]. split; [apply train_rows_filter|].
  split; [done|]. split; [apply test_rows_filter|].
  split; [done|]. split; [done|].
  split; [apply target_not_in_features|].
  split; [apply target_not_in_features|].
  split; [done|]. split; [done|]. split; [done|]. split; [done|].
  split; apply Forall_fmap, Forall_forall; intros r _; apply drop_cell_lookup.
Qed.

Lemma split_leaves_data_alone_witness :
  ∃ σ' l_train l_test,
    split_cell 300 demo_state = (Ok tt, σ') ∧
    globals σ' !! "data" = Some 0%nat ∧
    heap σ' !! 0%nat = Some (OFrame demo_frame) ∧
    frame_of σ' "data" = Some demo_frame ∧
    (∀ l o, heap demo_state !! l = Some o → heap σ' !! l = Some o) ∧
    globals σ' !! "X_train" = Some l_train ∧
    globals σ' !! "X_test" = Some l_test ∧
    heap demo_state !! l_train = None ∧
    heap demo_state !! l_test = None ∧
    (l_train ≠ 0%nat ∧ l_test ≠ 0%nat ∧ l_train ≠ l_test) ∧
    ∃ σ1 train1 train2 test1 test2,
      select_rows 300 demo_state = (Ok tt, σ1) ∧
      pop_targets σ1 = (Ok tt, σ') ∧
      globals σ1 !! "X_train" = Some l_train ∧
      globals σ1 !! "X_test" = Some l_test ∧
      heap σ1 !! 0%nat = Some (OFrame demo_frame) ∧
      heap σ1 !! l_train = Some (OFrame train1) ∧
      heap σ' !! l_train = Some (OFrame train2) ∧
      heap σ1 !! l_test = Some (OFrame test1) ∧
      heap σ' !! l_test = Some (OFrame test2) ∧
      columns train1 = columns demo_frame ∧
      rows train1 = filter (λ r, ts_lt (timeStamp r) 300) (rows demo_frame) ∧
      columns test1 = columns demo_frame ∧
      rows test1 = filter (λ r, ts_ge (timeStamp r) 300) (rows demo_frame) ∧
      target_column_name ∈ columns train1 ∧
      target_column_name ∈ columns test1 ∧
      ¬ (target_column_name ∈ columns train2) ∧
      ¬ (target_column_name ∈ columns test2) ∧
      columns train2 = filter (λ x, x ≠ target_column_name) (columns train1) ∧
      columns test2 = filter (λ x, x ≠ target_column_name) (columns test1) ∧
      rows train2 = drop_cell target_column_name <$> rows train1 ∧
      rows test2 = drop_cell target_column_name <$> rows test1 ∧
      Forall (λ r, cells r !! target_column_name = None) (rows train2) ∧
      Forall (λ r, cells r !! target_column_name = None) (rows test2).
Proof.
  apply (split_leaves_data_alone 300 demo_state 0%nat demo_frame).
  - reflexivity.
  - reflexivity.
  - apply demo_has_target.
Defined.

(** Both partitions of the four-row dataset, before and after the two
    [pop] statements: each frame is found at the same place, with the
    demand column before and without it after. *)
Example partitions_are_rewritten_in_place :
  (columns <$> frame_of (select_rows 300 demo_state).2 "X_train")
    = Some ["demand"; "temp"] ∧
  (columns <$> frame_of (select_rows 300 demo_state).2 "X_test")
    = Some ["demand"; "temp"] ∧
  (columns <$> frame_of (demo_split 300) "X_train") = Some ["temp"] ∧
  (columns <$> frame_of (demo_split 300) "X_test") = Some ["temp"] ∧
  globals (select_rows 300 demo_state).2 !! "X_train"
    = globals (demo_split 300) !! "X_train" ∧
  globals (select_rows 300 demo_state).2 !! "X_test"
    = globals (demo_split 300) !! "X_test" ∧
  (columns <$> frame_of (demo_split 300) "data") = Some ["demand"; "temp"].
Proof. vm_compute. repeat split; reflexivity. Qed.

(** The train partition is neither a view on the loaded frame nor
    read-only: it is an object of its own, it is created with the target
    column, and the second half of the cell removes that column from it in
    place, while the loaded frame keeps the column. *)
Lemma train_partition_is_written_to :
  ∃ σ1 σ2 l X1 X2,
    select_rows 300 demo_state = (Ok tt, σ1) ∧
    pop_targets σ1 = (Ok tt, σ2) ∧
    split_cell 300 demo_state = (Ok tt, σ2) ∧
    globals σ1 !! "X_train" = Some l ∧
    globals σ2 !! "X_train" = Some l ∧
    globals demo_state !! "data" ≠ Some l ∧
    heap σ1 !! l = Some (OFrame X1) ∧
    heap σ2 !! l = Some (OFrame X2) ∧
    target_column_name ∈ columns X1 ∧
    ¬ (target_column_name ∈ columns X2) ∧
    frame_of σ2 "data" = Some demo_frame ∧
    target_column_name ∈ columns demo_frame.
Proof.
  eexists (selected 300 demo_state demo_frame),
          (split_post 300 demo_state demo_frame), 1%nat, _, _.
  split; [by apply (select_rows_run 300 demo_state 0%nat demo_frame)|].
  split; [apply pop_targets_run, demo_has_target|].
  split; [apply (split_cell_run 300 demo_state 0%nat demo_frame);
          [done|done|apply demo_has_target]|].
  split; [done|]. split; [done|]. split; [done|].
  split; [reflexivity|]. split; [reflexivity|].
  split; [apply demo_has_target|].
  split; [apply target_not_in_features|].
  split; [done|apply demo_has_target].
Qed.

(** ** Cell 4.3 step by step *)

Lemma np_subtract_same_length a b :
  length a = length b → np_subtract a b = Ok (zip_with PrimFloat.sub a b).
Proof. intros H. unfold np_subtract. by rewrite decide_True. Qed.

Lemma np_subtract_mismatch a b :
  length a ≠ length b → length a ≠ 1%nat → length b ≠ 1%nat →
  np_subtract a b = Raise ValueError.
Proof.
  intros H Ha Hb. unfold np_subtract. rewrite decide_False by done.
  destruct a as [|x [|x' a]], b as [|y [|y' b]]; simpl in *; done.
Qed.

Lemma test_cell_run m σ lx X ly a p :
  globals σ !! "X_test" = Some lx →
  heap σ !! lx = Some (OFrame X) →
  globals σ !! "y_test" = Some ly →
  heap σ !! ly = Some (OArray a) →
  predict m X = Ok p →
  test_cell m σ
  = match np_subtract a p with
    | Ok r => (Ok tt, with_residuals σ p r)
    | Raise e => (Raise e, with_predictions σ p)
    end.
Proof.
  intros Hx HX Hy Ha Hp. unfold test_cell.
  rewrite (load_bind _ _ _ lx) by done.
  rewrite (deref_frame_bind _ _ _ X) by done.
  rewrite (lift_bind _ _ _ _ Hp), alloc_bind, store_bind.
  rewrite (load_bind _ _ _ ly) by (simpl; by rewrite lookup_insert_ne).
  rewrite (deref_array_bind _ _ _ a) by (simpl; by apply heap_lookup_old).
  rewrite (load_bind _ _ _ (length (heap σ)))
    by (simpl; by rewrite lookup_insert_eq).
  rewrite (deref_array_bind _ _ _ p) by (simpl; by rewrite heap_lookup_new0).
  destruct (np_subtract a p) as [r|e] eqn:E.
  - rewrite (lift_bind _ _ _ r) by done.
    rewrite alloc_bind. unfold store, with_residuals. simpl.
    by rewrite length_app, <- app_assoc.
  - by rewrite (lift_bind_raise _ _ _ e).
Qed.

(** The cell reads one entry point of the model only. *)
Lemma test_cell_predict_only p f1 f2 σ :
  test_cell (mkModel p f1) σ = test_cell (mkModel p f2) σ.
Proof. reflexivity. Qed.

Lemma scalar_of_none σ x :
  forallb (λ o, negb (is_scalar o)) (heap σ) = true → scalar_of σ x = None.
Proof.
  intros H. unfold scalar_of. destruct (globals σ !! x) as [l|]; [|done]. simpl.
  destruct (heap σ !! l) as [o|] eqn:E; [|done].
  rewrite forallb_forall in H. apply list_elem_of_lookup_2, list_elem_of_In in E.
  specialize (H o E). by destruct o.
Qed.

Lemma with_residuals_no_new_scalar σ p r x v :
  scalar_of (with_residuals σ p r) x = Some v → scalar_of σ x = Some v.
Proof.
  unfold scalar_of, with_residuals. simpl.
  destruct (decide (x = "y_residual_test")) as [->|H1].
  { rewrite lookup_insert_eq. simpl. by rewrite heap_lookup_new. }
  rewrite lookup_insert_ne by done.
  destruct (decide (x = "y_pred_test")) as [->|H2].
  { rewrite lookup_insert_eq. simpl. by rewrite heap_lookup_new0. }
  rewrite lookup_insert_ne by done.
  destruct (globals σ !! x) as [l|]; [|done]. simpl.
  destruct (decide (l < length (heap σ))%nat) as [Hl|Hl].
  - by rewrite lookup_app_l.
  - rewrite lookup_app_r by lia.
    destruct (l - length (heap σ))%nat as [|[|k]]; done.
Qed.

Lemma with_residuals_reads σ p r :
  array_of (with_residuals σ p r) "y_pred_test" = Some p ∧
  array_of (with_residuals σ p r) "y_residual_test" = Some r.
Proof.
  unfold array_of, with_residuals. simpl. split.
  - rewrite lookup_insert_ne, lookup_insert_eq by done. simpl.
    by rewrite heap_lookup_new0.
  - rewrite lookup_insert_eq. simpl. by rewrite heap_lookup_new.
Qed.

(** Reading a successful run backwards. *)
Lemma bind_ok_inv {A B : Type} (m : M A) (f : A → M B) σ b σ' :
  (m ≫= f) σ = (Ok b, σ') →
  ∃ a σ1, m σ = (Ok a, σ1) ∧ f a σ1 = (Ok b, σ').
Proof.
  unfold mbind, M_bind. destruct (m σ) as [[a|e] σ1]; [eauto|done].
Qed.

Lemma load_ok_inv x σ l σ' :
  load x σ = (Ok l, σ') → globals σ !! x = Some l ∧ σ' = σ.
Proof. unfold load. destruct (globals σ !! x); naive_solver. Qed.

Lemma deref_frame_ok_inv l σ df σ' :
  deref_frame l σ = (Ok df, σ') → heap σ !! l = Some (OFrame df) ∧ σ' = σ.
Proof.
  unfold deref_frame. destruct (heap σ !! l) as [[]|]; naive_solver.
Qed.

Lemma deref_array_ok_inv l σ a σ' :
  deref_array l σ = (Ok a, σ') → heap σ !! l = Some (OArray a) ∧ σ' = σ.
Proof.
  unfold deref_array. destruct (heap σ !! l) as [[]|]; naive_solver.
Qed.

Lemma lift_ok_inv {A : Type} (r : result A) σ a σ' :
  lift r σ = (Ok a, σ') → r = Ok a ∧ σ' = σ.
Proof. unfold lift. naive_solver. Qed.

(** ** Which entry point the test-set evaluation calls *)

(** C3.  Cell 4.3 obtains the test-set predictions from [predict] on the
    test frame alone: swapping the model's [forecast] for any other leaves
    the cell's outcome unchanged, and when the cell succeeds
    [y_pred_test] is what [predict] answered.  No query vector is passed
    and [forecast] is not consulted, although the text of section 4.3
    announces [forecast] "instead of" [predict]. *)
Theorem test_evaluation_calls_predict
    (p : DataFrame → result (list float))
    (f1 f2 : DataFrame → list float → result (list float * DataFrame))
    (σ : state) :
  test_cell (mkModel p f1) σ = test_cell (mkModel p f2) σ ∧
  (∀ σ', test_cell (mkModel p f1) σ = (Ok tt, σ') →
     ∃ X, frame_of σ "X_test" = Some X ∧
          (Ok <$> array_of σ' "y_pred_test") = Some (p X)).
Proof.
  split; [reflexivity|].
  intros σ' Hrun. unfold test_cell in Hrun.
  apply bind_ok_inv in Hrun as (lx & σ1 & [Hx ->]%load_ok_inv & Hrun).
  apply bind_ok_inv in Hrun as (X & σ1 & [HX ->]%deref_frame_ok_inv & Hrun).
  apply bind_ok_inv in Hrun as (ps & σ1 & [Hp ->]%lift_ok_inv & Hrun).
  simpl in Hp. rewrite alloc_bind, store_bind in Hrun.
  apply bind_ok_inv in Hrun as (ly & σ1 & [_ ->]%load_ok_inv & Hrun).
  apply bind_ok_inv in Hrun as (a & σ1 & [_ ->]%deref_array_ok_inv & Hrun).
  rewrite (load_bind _ _ _ (length (heap σ))) in Hrun
    by (simpl; by rewrite lookup_insert_eq).
  rewrite (deref_array_bind _ _ _ ps) in Hrun
    by (simpl; by rewrite heap_lookup_new0).
  apply bind_ok_inv in Hrun as (r & σ1 & [_ ->]%lift_ok_inv & Hrun).
  rewrite alloc_bind in Hrun. unfold store in Hrun. simpl in Hrun.
  injection Hrun as <-.
  exists X. split.
  { unfold frame_of. rewrite Hx. simpl. by rewrite HX. }
  rewrite Hp. unfold array_of. simpl.
  rewrite lookup_insert_ne, lookup_insert_eq by done. simpl.
  by rewrite <- app_assoc, heap_lookup_new0.
Qed.

(** On the four-row dataset split at its third row, with a model whose
    [predict] says 8, 8 and whose [forecast] says 7, 7, the evaluation
    scores 8, 8. *)
Example test_evaluation_on_demo :
  let σ := (test_cell (canned_model [8; 8]%float [7; 7]%float) (demo_split 300)).2 in
  array_of σ "y_pred_test" = Some [8; 8]%float ∧
  array_of σ "y_residual_test" = Some [1; 2]%float ∧
  array_of σ "y_fcst" = None.
Proof. vm_compute. repeat split; reflexivity. Qed.

(** ** What the evaluation computes *)

Lemma zip_with_sub_lookup (a p : list float) i x y :
  a !! i = Some x → p !! i = Some y →
  zip_with PrimFloat.sub a p !! i = Some (x - y)%float.
Proof. intros Ha Hp. rewrite lookup_zip_with, Ha. simpl. by rewrite Hp. Qed.

(** C4, as the code has it.  For actual and predicted values of equal
    length the evaluation of cell 4.3 computes the residuals,
    [residual[i] = actual[i] - predicted[i]] in float64, one per entry,
    and binds them to [y_residual_test].  That is all it computes: the
    cell binds the predictions and the residuals and nothing else, so no
    name holds a scalar that did not hold one before; the scorers
    imported in the first cell are never applied. *)
Theorem evaluation_computes_residuals
    (m : FittedModel) (σ : state) (lx ly : loc) (X : DataFrame)
    (actual predicted : list float) :
  globals σ !! "X_test" = Some lx →
  heap σ !! lx = Some (OFrame X) →
  globals σ !! "y_test" = Some ly →
  heap σ !! ly = Some (OArray actual) →
  predict m X = Ok predicted →
  length actual = length predicted →
  ∃ σ' residual,
    test_cell m σ = (Ok tt, σ') ∧
    array_of σ' "y_residual_test" = Some residual ∧
    length residual = length actual ∧
    (∀ i x y, actual !! i = Some x → predicted !! i = Some y →
              residual !! i = Some (x - y)%float) ∧
    globals σ' = <["y_residual_test" := (length (heap σ) + 1)%nat]>
                   (<["y_pred_test" := length (heap σ)]> (globals σ)) ∧
    heap σ' = heap σ ++ [OArray predicted; OArray residual] ∧
    (∀ x v, scalar_of σ' x = Some v → scalar_of σ x = Some v).
Proof.
  intros Hx HX Hy Ha Hp Hlen.
  exists (with_residuals σ predicted (zip_with PrimFloat.sub actual predicted)),
         (zip_with PrimFloat.sub actual predicted).
  split.
  { rewrite (test_cell_run m σ lx X ly actual predicted) by done.
    by rewrite np_subtract_same_length. }
  split; [apply with_residuals_reads|].
  split; [rewrite length_zip_with; lia|].
  split; [apply zip_with_sub_lookup|].
  split; [done|]. split; [done|].
  apply with_residuals_no_new_scalar.
Qed.

Lemma demo_split_eq c : demo_split c = split_post c demo_state demo_frame.
Proof.
  unfold demo_split.
  rewrite (split_cell_run c demo_state 0%nat demo_frame);
    [done|done|done|apply demo_has_target].
Qed.

Lemma evaluation_computes_residuals_witness :
  ∃ σ' residual,
    test_cell (canned_model [8; 8]%float [8; 8]%float) (demo_split 300)
      = (Ok tt, σ') ∧
    array_of σ' "y_residual_test" = Some residual ∧
    length residual = length [9; 10]%float ∧
    (∀ i x y, [9; 10]%float !! i = Some x → [8; 8]%float !! i = Some y →
              residual !! i = Some (x - y)%float) ∧
    globals σ' = <["y_residual_test" := (length (heap (demo_split 300)) + 1)%nat]>
                   (<["y_pred_test" := length (heap (demo_split 300))]>
                      (globals (demo_split 300))) ∧
    heap σ' = heap (demo_split 300) ++ [OArray [8; 8]%float; OArray residual] ∧
    (∀ x v, scalar_of σ' x = Some v → scalar_of (demo_split 300) x = Some v).
Proof.
  apply (evaluation_computes_residuals
           (canned_model [8; 8]%float [8; 8]%float) (demo_split 300)
           2%nat 4%nat
           (mkFrame ["temp"]
              (drop_cell target_column_name <$> test_rows 300 demo_frame))
           [9; 10]%float [8; 8]%float).
  - reflexivity.
  - reflexivity.
  - reflexivity.
  - reflexivity.
  - reflexivity.
  - reflexivity.
Defined.

(** Where the split leaves the test frame and the test targets. *)
Section TestSideAfterSplit.
Context (c : Z) (σ : state) (D : DataFrame).

Lemma split_post_X_test_global :
  globals (split_post c σ D) !! "X_test" = Some (length (heap σ) + 1)%nat.
Proof.
  unfold split_post. simpl.
  by rewrite !lookup_insert_ne, lookup_insert_eq by done.
Qed.

Lemma split_post_X_test_object :
  heap (split_post c σ D) !! (length (heap σ) + 1)%nat
  = Some (OFrame (mkFrame (features D)
                    (drop_cell target_column_name <$> test_rows c D))).
Proof. unfold split_post. simpl. by rewrite heap_lookup_new. Qed.

Lemma split_post_y_test_global :
  globals (split_post c σ D) !! "y_test" = Some (length (heap σ) + 3)%nat.
Proof. unfold split_post. simpl. by rewrite lookup_insert_eq. Qed.

Lemma split_post_y_test_object :
  heap (split_post c σ D) !! (length (heap σ) + 3)%nat
  = Some (OArray (cell_of target_column_name <$> test_rows c D)).
Proof. unfold split_post. simpl. by rewrite heap_lookup_new. Qed.

Lemma split_post_no_new_scalar x v :
  scalar_of (split_post c σ D) x = Some v → scalar_of σ x = Some v.
Proof.
  unfold scalar_of, split_post. simpl.
  destruct (decide (x = "y_test")) as [->|H1].
  { rewrite lookup_insert_eq. simpl. by rewrite heap_lookup_new. }
  rewrite lookup_insert_ne by done.
  destruct (decide (x = "y_train")) as [->|H2].
  { rewrite lookup_insert_eq. simpl. by rewrite heap_lookup_new. }
  rewrite lookup_insert_ne by done.
  destruct (decide (x = "X_test")) as [->|H3].
  { rewrite lookup_insert_eq. simpl. by rewrite heap_lookup_new. }
  rewrite lookup_insert_ne by done.
  destruct (decide (x = "X_train")) as [->|H4].
  { rewrite lookup_insert_eq. simpl. by rewrite heap_lookup_new0. }
  rewrite lookup_insert_ne by done.
  destruct (globals σ !! x) as [l|]; [|done]. simpl.
  destruct (decide (l < length (heap σ))%nat) as [Hl|Hl].
  - by rewrite lookup_app_l.
  - rewrite lookup_app_r by lia.
    destruct (l - length (heap σ))%nat as [|[|[|[|k]]]]; done.
Qed.
End TestSideAfterSplit.

Lemma demo_state_no_scalar x : scalar_of demo_state x = None.
Proof. by apply scalar_of_none. Qed.

Lemma test_cell_after_split m c σ D p :
  predict m (mkFrame (features D)
               (drop_cell target_column_name <$> test_rows c D)) = Ok p →
  test_cell m (split_post c σ D)
  = match np_subtract (cell_of target_column_name <$> test_rows c D) p with
    | Ok r => (Ok tt, with_residuals (split_post c σ D) p r)
    | Raise e => (Raise e, with_predictions (split_post c σ D) p)
    end.
Proof.
  intros Hp.
  apply (test_cell_run m _ _ _ _ _ p
           (split_post_X_test_global c σ D) (split_post_X_test_object c σ D)
           (split_post_y_test_global c σ D) (split_post_y_test_object c σ D) Hp).
Qed.

(** On actual values 9, 10 and predicted values 8, 8 the cell leaves the
    residuals 1, 2 and no aggregate: it binds two arrays, and no name of
    the namespace holds a scalar afterwards, so neither the mean absolute
    error 1.5 nor a root mean squared error is returned. *)
Lemma evaluation_returns_no_aggregate :
  ∃ σ',
    test_cell (canned_model [8; 8]%float [8; 8]%float) (demo_split 300)
      = (Ok tt, σ') ∧
    array_of (demo_split 300) "y_test" = Some [9; 10]%float ∧
    array_of σ' "y_pred_test" = Some [8; 8]%float ∧
    array_of σ' "y_residual_test" = Some [1; 2]%float ∧
    globals σ' = <["y_residual_test" := 6%nat]>
                   (<["y_pred_test" := 5%nat]> (globals (demo_split 300))) ∧
    (∀ x, scalar_of σ' x = None) ∧
    ¬ (∃ x, scalar_of σ' x = Some 1.5%float).
Proof.
  exists (with_residuals (split_post 300 demo_state demo_frame)
            [8; 8]%float [1; 2]%float).
  rewrite demo_split_eq.
  assert (∀ x, scalar_of (with_residuals (split_post 300 demo_state demo_frame)
                            [8; 8]%float [1; 2]%float) x = None) as Hnone.
  { intros x.
    destruct (scalar_of _ x) as [v|] eqn:E; [|done].
    apply with_residuals_no_new_scalar, split_post_no_new_scalar in E.
    by rewrite demo_state_no_scalar in E. }
  split.
  { rewrite (test_cell_after_split (canned_model [8; 8]%float [8; 8]%float)
               300 demo_state demo_frame [8; 8]%float eq_refl).
    assert (np_subtract
              (cell_of target_column_name <$> test_rows 300 demo_frame)
              [8; 8]%float = Ok [1; 2]%float) as -> by reflexivity.
    done. }
  split; [by rewrite split_post_y_test|].
  split; [apply with_residuals_reads|].
  split; [apply with_residuals_reads|].
  split; [done|].
  split; [done|].
  intros [x Hx]. by rewrite Hnone in Hx.
Qed.

(** Equal actual and predicted values leave zero residuals, unless a value
    is NaN: NaN minus NaN is NaN. *)
Example residuals_of_equal_values :
  np_subtract [9; 10]%float [9; 10]%float = Ok [0; 0]%float ∧
  np_subtract [9%float; np_nan] [9%float; np_nan] = Ok [0%float; np_nan].
Proof. split; reflexivity. Qed.

(** ** Lengths that do not match *)

(** C5, as the code has it.  When the actual and the predicted values
    differ in length, what cell 4.3 does depends on numpy's broadcasting.
    When neither has length one, the subtraction raises [ValueError]: the
    cell stops there, no residual array is made and [y_residual_test] is
    left as it was (the predictions stay bound).  When there is one actual
    value, it is stretched over the predictions and the cell returns one
    residual per predicted value; when there is one predicted value, it is
    stretched over the actual values and the cell returns one residual per
    actual value.  In both cases the residuals are as many as the values
    of the other array, none when that array is empty. *)
Theorem mismatched_lengths_raise_or_stretch
    (m : FittedModel) (σ : state) (lx ly : loc) (X : DataFrame)
    (actual predicted : list float) :
  globals σ !! "X_test" = Some lx →
  heap σ !! lx = Some (OFrame X) →
  globals σ !! "y_test" = Some ly →
  heap σ !! ly = Some (OArray actual) →
  predict m X = Ok predicted →
  length actual ≠ length predicted →
  (length actual ≠ 1%nat → length predicted ≠ 1%nat →
   ∃ σ',
     test_cell m σ = (Raise ValueError, σ') ∧
     globals σ' !! "y_residual_test" = globals σ !! "y_residual_test" ∧
     heap σ' = heap σ ++ [OArray predicted] ∧
     array_of σ' "y_pred_test" = Some predicted) ∧
  (∀ x, actual = [x] →
   ∃ σ' residuals,
     test_cell m σ = (Ok tt, σ') ∧
     array_of σ' "y_pred_test" = Some predicted ∧
     array_of σ' "y_residual_test" = Some residuals ∧
     residuals = (λ y, PrimFloat.sub x y) <$> predicted ∧
     length residuals = length predicted) ∧
  (∀ y, predicted = [y] →
   ∃ σ' residuals,
     test_cell m σ = (Ok tt, σ') ∧
     array_of σ' "y_pred_test" = Some predicted ∧
     array_of σ' "y_residual_test" = Some residuals ∧
     residuals = (λ x, PrimFloat.sub x y) <$> actual ∧
     length residuals = length actual).
Proof.
  intros Hx HX Hy Ha Hp Hlen.
  pose proof (test_cell_run m σ lx X ly actual predicted Hx HX Hy Ha Hp) as Hrun.
  split; [|split].
  - intros H1 H2.
    exists (with_predictions σ predicted).
    split; [by rewrite Hrun, np_subtract_mismatch|].
    unfold with_predictions, array_of. simpl.
    split; [by rewrite lookup_insert_ne|].
    split; [done|].
    rewrite lookup_insert_eq. simpl. by rewrite heap_lookup_new0.
  - intros x ->.
    assert (np_subtract [x] predicted
            = Ok ((λ y, PrimFloat.sub x y) <$> predicted)) as Hsub.
    { unfold np_subtract. by rewrite decide_False by done. }
    rewrite Hsub in Hrun.
    eexists _, _. split; [exact Hrun|].
    split; [apply with_residuals_reads|].
    split; [apply with_residuals_reads|].
    split; [done|apply length_fmap].
  - intros y ->.
    assert (np_subtract actual [y]
            = Ok ((λ x, PrimFloat.sub x y) <$> actual)) as Hsub.
    { unfold np_subtract. rewrite decide_False by done.
      by destruct actual as [|x [|x' a]]. }
    rewrite Hsub in Hrun.
    eexists _, _. split; [exact Hrun|].
    split; [apply with_residuals_reads|].
    split; [apply with_residuals_reads|].
    split; [done|apply length_fmap].
Qed.

Lemma mismatched_lengths_raise_or_stretch_witness :
  (∃ σ',
     test_cell (canned_model [8; 8; 8]%float []) (demo_split 300)
       = (Raise ValueError, σ') ∧
     globals σ' !! "y_residual_test"
       = globals (demo_split 300) !! "y_residual_test" ∧
     heap σ' = heap (demo_split 300) ++ [OArray [8; 8; 8]%float] ∧
     array_of σ' "y_pred_test" = Some [8; 8; 8]%float) ∧
  (∃ σ' residuals,
     test_cell (canned_model [8; 8]%float []) (demo_split 400) = (Ok tt, σ') ∧
     array_of σ' "y_pred_test" = Some [8; 8]%float ∧
     array_of σ' "y_residual_test" = Some residuals ∧
     residuals = (λ y, PrimFloat.sub 10 y) <$> [8; 8]%float ∧
     length residuals = length [8; 8]%float) ∧
  (∃ σ' residuals,
     test_cell (canned_model [8]%float []) (demo_split 300) = (Ok tt, σ') ∧
     array_of σ' "y_pred_test" = Some [8]%float ∧
     array_of σ' "y_residual_test" = Some residuals ∧
     residuals = (λ x, PrimFloat.sub x 8) <$> [9; 10]%float ∧
     length residuals = length [9; 10]%float).
Proof.
  split; [|split].
  - refine (proj1 (mismatched_lengths_raise_or_stretch
                     (canned_model [8; 8; 8]%float []) (demo_split 300)
                     2%nat 4%nat
                     (mkFrame ["temp"]
                        (drop_cell target_column_name
                           <$> test_rows 300 demo_frame))
                     [9; 10]%float [8; 8; 8]%float _ _ _ _ _ _) _ _);
      try reflexivity; simpl; lia.
  - refine (proj1 (proj2 (mismatched_lengths_raise_or_stretch
                     (canned_model [8; 8]%float []) (demo_split 400)
                     2%nat 4%nat
                     (mkFrame ["temp"]
                        (drop_cell target_column_name
                           <$> test_rows 400 demo_frame))
                     [10]%float [8; 8]%float _ _ _ _ _ _)) 10%float _);
      try reflexivity; simpl; lia.
  - refine (proj2 (proj2 (mismatched_lengths_raise_or_stretch
                     (canned_model [8]%float []) (demo_split 300)
                     2%nat 4%nat
                     (mkFrame ["temp"]
                        (drop_cell target_column_name
                           <$> test_rows 300 demo_frame))
                     [9; 10]%float [8]%float _ _ _ _ _ _)) 8%float _);
      try reflexivity; simpl; lia.
Defined.

(** The three cases on the four-row dataset: two actual values against
    three predictions raise; one actual value against two predictions
    gives two residuals; two actual values against one prediction give two
    residuals; and one actual value against no prediction gives none. *)
Example subtraction_cases_on_demo :
  (test_cell (canned_model [8; 8; 8]%float []) (demo_split 300)).1
    = Raise ValueError ∧
  array_of (test_cell (canned_model [8; 8]%float []) (demo_split 400)).2
      "y_residual_test" = Some [2; 2]%float ∧
  array_of (test_cell (canned_model [8]%float []) (demo_split 300)).2
      "y_residual_test" = Some [1; 2]%float ∧
  (test_cell (canned_model [] []) (demo_split 400)).1 = Ok tt ∧
  array_of (test_cell (canned_model [] []) (demo_split 400)).2
      "y_residual_test" = Some [].
Proof.
  rewrite !demo_split_eq.
  rewrite (test_cell_after_split (canned_model [8; 8; 8]%float [])
             300 demo_state demo_frame [8; 8; 8]%float eq_refl).
  rewrite (test_cell_after_split (canned_model [8; 8]%float [])
             400 demo_state demo_frame [8; 8]%float eq_refl).
  rewrite (test_cell_after_split (canned_model [8]%float [])
             300 demo_state demo_frame [8]%float eq_refl).
  rewrite (test_cell_after_split (canned_model [] [])
             400 demo_state demo_frame [] eq_refl).
  repeat split; reflexivity.
Qed.

(** One actual value against two predicted values: the lengths differ, yet
    the subtraction stretches the single actual value and the cell returns
    a residual array of length two instead of failing. *)
Lemma broadcast_returns_despite_mismatch :
  ∃ σ',
    test_cell (canned_model [8; 8]%float []) (demo_split 400) = (Ok tt, σ') ∧
    array_of (demo_split 400) "y_test" = Some [10]%float ∧
    array_of σ' "y_pred_test" = Some [8; 8]%float ∧
    length [10]%float ≠ length [8; 8]%float ∧
    array_of σ' "y_residual_test" = Some [2; 2]%float.
Proof.
  exists (with_residuals (split_post 400 demo_state demo_frame)
            [8; 8]%float [2; 2]%float).
  rewrite demo_split_eq.
  split.
  { rewrite (test_cell_after_split (canned_model [8; 8]%float [])
               400 demo_state demo_frame [8; 8]%float eq_refl).
    assert (np_subtract
              (cell_of target_column_name <$> test_rows 400 demo_frame)
              [8; 8]%float = Ok [2; 2]%float) as -> by reflexivity.
    done. }
  split; [by rewrite split_post_y_test|].
  split; [apply with_residuals_reads|].
  split; [simpl; lia|].
  apply with_residuals_reads.
Qed.

(** ** A constant series of actual values *)

(** C8, as the code has it.  On a constant series of actual values (and as
    many predicted values) the evaluation does not fail.  It returns the
    residuals, the constant minus each prediction, and nothing else: no
    name holds a scalar that did not hold one before, so no R² (NaN or
    otherwise), no MAE and no RMSE come out of it. *)
Theorem constant_actuals_give_residuals_only
    (m : FittedModel) (σ : state) (lx ly : loc) (X : DataFrame)
    (v : float) (n : nat) (preds : list float) :
  globals σ !! "X_test" = Some lx →
  heap σ !! lx = Some (OFrame X) →
  globals σ !! "y_test" = Some ly →
  heap σ !! ly = Some (OArray (replicate n v)) →
  predict m X = Ok preds →
  length preds = n →
  ∃ σ',
    test_cell m σ = (Ok tt, σ') ∧
    array_of σ' "y_residual_test" = Some ((λ y, v - y)%float <$> preds) ∧
    (∀ x s, scalar_of σ' x = Some s → scalar_of σ x = Some s).
Proof.
  intros Hx HX Hy Ha Hp Hlen.
  exists (with_residuals σ preds ((λ y, v - y)%float <$> preds)).
  split.
  { rewrite (test_cell_run m σ lx X ly (replicate n v) preds) by done.
    rewrite np_subtract_same_length by (by rewrite length_replicate).
    by rewrite zip_with_replicate_l by lia. }
  split; [apply with_residuals_reads|].
  apply with_residuals_no_new_scalar.
Qed.

Lemma flat_split_eq c :
  flat_split c
  = split_post c (mkState (<["data" := 0%nat]> ∅) [OFrame flat_frame]) flat_frame.
Proof.
  unfold flat_split.
  rewrite (split_cell_run c _ 0%nat flat_frame); [done|done|done|].
  unfold flat_frame. simpl. apply list_elem_of_here.
Qed.

Lemma constant_actuals_give_residuals_only_witness :
  ∃ σ',
    test_cell (canned_model [4; 6]%float []) (flat_split 300) = (Ok tt, σ') ∧
    array_of σ' "y_residual_test"
      = Some ((λ y, 5 - y)%float <$> [4; 6]%float) ∧
    (∀ x s, scalar_of σ' x = Some s → scalar_of (flat_split 300) x = Some s).
Proof.
  apply (constant_actuals_give_residuals_only
           (canned_model [4; 6]%float []) (flat_split 300)
           2%nat 4%nat
           (mkFrame ["temp"]
              (drop_cell target_column_name <$> test_rows 300 flat_frame))
           5%float 2%nat [4; 6]%float).
  - reflexivity.
  - reflexivity.
  - reflexivity.
  - reflexivity.
  - reflexivity.
  - reflexivity.
Defined.

(** Actual values 5, 5 against predicted values 4, 6: the cell returns the
    residuals 1, -1 and no name holds a scalar afterwards, so no R² has
    been returned, as NaN or as anything else, and no MAE or RMSE. *)
Lemma constant_actuals_yield_no_r2 :
  ∃ σ',
    test_cell (canned_model [4; 6]%float []) (flat_split 300) = (Ok tt, σ') ∧
    array_of (flat_split 300) "y_test" = Some [5; 5]%float ∧
    array_of σ' "y_residual_test" = Some [1; -1]%float ∧
    (∀ x, scalar_of σ' x = None) ∧
    ¬ (∃ x v, scalar_of σ' x = Some v ∧ is_nan v = true).
Proof.
  exists (with_residuals
            (split_post 300 (mkState (<["data" := 0%nat]> ∅) [OFrame flat_frame])
               flat_frame)
            [4; 6]%float [1; -1]%float).
  rewrite flat_split_eq.
  assert (∀ x, scalar_of
                 (with_residuals
                    (split_post 300
                       (mkState (<["data" := 0%nat]> ∅) [OFrame flat_frame])
                       flat_frame)
                    [4; 6]%float [1; -1]%float) x = None) as Hnone.
  { intros x.
    destruct (scalar_of _ x) as [v|] eqn:E; [|done].
    apply with_residuals_no_new_scalar, split_post_no_new_scalar in E.
    by rewrite scalar_of_none in E. }
  split.
  { rewrite (test_cell_after_split (canned_model [4; 6]%float [])
               300 _ flat_frame [4; 6]%float eq_refl).
    assert (np_subtract
              (cell_of target_column_name <$> test_rows 300 flat_frame)
              [4; 6]%float = Ok [1; -1]%float) as -> by reflexivity.
    done. }
  split; [by rewrite split_post_y_test|].
  split; [apply with_residuals_reads|].
  split; [done|].
  intros (x & v & Hx & _). by rewrite Hnone in Hx.
Qed.

(** ** Cell 5 step by step *)

Lemma make_query_run σ ly a :
  globals σ !! "y_test" = Some ly →
  heap σ !! ly = Some (OArray a) →
  make_query σ = (Ok tt, with_query σ a).
Proof.
  intros Hy Ha. unfold make_query, ndarray_copy, ndarray_astype_float.
  rewrite (load_bind _ _ _ ly) by done.
  rewrite bind_assoc, (deref_array_bind _ _ _ a) by done.
  rewrite alloc_bind.
  rewrite bind_assoc, (deref_array_bind _ _ _ a)
    by (simpl; by rewrite heap_lookup_new0).
  rewrite alloc_bind, store_bind. simpl.
  rewrite (load_bind _ _ _ (length (heap σ ++ [OArray a])))
    by (simpl; by rewrite lookup_insert_eq).
  unfold ndarray_fill.
  rewrite (deref_array_bind _ _ _ a).
  2:{ simpl. rewrite length_app, <- app_assoc. simpl.
      by rewrite heap_lookup_new. }
  unfold assign, with_query. simpl.
  rewrite length_app, <- app_assoc. simpl.
  by rewrite insert_app_r.
Qed.

Lemma call_forecast_run m σ lx X lq q :
  globals σ !! "X_test" = Some lx →
  heap σ !! lx = Some (OFrame X) →
  globals σ !! "y_query" = Some lq →
  heap σ !! lq = Some (OArray q) →
  call_forecast m σ
  = match forecast m X q with
    | Ok (f, Xt) => (Ok tt, with_forecast σ f Xt)
    | Raise e => (Raise e, σ)
    end.
Proof.
  intros Hx HX Hq Hq'. unfold call_forecast.
  rewrite (load_bind _ _ _ lx) by done.
  rewrite (deref_frame_bind _ _ _ X) by done.
  rewrite (load_bind _ _ _ lq) by done.
  rewrite (deref_array_bind _ _ _ q) by done.
  destruct (forecast m X q) as [[f Xt]|e] eqn:E.
  - rewrite (lift_bind _ _ _ (f, Xt)) by done.
    rewrite !alloc_bind, store_bind. unfold store, with_forecast. simpl.
    by rewrite length_app, <- app_assoc.
  - by rewrite (lift_bind_raise _ _ _ e).
Qed.

Lemma unknown_is_replicate (a : list float) :
  (λ _, np_nan) <$> a = replicate (length a) np_nan.
Proof. by apply const_fmap. Qed.

Lemma forecast_cell_run m σ lx X ly a :
  globals σ !! "X_test" = Some lx →
  heap σ !! lx = Some (OFrame X) →
  globals σ !! "y_test" = Some ly →
  heap σ !! ly = Some (OArray a) →
  forecast_cell m σ
  = match forecast m X (replicate (length a) np_nan) with
    | Ok (f, Xt) => (Ok tt, with_forecast (with_query σ a) f Xt)
    | Raise e => (Raise e, with_query σ a)
    end.
Proof.
  intros Hx HX Hy Ha. unfold forecast_cell.
  rewrite (bind_ok _ _ _ _ _ (make_query_run σ ly a Hy Ha)).
  rewrite <- unknown_is_replicate.
  apply (call_forecast_run m _ lx X (length (heap σ) + 1)%nat).
  - unfold with_query. simpl. by rewrite lookup_insert_ne.
  - by apply heap_lookup_old.
  - unfold with_query. simpl. by rewrite lookup_insert_eq.
  - unfold with_query. simpl. by rewrite heap_lookup_new.
Qed.

(** ** The forecast origin *)

Lemma forecast_origin_unknown_tail ts1 y1 ts2 q :
  length ts1 = length y1 →
  Forall (λ v, is_nan v = true) q →
  forecast_origin (ts1 ++ ts2) (y1 ++ q) = forecast_origin ts1 y1.
Proof.
  intros Hlen Hq. unfold forecast_origin.
  rewrite zip_with_app by done. rewrite filter_app.
  rewrite (filter_none _ (zip_with pair ts2 q)); [by rewrite app_nil_r|].
  apply Forall_forall. intros [t v] Hin%elem_of_zip_r. simpl.
  rewrite Forall_forall in Hq. by rewrite (Hq v Hin).
Qed.

Lemma forecast_origin_last_known ts y t v :
  length ts = length y →
  last ts = Some t →
  last y = Some v →
  is_nan v = false →
  forecast_origin ts y = Some t.
Proof.
  intros Hlen [ts' ->]%last_Some [y' ->]%last_Some Hv.
  rewrite !length_app in Hlen. simpl in Hlen.
  unfold forecast_origin. rewrite zip_with_app by lia.
  rewrite filter_app, fmap_app. simpl.
  rewrite filter_cons_True by done. simpl. apply last_snoc.
Qed.

(** The origin is the time of the last entry with a definite value. *)
Lemma forecast_origin_last_definite ts1 y1 t v ts2 y2 :
  length ts1 = length y1 →
  is_nan v = false →
  Forall (λ w, is_nan w = true) y2 →
  forecast_origin (ts1 ++ t :: ts2) (y1 ++ v :: y2) = Some t.
Proof.
  intros Hlen Hv Hy2. unfold forecast_origin.
  rewrite zip_with_app by done. cbn [zip_with].
  rewrite filter_app, filter_cons_True by done.
  rewrite (filter_none _ (zip_with pair ts2 y2)).
  - rewrite fmap_app. simpl. apply last_snoc.
  - apply Forall_forall. intros [t' w] Hin%elem_of_zip_r. simpl.
    rewrite Forall_forall in Hy2. by rewrite (Hy2 w Hin).
Qed.

(** The origin is the time of an entry with a definite value. *)
Lemma forecast_origin_is_definite ts y t :
  forecast_origin ts y = Some t →
  ∃ i v, ts !! i = Some t ∧ y !! i = Some v ∧ is_nan v = false.
Proof.
  unfold forecast_origin. intros Hlast%last_Some_elem_of.
  apply list_elem_of_fmap in Hlast as ([t' v] & -> & Hin).
  apply list_elem_of_filter in Hin as [Hv Hin]. simpl in *.
  apply elem_of_lookup_zip_with in Hin as (i & t'' & v' & Heq & Ht & Hy).
  inversion Heq; subst. by exists i, v'.
Qed.

(** With no definite value there is no origin. *)
Lemma forecast_origin_all_unknown ts y :
  Forall (λ v, is_nan v = true) y → forecast_origin ts y = None.
Proof.
  intros Hy. unfold forecast_origin.
  rewrite (filter_none _ (zip ts y)); [done|].
  apply Forall_forall. intros [t v] Hin%elem_of_zip_r. simpl.
  rewrite Forall_forall in Hy. by rewrite (Hy v Hin).
Qed.

Lemma with_query_reads σ a lx X ly :
  globals σ !! "X_test" = Some lx →
  heap σ !! lx = Some (OFrame X) →
  globals σ !! "y_test" = Some ly →
  heap σ !! ly = Some (OArray a) →
  array_of (with_query σ a) "y_query" = Some (replicate (length a) np_nan) ∧
  array_of (with_query σ a) "y_test" = Some a ∧
  frame_of (with_query σ a) "X_test" = Some X.
Proof.
  intros Hx HX Hy Ha. unfold array_of, frame_of, with_query. simpl.
  split; [|split].
  - rewrite lookup_insert_eq. simpl.
    by rewrite heap_lookup_new, unknown_is_replicate.
  - rewrite lookup_insert_ne, Hy by done. simpl.
    by rewrite (heap_lookup_old _ _ _ _ Ha).
  - rewrite lookup_insert_ne, Hx by done. simpl.
    by rewrite (heap_lookup_old _ _ _ _ HX).
Qed.

(** ** What the forecast is asked *)

(** C10, as the code has it.  After the split, cell 5 builds the query
    from a copy of the test targets and overwrites every entry with NaN
    before [forecast] is called: the query has one entry per test row,
    each of them NaN, the test targets themselves are left intact, and the
    test frame carries no target cell.  [forecast] receives exactly that
    frame and that query.  With an all-NaN query no test row can be the
    forecast origin: the origin of the series train-then-test is the
    origin of the training part alone.  That is the timestamp of the last
    training row, in row order, whose target is not NaN, a row of the
    loaded frame before the cutoff; there is none when every training
    target is NaN.  It is the last training timestamp when the last
    training target is a definite value. *)
Theorem forecast_query_is_all_unknown
    (m : FittedModel) (c : Z) (σ : state) (d : loc) (D : DataFrame) :
  globals σ !! "data" = Some d →
  heap σ !! d = Some (OFrame D) →
  target_column_name ∈ columns D →
  ∃ σ1 σ2 X_train X_test y_train y_test y_query,
    split_cell c σ = (Ok tt, σ1) ∧
    frame_of σ1 "X_train" = Some X_train ∧
    frame_of σ1 "X_test" = Some X_test ∧
    array_of σ1 "y_train" = Some y_train ∧
    array_of σ1 "y_test" = Some y_test ∧
    make_query σ1 = (Ok tt, σ2) ∧
    array_of σ2 "y_query" = Some y_query ∧
    y_query = replicate (length (rows X_test)) np_nan ∧
    Forall (λ v, is_nan v = true) y_query ∧
    array_of σ2 "y_test" = Some y_test ∧
    frame_of σ2 "X_test" = Some X_test ∧
    Forall (λ r, cells r !! target_column_name = None) (rows X_test) ∧
    forecast_cell m σ1
      = match forecast m X_test y_query with
        | Ok (f, Xt) => (Ok tt, with_forecast σ2 f Xt)
        | Raise e => (Raise e, σ2)
        end ∧
    forecast_origin
      ((timeStamp <$> rows X_train) ++ (timeStamp <$> rows X_test))
      (y_train ++ y_query)
      = forecast_origin (timeStamp <$> rows X_train) y_train ∧
    (∀ t v,
       last (timeStamp <$> rows X_train) = Some t →
       last y_train = Some v →
       is_nan v = false →
       forecast_origin
         ((timeStamp <$> rows X_train) ++ (timeStamp <$> rows X_test))
         (y_train ++ y_query) = Some t) ∧
    (timeStamp <$> rows X_train)
      = (timeStamp <$> filter (λ r, ts_lt (timeStamp r) c) (rows D)) ∧
    y_train = (cell_of target_column_name
                 <$> filter (λ r, ts_lt (timeStamp r) c) (rows D)) ∧
    (∀ rs1 r rs2,
       filter (λ r, ts_lt (timeStamp r) c) (rows D) = rs1 ++ r :: rs2 →
       is_nan (cell_of target_column_name r) = false →
       Forall (λ r', is_nan (cell_of target_column_name r') = true) rs2 →
       forecast_origin
         ((timeStamp <$> rows X_train) ++ (timeStamp <$> rows X_test))
         (y_train ++ y_query) = Some (timeStamp r)) ∧
    (∀ t,
       forecast_origin
         ((timeStamp <$> rows X_train) ++ (timeStamp <$> rows X_test))
         (y_train ++ y_query) = Some t →
       ∃ r, r ∈ rows D ∧ timeStamp r = t ∧ ts_lt t c ∧
            is_nan (cell_of target_column_name r) = false) ∧
    (Forall (λ v, is_nan v = true) y_train →
     forecast_origin
       ((timeStamp <$> rows X_train) ++ (timeStamp <$> rows X_test))
       (y_train ++ y_query) = None).
Proof.
  intros Hd Hh Hcol.
  set (σ1 := split_post c σ D).
  set (Xte := mkFrame (features D)
                (drop_cell target_column_name <$> test_rows c D)).
  set (yte := cell_of target_column_name <$> test_rows c D).
  pose proof (split_post_X_test_global c σ D) as Hx.
  pose proof (split_post_X_test_object c σ D) as HX.
  pose proof (split_post_y_test_global c σ D) as Hy.
  pose proof (split_post_y_test_object c σ D) as Ha.
  destruct (with_query_reads σ1 yte _ Xte _ Hx HX Hy Ha) as (Hq1 & Hq2 & Hq3).
  assert (length yte = length (rows Xte)) as Hlen
    by (unfold yte, Xte; simpl; by rewrite !length_fmap).
  assert (Forall (λ v, is_nan v = true)
            (replicate (length (rows Xte)) np_nan)) as Hnan
    by (by apply Forall_replicate).
  assert (length (timeStamp <$> (drop_cell target_column_name <$> train_rows c D))
          = length (cell_of target_column_name <$> train_rows c D)) as Htr
    by (by rewrite !length_fmap).
  assert ((timeStamp <$> (drop_cell target_column_name <$> train_rows c D))
          = (timeStamp <$> train_rows c D)) as Hts
    by (by rewrite <- list_fmap_compose).
  exists σ1, (with_query σ1 yte),
         (mkFrame (features D) (drop_cell target_column_name <$> train_rows c D)),
         Xte, (cell_of target_column_name <$> train_rows c D), yte,
         (replicate (length (rows Xte)) np_nan).
  split; [by apply (split_cell_run c σ d D)|].
  split; [apply split_post_X_train|].
  split; [apply split_post_X_test|].
  split; [apply split_post_y_train|].
  split; [apply split_post_y_test|].
  split; [by apply (make_query_run σ1 _ yte Hy Ha)|].
  split; [by rewrite <- Hlen|].
  split; [done|]. split; [done|]. split; [done|]. split; [done|].
  split; [apply dropped_rows_lack_target|].
  split.
  { rewrite <- Hlen. apply (forecast_cell_run m σ1 _ Xte _ yte Hx HX Hy Ha). }
  simpl rows.
  rewrite forecast_origin_unknown_tail by done.
  split; [done|].
  split.
  { intros t v Ht Hv Hknown.
    by apply (forecast_origin_last_known _ _ t v). }
  rewrite Hts, train_rows_filter.
  split; [done|]. split; [done|].
  split; [|split].
  - intros rs1 r rs2 -> Hr Hrs2.
    rewrite !fmap_app, !fmap_cons.
    apply forecast_origin_last_definite; [by rewrite !length_fmap|done|].
    by apply Forall_fmap.
  - intros t (i & v & Hi & Hv & Hknown)%forecast_origin_is_definite.
    rewrite list_lookup_fmap in Hi. rewrite list_lookup_fmap in Hv.
    destruct (filter (λ r, ts_lt (timeStamp r) c) (rows D) !! i)
      as [r|] eqn:Hr; [|done].
    simpl in Hi, Hv. injection Hi as <-. injection Hv as <-.
    apply list_elem_of_lookup_2, list_elem_of_filter in Hr as [Hlt Hin].
    by exists r.
  - apply forecast_origin_all_unknown.
Qed.

Lemma forecast_query_is_all_unknown_witness :
  ∃ σ1 σ2 X_train X_test y_train y_test y_query,
    split_cell 300 demo_state = (Ok tt, σ1) ∧
    frame_of σ1 "X_train" = Some X_train ∧
    frame_of σ1 "X_test" = Some X_test ∧
    array_of σ1 "y_train" = Some y_train ∧
    array_of σ1 "y_test" = Some y_test ∧
    make_query σ1 = (Ok tt, σ2) ∧
    array_of σ2 "y_query" = Some y_query ∧
    y_query = replicate (length (rows X_test)) np_nan ∧
    Forall (λ v, is_nan v = true) y_query ∧
    array_of σ2 "y_test" = Some y_test ∧
    frame_of σ2 "X_test" = Some X_test ∧
    Forall (λ r, cells r !! target_column_name = None) (rows X_test) ∧
    forecast_cell (canned_model [8; 8]%float [8; 8]%float) σ1
      = match forecast (canned_model [8; 8]%float [8; 8]%float)
                X_test y_query with
        | Ok (f, Xt) => (Ok tt, with_forecast σ2 f Xt)
        | Raise e => (Raise e, σ2)
        end ∧
    forecast_origin
      ((timeStamp <$> rows X_train) ++ (timeStamp <$> rows X_test))
      (y_train ++ y_query)
      = forecast_origin (timeStamp <$> rows X_train) y_train ∧
    (∀ t v,
       last (timeStamp <$> rows X_train) = Some t →
       last y_train = Some v →
       is_nan v = false →
       forecast_origin
         ((timeStamp <$> rows X_train) ++ (timeStamp <$> rows X_test))
         (y_train ++ y_query) = Some t) ∧
    (timeStamp <$> rows X_train)
      = (timeStamp <$> filter (λ r, ts_lt (timeStamp r) 300) (rows demo_frame)) ∧
    y_train = (cell_of target_column_name
                 <$> filter (λ r, ts_lt (timeStamp r) 300) (rows demo_frame)) ∧
    (∀ rs1 r rs2,
       filter (λ r, ts_lt (timeStamp r) 300) (rows demo_frame)
         = rs1 ++ r :: rs2 →
       is_nan (cell_of target_column_name r) = false →
       Forall (λ r', is_nan (cell_of target_column_name r') = true) rs2 →
       forecast_origin
         ((timeStamp <$> rows X_train) ++ (timeStamp <$> rows X_test))
         (y_train ++ y_query) = Some (timeStamp r)) ∧
    (∀ t,
       forecast_origin
         ((timeStamp <$> rows X_train) ++ (timeStamp <$> rows X_test))
         (y_train ++ y_query) = Some t →
       ∃ r, r ∈ rows demo_frame ∧ timeStamp r = t ∧ ts_lt t 300 ∧
            is_nan (cell_of target_column_name r) = false) ∧
    (Forall (λ v, is_nan v = true) y_train →
     forecast_origin
       ((timeStamp <$> rows X_train) ++ (timeStamp <$> rows X_test))
       (y_train ++ y_query) = None).
Proof.
  apply (forecast_query_is_all_unknown
           (canned_model [8; 8]%float [8; 8]%float) 300 demo_state 0%nat
           demo_frame).
  - reflexivity.
  - reflexivity.
  - apply demo_has_target.
Defined.

(** On the four-row dataset split at its third row: the query is NaN, NaN,
    the test targets are still 9, 10, and the forecast origin is the
    second row's timestamp, the last of the training part. *)
Example forecast_query_on_demo :
  let σ := (forecast_cell (canned_model [8; 8]%float [8; 8]%float)
              (demo_split 300)).2 in
  array_of σ "y_query" = Some [np_nan; np_nan] ∧
  array_of σ "y_test" = Some [9; 10]%float ∧
  array_of σ "y_fcst" = Some [8; 8]%float ∧
  forecast_origin [At 100; At 200; At 300; At 400]
                  [7%float; 8%float; np_nan; np_nan] = Some (At 200).
Proof. vm_compute. repeat split; reflexivity. Qed.

(** The same through the cells: the origin computed from what the split
    and the query construction leave in the namespace is the timestamp of
    the second row, and that is the last training timestamp. *)
Example forecast_origin_on_demo :
  let σ := (make_query (demo_split 300)).2 in
  ∃ X_train X_test y_train y_query,
    frame_of σ "X_train" = Some X_train ∧
    frame_of σ "X_test" = Some X_test ∧
    array_of σ "y_train" = Some y_train ∧
    array_of σ "y_query" = Some y_query ∧
    forecast_origin
      ((timeStamp <$> rows X_train) ++ (timeStamp <$> rows X_test))
      (y_train ++ y_query) = Some (At 200) ∧
    last (timeStamp <$> rows X_train) = Some (At 200).
Proof. eexists _, _, _, _. repeat split; reflexivity. Qed.

(** The dataset whose second row has no demand reading, split at its
    third row.  The query is all NaN and the last training timestamp is
    that of the second row, yet the forecast origin is the timestamp of
    the first row: the last training target is NaN as well, so the last
    definite value was seen one row earlier. *)
Lemma forecast_origin_precedes_last_training_row :
  ∃ σ1 σ2 X_train X_test y_train y_query,
    split_cell 300 gap_state = (Ok tt, σ1) ∧
    make_query σ1 = (Ok tt, σ2) ∧
    frame_of σ2 "X_train" = Some X_train ∧
    frame_of σ2 "X_test" = Some X_test ∧
    array_of σ2 "y_train" = Some y_train ∧
    array_of σ2 "y_query" = Some y_query ∧
    (timeStamp <$> rows X_train) = [At 100; At 200] ∧
    (timeStamp <$> rows X_test) = [At 300; At 400] ∧
    y_train = [7%float; np_nan] ∧
    Forall (λ v, is_nan v = true) y_query ∧
    last (timeStamp <$> rows X_train) = Some (At 200) ∧
    forecast_origin
      ((timeStamp <$> rows X_train) ++ (timeStamp <$> rows X_test))
      (y_train ++ y_query) = Some (At 100) ∧
    forecast_origin
      ((timeStamp <$> rows X_train) ++ (timeStamp <$> rows X_test))
      (y_train ++ y_query) ≠ last (timeStamp <$> rows X_train).
Proof.
  exists (split_post 300 gap_state gap_frame),
         (with_query (split_post 300 gap_state gap_frame)
            (cell_of target_column_name <$> test_rows 300 gap_frame)).
  eexists _, _, _, _.
  split.
  { apply (split_cell_run 300 gap_state 0%nat gap_frame);
      [reflexivity|reflexivity|apply list_elem_of_here]. }
  split.
  { apply (make_query_run _ _ _ (split_post_y_test_global 300 gap_state gap_frame)
             (split_post_y_test_object 300 gap_state gap_frame)). }
  split; [reflexivity|]. split; [reflexivity|].
  split; [reflexivity|]. split; [reflexivity|].
  split; [reflexivity|]. split; [reflexivity|]. split; [reflexivity|].
  split; [by repeat constructor|].
  split; [reflexivity|]. split; [reflexivity|].
  intros H. vm_compute in H. discriminate.
Qed.

(** The forecast does not see the targets: two datasets that differ in
    demand values only put the same question to the model. *)
Lemma drop_cell_filter_time (P : Timestamp → bool) (rs : list Row) :
  drop_cell target_column_name <$> filter (λ r, P (timeStamp r)) rs
  = filter (λ r, P (timeStamp r)) (drop_cell target_column_name <$> rs).
Proof.
  induction rs as [|r rs IH]; [done|].
  rewrite fmap_cons.
  destruct (P (timeStamp r)) eqn:E.
  - rewrite !filter_cons_True by (simpl; by rewrite E).
    by rewrite fmap_cons, IH.
  - rewrite !filter_cons_False by (simpl; rewrite E; simpl; tauto).
    done.
Qed.

Lemma forecast_blind_to_targets m c σ1 σ2 D1 D2 :
  columns D1 = columns D2 →
  drop_cell target_column_name <$> rows D1
    = drop_cell target_column_name <$> rows D2 →
  ∃ X q a1 a2,
    array_of (split_post c σ1 D1) "y_test" = Some a1 ∧
    array_of (split_post c σ2 D2) "y_test" = Some a2 ∧
    forecast_cell m (split_post c σ1 D1)
      = match forecast m X q with
        | Ok (f, Xt) =>
            (Ok tt, with_forecast (with_query (split_post c σ1 D1) a1) f Xt)
        | Raise e => (Raise e, with_query (split_post c σ1 D1) a1)
        end ∧
    forecast_cell m (split_post c σ2 D2)
      = match forecast m X q with
        | Ok (f, Xt) =>
            (Ok tt, with_forecast (with_query (split_post c σ2 D2) a2) f Xt)
        | Raise e => (Raise e, with_query (split_post c σ2 D2) a2)
        end.
Proof.
  intros Hcols Hrows.
  assert (features D1 = features D2) as Hf by (unfold features; by rewrite Hcols).
  assert (drop_cell target_column_name <$> test_rows c D1
          = drop_cell target_column_name <$> test_rows c D2) as Hte.
  { rewrite !test_rows_filter.
    rewrite !(drop_cell_filter_time (λ t, ts_ge t c)). by rewrite Hrows. }
  assert (length (cell_of target_column_name <$> test_rows c D1)
          = length (cell_of target_column_name <$> test_rows c D2)) as Hlen.
  { rewrite !length_fmap.
    rewrite <- (length_fmap (drop_cell target_column_name) (test_rows c D1)).
    by rewrite Hte, length_fmap. }
  eexists _, _, _, _.
  split; [apply split_post_y_test|].
  split; [apply split_post_y_test|].
  split.
  - apply (forecast_cell_run m (split_post c σ1 D1) _ _ _ _
             (split_post_X_test_global c σ1 D1) (split_post_X_test_object c σ1 D1)
             (split_post_y_test_global c σ1 D1) (split_post_y_test_object c σ1 D1)).
  - rewrite Hf, Hte, Hlen.
    apply (forecast_cell_run m (split_post c σ2 D2) _ _ _ _
             (split_post_X_test_global c σ2 D2) (split_post_X_test_object c σ2 D2)
             (split_post_y_test_global c σ2 D2) (split_post_y_test_object c σ2 D2)).
Qed.

(** * Further properties of the cells *)

(** ** The split cell: errors, sizes, order *)

Lemma pop_targets_missing_run c σ D :
  target_column_name ∉ columns D →
  pop_targets (selected c σ D) = (Raise KeyError, selected c σ D).
Proof.
  intros Ht. unfold pop_targets, df_pop_values.
  rewrite (load_bind _ _ _ (length (heap σ)))
    by (unfold selected; simpl; by simplify_map_eq).
  rewrite bind_assoc,
    (deref_frame_bind _ _ _ (mkFrame (columns D) (train_rows c D)))
    by (unfold selected; simpl; by rewrite heap_lookup_new0).
  by rewrite bind_assoc, (lift_bind_raise _ _ _ _ (pop_column_missing D _ Ht)).
Qed.

Lemma selected_reads c σ D d :
  globals σ !! "data" = Some d →
  heap σ !! d = Some (OFrame D) →
  frame_of (selected c σ D) "X_train"
    = Some (mkFrame (columns D) (train_rows c D)) ∧
  frame_of (selected c σ D) "X_test"
    = Some (mkFrame (columns D) (test_rows c D)) ∧
  frame_of (selected c σ D) "data" = Some D ∧
  globals (selected c σ D) !! "y_train" = globals σ !! "y_train" ∧
  globals (selected c σ D) !! "y_test" = globals σ !! "y_test".
Proof.
  intros Hd Hh. unfold frame_of, selected. simpl.
  rewrite !lookup_insert_eq, !(lookup_insert_ne _ "X_test") by done.
  rewrite !lookup_insert_eq, !lookup_insert_ne, Hd by done. simpl.
  rewrite heap_lookup_new0, heap_lookup_new.
  by rewrite (heap_lookup_old _ _ _ _ Hh).
Qed.

(** X1.  On a frame without the target column the split cell raises
    [KeyError] at the first [pop].  By then [X_train] and [X_test] are
    bound to the selected rows with all their columns; [y_train] and
    [y_test] are not touched, and the loaded frame is as it was. *)
Theorem split_without_target_raises (c : Z) (σ : state) (d : loc) (D : DataFrame) :
  globals σ !! "data" = Some d →
  heap σ !! d = Some (OFrame D) →
  target_column_name ∉ columns D →
  ∃ σ',
    split_cell c σ = (Raise KeyError, σ') ∧
    frame_of σ' "X_train"
      = Some (mkFrame (columns D)
                (filter (λ r, ts_lt (timeStamp r) c) (rows D))) ∧
    frame_of σ' "X_test"
      = Some (mkFrame (columns D)
                (filter (λ r, ts_ge (timeStamp r) c) (rows D))) ∧
    frame_of σ' "data" = Some D ∧
    globals σ' !! "y_train" = globals σ !! "y_train" ∧
    globals σ' !! "y_test" = globals σ !! "y_test".
Proof.
  intros Hd Hh Ht. exists (selected c σ D).
  split.
  { unfold split_cell.
    rewrite (bind_ok _ _ _ _ _ (select_rows_run c σ d D Hd Hh)).
    by apply pop_targets_missing_run. }
  rewrite <- train_rows_filter, <- test_rows_filter.
  by apply (selected_reads c σ D d).
Qed.

Lemma split_without_target_raises_witness :
  ∃ σ',
    split_cell 300 no_target_state = (Raise KeyError, σ') ∧
    frame_of σ' "X_train"
      = Some (mkFrame (columns no_target_frame)
                (filter (λ r, ts_lt (timeStamp r) 300) (rows no_target_frame))) ∧
    frame_of σ' "X_test"
      = Some (mkFrame (columns no_target_frame)
                (filter (λ r, ts_ge (timeStamp r) 300) (rows no_target_frame))) ∧
    frame_of σ' "data" = Some no_target_frame ∧
    globals σ' !! "y_train" = globals no_target_state !! "y_train" ∧
    globals σ' !! "y_test" = globals no_target_state !! "y_test".
Proof.
  apply (split_without_target_raises 300 no_target_state 0%nat no_target_frame).
  - reflexivity.
  - reflexivity.
  - unfold no_target_frame. simpl. rewrite list_elem_of_singleton. discriminate.
Defined.

Lemma sides_and_untimed_count (rs : list Row) c :
  (length (filter (λ r, ts_lt (timeStamp r) c) rs)
   + length (filter (λ r, ts_ge (timeStamp r) c) rs)
   + length (filter (λ r, untimed r) rs))%nat
  = length rs.
Proof.
  induction rs as [|r rs IH]; [done|].
  rewrite (filter_cons_bool (λ r, ts_lt (timeStamp r) c)),
          (filter_cons_bool (λ r, ts_ge (timeStamp r) c)),
          (filter_cons_bool untimed).
  destruct (one_side_or_untimed r c) as
    [(-> & -> & ->)|[(-> & -> & ->)|(-> & -> & ->)]]; simpl; lia.
Qed.

(** X2.  The split loses exactly the rows without a timestamp: the train
    rows, the test rows and the rows whose timestamp is [NaT] add up to
    the rows of the dataset, and each target array is as long as its
    frame. *)
Theorem split_loses_exactly_untimed_rows
    (c : Z) (σ : state) (d : loc) (D : DataFrame) :
  globals σ !! "data" = Some d →
  heap σ !! d = Some (OFrame D) →
  target_column_name ∈ columns D →
  ∃ σ' X_train X_test y_train y_test,
    split_cell c σ = (Ok tt, σ') ∧
    frame_of σ' "X_train" = Some X_train ∧
    frame_of σ' "X_test" = Some X_test ∧
    array_of σ' "y_train" = Some y_train ∧
    array_of σ' "y_test" = Some y_test ∧
    (length (rows X_train) + length (rows X_test)
     + length (filter (λ r, untimed r) (rows D)))%nat = length (rows D) ∧
    (length y_train + length y_test
     + length (filter (λ r, untimed r) (rows D)))%nat = length (rows D).
Proof.
  intros Hd Hh Ht.
  eexists _, _, _, _, _.
  split; [by apply (split_cell_run c σ d D)|].
  split; [apply split_post_X_train|].
  split; [apply split_post_X_test|].
  split; [apply split_post_y_train|].
  split; [apply split_post_y_test|].
  simpl. rewrite train_rows_filter, test_rows_filter, !length_fmap.
  split; apply sides_and_untimed_count.
Qed.

Lemma split_loses_exactly_untimed_rows_witness :
  ∃ σ' X_train X_test y_train y_test,
    split_cell 300 untimed_state = (Ok tt, σ') ∧
    frame_of σ' "X_train" = Some X_train ∧
    frame_of σ' "X_test" = Some X_test ∧
    array_of σ' "y_train" = Some y_train ∧
    array_of σ' "y_test" = Some y_test ∧
    (length (rows X_train) + length (rows X_test)
     + length (filter (λ r, untimed r) (rows untimed_frame)))%nat
      = length (rows untimed_frame) ∧
    (length y_train + length y_test
     + length (filter (λ r, untimed r) (rows untimed_frame)))%nat
      = length (rows untimed_frame).
Proof.
  apply (split_loses_exactly_untimed_rows 300 untimed_state 0%nat untimed_frame).
  - reflexivity.
  - reflexivity.
  - apply list_elem_of_here.
Defined.

Lemma ts_before_ge t1 t2 c : ts_before t1 t2 → ts_ge t1 c → ts_ge t2 c.
Proof.
  destruct t1 as [|a], t2 as [|b]; simpl; try done.
  rewrite !Z.geb_leb. intros Hab H%Is_true_true. apply Is_true_true. lia.
Qed.

Lemma sorted_sides_concat (rs : list Row) c :
  StronglySorted (λ r1 r2, ts_before (timeStamp r1) (timeStamp r2)) rs →
  Forall (λ r, timeStamp r ≠ NaT) rs →
  filter (λ r, ts_lt (timeStamp r) c) rs
    ++ filter (λ r, ts_ge (timeStamp r) c) rs = rs.
Proof.
  induction 1 as [|r rs Hs IH Hall]; [done|].
  intros [Hr Hrs]%Forall_cons.
  pose proof (ts_ge_not_lt _ c Hr) as Hge.
  destruct (ts_lt (timeStamp r) c) eqn:E; simpl in Hge.
  - rewrite filter_cons_True by (by rewrite E).
    rewrite (filter_cons_False (λ r, ts_ge (timeStamp r) c))
      by (rewrite Hge; simpl; tauto).
    simpl. by rewrite IH.
  - assert (Forall (λ r', ts_ge (timeStamp r') c) rs) as Hlater.
    { eapply Forall_impl; [exact Hall|]. intros r' Hb.
      apply (ts_before_ge _ _ c Hb). by rewrite Hge. }
    rewrite filter_cons_False by (rewrite E; simpl; tauto).
    rewrite (filter_none (λ r, ts_lt (timeStamp r) c)).
    + simpl. by rewrite filter_all by (constructor; [by rewrite Hge|done]).
    + eapply Forall_impl; [exact Hlater|]. intros r' H1 H2.
      by apply (ts_lt_ge_exclusive (timeStamp r') c).
Qed.

(** X3.  On a dataset in ascending time order, every row with a
    timestamp, the split cuts the frame in two without reordering: the
    train rows followed by the test rows are the rows of the dataset less
    the target column, in the order of the dataset, and [y_train]
    followed by [y_test] is the target column. *)
Theorem split_of_ascending_data_is_a_cut
    (c : Z) (σ : state) (d : loc) (D : DataFrame) :
  globals σ !! "data" = Some d →
  heap σ !! d = Some (OFrame D) →
  target_column_name ∈ columns D →
  ascending D →
  timestamped D →
  ∃ σ' X_train X_test y_train y_test,
    split_cell c σ = (Ok tt, σ') ∧
    frame_of σ' "X_train" = Some X_train ∧
    frame_of σ' "X_test" = Some X_test ∧
    array_of σ' "y_train" = Some y_train ∧
    array_of σ' "y_test" = Some y_test ∧
    rows X_train ++ rows X_test = (drop_cell target_column_name <$> rows D) ∧
    y_train ++ y_test = (cell_of target_column_name <$> rows D).
Proof.
  intros Hd Hh Ht Hasc Hts.
  eexists _, _, _, _, _.
  split; [by apply (split_cell_run c σ d D)|].
  split; [apply split_post_X_train|].
  split; [apply split_post_X_test|].
  split; [apply split_post_y_train|].
  split; [apply split_post_y_test|].
  simpl. rewrite train_rows_filter, test_rows_filter, <- !fmap_app.
  by rewrite sorted_sides_concat.
Qed.

Lemma demo_ascending : ascending demo_frame.
Proof.
  unfold ascending, demo_frame, row. simpl.
  repeat (constructor; [|repeat constructor; simpl; lia]).
  constructor.
Qed.

Lemma split_of_ascending_data_is_a_cut_witness :
  ∃ σ' X_train X_test y_train y_test,
    split_cell 300 demo_state = (Ok tt, σ') ∧
    frame_of σ' "X_train" = Some X_train ∧
    frame_of σ' "X_test" = Some X_test ∧
    array_of σ' "y_train" = Some y_train ∧
    array_of σ' "y_test" = Some y_test ∧
    rows X_train ++ rows X_test
      = (drop_cell target_column_name <$> rows demo_frame) ∧
    y_train ++ y_test = (cell_of target_column_name <$> rows demo_frame).
Proof.
  apply (split_of_ascending_data_is_a_cut 300 demo_state 0%nat demo_frame).
  - reflexivity.
  - reflexivity.
  - apply demo_has_target.
  - apply demo_ascending.
  - apply demo_timestamped.
Defined.

(** ** Running the split again *)

Lemma frame_of_intro σ x l D :
  globals σ !! x = Some l →
  heap σ !! l = Some (OFrame D) →
  frame_of σ x = Some D.
Proof. intros Hx Hl. unfold frame_of. rewrite Hx. simpl. by rewrite Hl. Qed.

Lemma array_of_intro σ x l a :
  globals σ !! x = Some l →
  heap σ !! l = Some (OArray a) →
  array_of σ x = Some a.
Proof. intros Hx Hl. unfold array_of. rewrite Hx. simpl. by rewrite Hl. Qed.

Lemma split_post_data c σ D d :
  globals σ !! "data" = Some d →
  heap σ !! d = Some (OFrame D) →
  globals (split_post c σ D) !! "data" = Some d ∧
  heap (split_post c σ D) !! d = Some (OFrame D).
Proof.
  intros Hd Hh. split; [|by apply split_post_old_heap].
  rewrite split_post_old_global; [done|].
  rewrite !not_elem_of_cons. repeat split; try done. apply not_elem_of_nil.
Qed.

(** X4.  The split cell can be run again: the loaded frame is still
    whole, so the second run succeeds and binds [X_train], [X_test],
    [y_train] and [y_test] to the same contents as the first. *)
Theorem split_cell_can_be_rerun (c : Z) (σ : state) (d : loc) (D : DataFrame) :
  globals σ !! "data" = Some d →
  heap σ !! d = Some (OFrame D) →
  target_column_name ∈ columns D →
  ∃ σ1 σ2,
    split_cell c σ = (Ok tt, σ1) ∧
    split_cell c σ1 = (Ok tt, σ2) ∧
    frame_of σ2 "X_train" = frame_of σ1 "X_train" ∧
    frame_of σ2 "X_test" = frame_of σ1 "X_test" ∧
    array_of σ2 "y_train" = array_of σ1 "y_train" ∧
    array_of σ2 "y_test" = array_of σ1 "y_test" ∧
    is_Some (frame_of σ1 "X_train") ∧
    frame_of σ2 "data" = Some D.
Proof.
  intros Hd Hh Ht.
  destruct (split_post_data c σ D d Hd Hh) as [Hd1 Hh1].
  destruct (split_post_data c (split_post c σ D) D d Hd1 Hh1) as [Hd2 Hh2].
  exists (split_post c σ D), (split_post c (split_post c σ D) D).
  split; [by apply (split_cell_run c σ d D)|].
  split; [by apply (split_cell_run c _ d D)|].
  rewrite !split_post_X_train, !split_post_X_test,
          !split_post_y_train, !split_post_y_test.
  repeat split; try done.
  by apply (frame_of_intro _ _ d).
Qed.

Lemma split_cell_can_be_rerun_witness :
  ∃ σ1 σ2,
    split_cell 300 demo_state = (Ok tt, σ1) ∧
    split_cell 300 σ1 = (Ok tt, σ2) ∧
    frame_of σ2 "X_train" = frame_of σ1 "X_train" ∧
    frame_of σ2 "X_test" = frame_of σ1 "X_test" ∧
    array_of σ2 "y_train" = array_of σ1 "y_train" ∧
    array_of σ2 "y_test" = array_of σ1 "y_test" ∧
    is_Some (frame_of σ1 "X_train") ∧
    frame_of σ2 "data" = Some demo_frame.
Proof.
  apply (split_cell_can_be_rerun 300 demo_state 0%nat demo_frame).
  - reflexivity.
  - reflexivity.
  - apply demo_has_target.
Defined.

(** X5.  The two [pop] statements cannot be run a second time on their
    own: after the split the target column is gone from [X_train], the
    first [pop] raises [KeyError], and nothing is changed by the
    attempt. *)
Theorem popping_twice_raises (c : Z) (σ : state) (d : loc) (D : DataFrame) :
  globals σ !! "data" = Some d →
  heap σ !! d = Some (OFrame D) →
  target_column_name ∈ columns D →
  ∃ σ1,
    split_cell c σ = (Ok tt, σ1) ∧
    pop_targets σ1 = (Raise KeyError, σ1).
Proof.
  intros Hd Hh Ht. exists (split_post c σ D).
  split; [by apply (split_cell_run c σ d D)|].
  unfold pop_targets, df_pop_values.
  rewrite (load_bind _ _ _ (length (heap σ)))
    by (unfold split_post; simpl;
        by rewrite !lookup_insert_ne, lookup_insert_eq by done).
  rewrite bind_assoc,
    (deref_frame_bind _ _ _
       (mkFrame (features D) (drop_cell target_column_name <$> train_rows c D)))
    by (unfold split_post; simpl; by rewrite heap_lookup_new0).
  rewrite bind_assoc.
  rewrite (lift_bind_raise _ _ _ KeyError); [done|].
  unfold pop_column. simpl.
  rewrite decide_False; [done|]. apply target_not_in_features.
Qed.

Lemma popping_twice_raises_witness :
  ∃ σ1,
    split_cell 300 demo_state = (Ok tt, σ1) ∧
    pop_targets σ1 = (Raise KeyError, σ1).
Proof.
  apply (popping_twice_raises 300 demo_state 0%nat demo_frame).
  - reflexivity.
  - reflexivity.
  - apply demo_has_target.
Defined.

(** ** Moving the cutoff *)

Lemma filter_sublist_mono {A : Type} (p q : A → bool) (l : list A) :
  (∀ x, p x → q x) →
  sublist (filter (λ x, p x) l) (filter (λ x, q x) l).
Proof.
  intros Hpq. induction l as [|x l IH]; [constructor|].
  rewrite (filter_cons_bool p), (filter_cons_bool q).
  destruct (p x) eqn:Ep.
  - rewrite (Is_true_true_1 _ (Hpq x ltac:(by rewrite Ep))).
    by constructor.
  - destruct (q x); [by constructor|done].
Qed.

Lemma ts_lt_mono t c1 c2 : c1 ≤ c2 → ts_lt t c1 → ts_lt t c2.
Proof.
  destruct t as [|ns]; simpl; [done|].
  intros Hc H%Is_true_true. apply Is_true_true. lia.
Qed.

Lemma ts_ge_mono t c1 c2 : c1 ≤ c2 → ts_ge t c2 → ts_ge t c1.
Proof.
  destruct t as [|ns]; simpl; [done|]. rewrite !Z.geb_leb.
  intros Hc H%Is_true_true. apply Is_true_true. lia.
Qed.

(** X6.  A later cutoff only moves rows from test to train: for
    [c1 <= c2] the train rows of the split at [c1] are, in order, among
    the train rows of the split at [c2], and the test rows at [c2] among
    the test rows at [c1]; likewise for the target arrays' lengths. *)
Theorem later_cutoff_grows_train
    (c1 c2 : Z) (σ : state) (d : loc) (D : DataFrame) :
  globals σ !! "data" = Some d →
  heap σ !! d = Some (OFrame D) →
  target_column_name ∈ columns D →
  c1 ≤ c2 →
  ∃ σ1 σ2 train1 train2 test1 test2,
    split_cell c1 σ = (Ok tt, σ1) ∧
    split_cell c2 σ = (Ok tt, σ2) ∧
    frame_of σ1 "X_train" = Some train1 ∧
    frame_of σ2 "X_train" = Some train2 ∧
    frame_of σ1 "X_test" = Some test1 ∧
    frame_of σ2 "X_test" = Some test2 ∧
    sublist (rows train1) (rows train2) ∧
    sublist (rows test2) (rows test1) ∧
    (length (rows train1) ≤ length (rows train2))%nat ∧
    (length (rows test2) ≤ length (rows test1))%nat.
Proof.
  intros Hd Hh Ht Hc.
  eexists _, _, _, _, _, _.
  split; [by apply (split_cell_run c1 σ d D)|].
  split; [by apply (split_cell_run c2 σ d D)|].
  split; [apply split_post_X_train|].
  split; [apply split_post_X_train|].
  split; [apply split_post_X_test|].
  split; [apply split_post_X_test|].
  simpl. rewrite !train_rows_filter, !test_rows_filter.
  assert (sublist (filter (λ r, ts_lt (timeStamp r) c1) (rows D))
                  (filter (λ r, ts_lt (timeStamp r) c2) (rows D))) as H1.
  { apply (filter_sublist_mono (λ r, ts_lt (timeStamp r) c1)
             (λ r, ts_lt (timeStamp r) c2)).
    intros r. by apply ts_lt_mono. }
  assert (sublist (filter (λ r, ts_ge (timeStamp r) c2) (rows D))
                  (filter (λ r, ts_ge (timeStamp r) c1) (rows D))) as H2.
  { apply (filter_sublist_mono (λ r, ts_ge (timeStamp r) c2)
             (λ r, ts_ge (timeStamp r) c1)).
    intros r. by apply ts_ge_mono. }
  split; [by apply fmap_sublist|].
  split; [by apply fmap_sublist|].
  rewrite !length_fmap. split; by apply sublist_length.
Qed.

Lemma later_cutoff_grows_train_witness :
  ∃ σ1 σ2 train1 train2 test1 test2,
    split_cell 200 demo_state = (Ok tt, σ1) ∧
    split_cell 300 demo_state = (Ok tt, σ2) ∧
    frame_of σ1 "X_train" = Some train1 ∧
    frame_of σ2 "X_train" = Some train2 ∧
    frame_of σ1 "X_test" = Some test1 ∧
    frame_of σ2 "X_test" = Some test2 ∧
    sublist (rows train1) (rows train2) ∧
    sublist (rows test2) (rows test1) ∧
    (length (rows train1) ≤ length (rows train2))%nat ∧
    (length (rows test2) ≤ length (rows test1))%nat.
Proof.
  apply (later_cutoff_grows_train 200 300 demo_state 0%nat demo_frame).
  - reflexivity.
  - reflexivity.
  - apply demo_has_target.
  - lia.
Defined.

(** ** The two plots of the raw data *)

Lemma series_and_fmap {A : Type} (p q : A → bool) (l : list A) :
  series_and (p <$> l) (q <$> l) = (λ x, p x && q x) <$> l.
Proof.
  unfold series_and. induction l as [|x l IH]; [done|].
  rewrite !fmap_cons. simpl. by rewrite IH.
Qed.

Lemma window_mask_gt_le (D : DataFrame) lo hi :
  getitem_mask D (series_and (series_gt (timeStamp <$> rows D) lo)
                             (series_le (timeStamp <$> rows D) hi))
  = Ok (mkFrame (columns D)
          (filter (λ r, ts_gt (timeStamp r) lo && ts_le (timeStamp r) hi)
                  (rows D))).
Proof.
  unfold series_gt, series_le. rewrite <- !list_fmap_compose.
  rewrite (series_and_fmap (λ r, ts_gt (timeStamp r) lo)
             (λ r, ts_le (timeStamp r) hi)).
  unfold getitem_mask. rewrite length_fmap, decide_True by done.
  by rewrite (take_mask_fmap
                (λ r, ts_gt (timeStamp r) lo && ts_le (timeStamp r) hi)).
Qed.

Lemma window_mask_ge_lt (D : DataFrame) lo hi :
  getitem_mask D (series_and (series_ge (timeStamp <$> rows D) lo)
                             (series_lt (timeStamp <$> rows D) hi))
  = Ok (mkFrame (columns D)
          (filter (λ r, ts_ge (timeStamp r) lo && ts_lt (timeStamp r) hi)
                  (rows D))).
Proof.
  unfold series_ge, series_lt. rewrite <- !list_fmap_compose.
  rewrite (series_and_fmap (λ r, ts_ge (timeStamp r) lo)
             (λ r, ts_lt (timeStamp r) hi)).
  unfold getitem_mask. rewrite length_fmap, decide_True by done.
  by rewrite (take_mask_fmap
                (λ r, ts_ge (timeStamp r) lo && ts_lt (timeStamp r) hi)).
Qed.

Lemma df_time_column_bind {B : Type} l (f : list Timestamp → M B) σ D :
  heap σ !! l = Some (OFrame D) →
  (df_time_column l ≫= f) σ = f (timeStamp <$> rows D) σ.
Proof.
  intros H. unfold df_time_column.
  by rewrite bind_assoc, (deref_frame_bind _ _ _ D), mret_bind.
Qed.

(** Plotting a frame's timestamps against its demand column. *)
Lemma plot_demand_run σ x n W :
  globals σ !! x = Some n →
  heap σ !! n = Some (OFrame W) →
  (p ← load x; ts ← df_time_column p;
   p ← load x; y ← df_float_column p "demand"; plt_plot ts y) σ
  = (if decide ("demand" ∈ columns W) then Ok tt else Raise KeyError, σ).
Proof.
  intros Hx Hn. unfold df_float_column.
  rewrite (load_bind _ _ _ n) by done.
  rewrite (df_time_column_bind _ _ _ W) by done.
  rewrite (load_bind _ _ _ n) by done.
  rewrite bind_assoc, (deref_frame_bind _ _ _ W) by done.
  case_decide.
  - rewrite mret_bind. unfold plt_plot.
    by rewrite decide_True by (by rewrite !length_fmap).
  - by rewrite (lift_bind_raise _ _ _ KeyError).
Qed.

Lemma week_plot_cell_run lo hi σ d D :
  globals σ !! "data" = Some d →
  heap σ !! d = Some (OFrame D) →
  week_plot_cell lo hi σ
  = (if decide ("demand" ∈ columns D) then Ok tt else Raise KeyError,
     mkState (<["plt_df" := length (heap σ)]> (globals σ))
       (heap σ ++
          [OFrame (mkFrame (columns D)
             (filter (λ r, ts_gt (timeStamp r) lo && ts_le (timeStamp r) hi)
                     (rows D)))])).
Proof.
  intros Hd Hh. unfold week_plot_cell.
  rewrite (load_bind _ _ _ d) by done.
  rewrite (load_bind _ _ _ d) by done.
  rewrite (df_time_column_bind _ _ _ D) by done.
  rewrite (load_bind _ _ _ d) by done.
  rewrite (df_time_column_bind _ _ _ D) by done.
  unfold df_getitem_mask.
  rewrite bind_assoc, (deref_frame_bind _ _ _ D) by done.
  rewrite bind_assoc, (lift_bind _ _ _ _ (window_mask_gt_le D lo hi)).
  rewrite alloc_bind, store_bind.
  apply (plot_demand_run _ "plt_df" (length (heap σ))
           (mkFrame (columns D)
              (filter (λ r, ts_gt (timeStamp r) lo && ts_le (timeStamp r) hi)
                      (rows D)))).
  - simpl. by rewrite lookup_insert_eq.
  - simpl. by rewrite heap_lookup_new0.
Qed.

Lemma year_plot_cell_run lo hi σ d D :
  globals σ !! "data" = Some d →
  heap σ !! d = Some (OFrame D) →
  year_plot_cell lo hi σ
  = (if decide ("demand" ∈ columns D) then Ok tt else Raise KeyError,
     mkState (<["plt_df" := (length (heap σ) + 1)%nat]> (globals σ))
       (heap σ ++
          [OFrame D;
           OFrame (mkFrame (columns D)
             (filter (λ r, ts_ge (timeStamp r) lo && ts_lt (timeStamp r) hi)
                     (rows D)))])).
Proof.
  intros Hd Hh. unfold year_plot_cell.
  rewrite (load_bind _ _ _ d) by done.
  unfold df_copy.
  rewrite bind_assoc, (deref_frame_bind _ _ _ D), alloc_bind by done.
  rewrite (load_bind _ _ _ d) by done.
  rewrite (df_time_column_bind _ _ _ D) by (simpl; by apply heap_lookup_old).
  rewrite (load_bind _ _ _ d) by done.
  rewrite (df_time_column_bind _ _ _ D) by (simpl; by apply heap_lookup_old).
  unfold df_getitem_mask.
  rewrite bind_assoc, (deref_frame_bind _ _ _ D)
    by (simpl; by rewrite heap_lookup_new0).
  rewrite bind_assoc, (lift_bind _ _ _ _ (window_mask_ge_lt D lo hi)).
  rewrite alloc_bind, store_bind. simpl.
  rewrite length_app, <- app_assoc. simpl.
  apply (plot_demand_run _ "plt_df" (length (heap σ) + 1)%nat
           (mkFrame (columns D)
              (filter (λ r, ts_ge (timeStamp r) lo && ts_lt (timeStamp r) hi)
                      (rows D)))).
  - simpl. by rewrite lookup_insert_eq.
  - simpl. by rewrite heap_lookup_new.
Qed.

Lemma in_week_window t lo hi :
  ts_gt t lo && ts_le t hi ↔ ∃ ns, t = At ns ∧ lo < ns ≤ hi.
Proof.
  destruct t as [|ns]; simpl.
  - split; [done|]. by intros (? & ? & _).
  - rewrite andb_True, Z.gtb_ltb.
    rewrite !Is_true_true, Z.ltb_lt, Z.leb_le. split.
    + intros [? ?]. exists ns. split; [done|lia].
    + intros (? & [= <-] & ?). lia.
Qed.

Lemma in_year_window t lo hi :
  ts_ge t lo && ts_lt t hi ↔ ∃ ns, t = At ns ∧ lo ≤ ns < hi.
Proof.
  destruct t as [|ns]; simpl.
  - split; [done|]. by intros (? & ? & _).
  - rewrite andb_True, Z.geb_leb.
    rewrite !Is_true_true, Z.ltb_lt, Z.leb_le. split.
    + intros [? ?]. exists ns. split; [done|lia].
    + intros (? & [= <-] & ?). lia.
Qed.

(** X7.  The first plot cell selects the rows whose timestamp lies in the
    half-open window [(lo, hi]]: [plt_df] is a new frame with the columns
    of the loaded frame and exactly those rows, in their order; rows
    without a timestamp are never selected.  The cell ends normally when
    the frame has a demand column and with [KeyError] otherwise, [plt_df]
    being bound in both cases; the loaded frame and every other object
    are left as they were. *)
Theorem week_plot_selects_window (lo hi : Z) (σ : state) (d : loc) (D : DataFrame) :
  globals σ !! "data" = Some d →
  heap σ !! d = Some (OFrame D) →
  ∃ σ' W,
    week_plot_cell lo hi σ
      = (if decide ("demand" ∈ columns D) then Ok tt else Raise KeyError, σ') ∧
    frame_of σ' "plt_df" = Some W ∧
    columns W = columns D ∧
    sublist (rows W) (rows D) ∧
    (∀ r, r ∈ rows W ↔
          r ∈ rows D ∧ ∃ ns, timeStamp r = At ns ∧ lo < ns ≤ hi) ∧
    frame_of σ' "data" = Some D ∧
    globals σ' !! "plt_df" ≠ Some d ∧
    (∀ l o, heap σ !! l = Some o → heap σ' !! l = Some o).
Proof.
  intros Hd Hh.
  assert (d < length (heap σ))%nat as Hlt by (by eapply lookup_lt_Some).
  eexists _, _.
  split; [by apply (week_plot_cell_run lo hi σ d D)|].
  split.
  { apply (frame_of_intro _ _ (length (heap σ))); simpl.
    - by rewrite lookup_insert_eq.
    - by rewrite heap_lookup_new0. }
  simpl. split; [done|].
  split; [apply sublist_filter|].
  split.
  { intros r. rewrite list_elem_of_filter, in_week_window. tauto. }
  split.
  { apply (frame_of_intro _ _ d); simpl.
    - by rewrite lookup_insert_ne.
    - by apply heap_lookup_old. }
  split; [rewrite lookup_insert_eq; intros [= ?]; lia|].
  intros l o. apply heap_lookup_old.
Qed.

Lemma week_plot_selects_window_witness :
  ∃ σ' W,
    week_plot_cell 100 300 demo_state
      = (if decide ("demand" ∈ columns demo_frame)
         then Ok tt else Raise KeyError, σ') ∧
    frame_of σ' "plt_df" = Some W ∧
    columns W = columns demo_frame ∧
    sublist (rows W) (rows demo_frame) ∧
    (∀ r, r ∈ rows W ↔
          r ∈ rows demo_frame ∧ ∃ ns, timeStamp r = At ns ∧ 100 < ns ≤ 300) ∧
    frame_of σ' "data" = Some demo_frame ∧
    globals σ' !! "plt_df" ≠ Some 0%nat ∧
    (∀ l o, heap demo_state !! l = Some o → heap σ' !! l = Some o).
Proof.
  apply (week_plot_selects_window 100 300 demo_state 0%nat demo_frame).
  - reflexivity.
  - reflexivity.
Defined.

(** X8.  The second plot cell takes its mask from the loaded frame and
    applies it to a copy: [plt_df] holds exactly the rows with a
    timestamp in [[lo, hi)], in their order, with all columns.  The mask
    always fits the copy, so the selection itself never fails; the cell
    ends with [KeyError] only when there is no demand column to plot.
    The loaded frame is left as it was. *)
Theorem year_plot_selects_window (lo hi : Z) (σ : state) (d : loc) (D : DataFrame) :
  globals σ !! "data" = Some d →
  heap σ !! d = Some (OFrame D) →
  ∃ σ' W,
    year_plot_cell lo hi σ
      = (if decide ("demand" ∈ columns D) then Ok tt else Raise KeyError, σ') ∧
    frame_of σ' "plt_df" = Some W ∧
    columns W = columns D ∧
    sublist (rows W) (rows D) ∧
    (∀ r, r ∈ rows W ↔
          r ∈ rows D ∧ ∃ ns, timeStamp r = At ns ∧ lo ≤ ns < hi) ∧
    frame_of σ' "data" = Some D ∧
    globals σ' !! "plt_df" ≠ Some d ∧
    (∀ l o, heap σ !! l = Some o → heap σ' !! l = Some o).
Proof.
  intros Hd Hh.
  assert (d < length (heap σ))%nat as Hlt by (by eapply lookup_lt_Some).
  eexists _, _.
  split; [by apply (year_plot_cell_run lo hi σ d D)|].
  split.
  { apply (frame_of_intro _ _ (length (heap σ) + 1)%nat); simpl.
    - by rewrite lookup_insert_eq.
    - by rewrite heap_lookup_new. }
  simpl. split; [done|].
  split; [apply sublist_filter|].
  split.
  { intros r. rewrite list_elem_of_filter, in_year_window. tauto. }
  split.
  { apply (frame_of_intro _ _ d); simpl.
    - by rewrite lookup_insert_ne.
    - by apply heap_lookup_old. }
  split; [rewrite lookup_insert_eq; intros [= ?]; lia|].
  intros l o. apply heap_lookup_old.
Qed.

Lemma year_plot_selects_window_witness :
  ∃ σ' W,
    year_plot_cell 100 300 demo_state
      = (if decide ("demand" ∈ columns demo_frame)
         then Ok tt else Raise KeyError, σ') ∧
    frame_of σ' "plt_df" = Some W ∧
    columns W = columns demo_frame ∧
    sublist (rows W) (rows demo_frame) ∧
    (∀ r, r ∈ rows W ↔
          r ∈ rows demo_frame ∧ ∃ ns, timeStamp r = At ns ∧ 100 ≤ ns < 300) ∧
    frame_of σ' "data" = Some demo_frame ∧
    globals σ' !! "plt_df" ≠ Some 0%nat ∧
    (∀ l o, heap demo_state !! l = Some o → heap σ' !! l = Some o).
Proof.
  apply (year_plot_selects_window 100 300 demo_state 0%nat demo_frame).
  - reflexivity.
  - reflexivity.
Defined.

(** X9.  A window whose upper date is not after its lower date is empty:
    both plot cells then bind [plt_df] to a frame without rows and, the
    demand column being there, still end normally. *)
Theorem empty_window_still_plots (lo hi : Z) (σ : state) (d : loc) (D : DataFrame) :
  globals σ !! "data" = Some d →
  heap σ !! d = Some (OFrame D) →
  "demand" ∈ columns D →
  hi ≤ lo →
  ∃ σ1 σ2,
    week_plot_cell lo hi σ = (Ok tt, σ1) ∧
    year_plot_cell lo hi σ = (Ok tt, σ2) ∧
    frame_of σ1 "plt_df" = Some (mkFrame (columns D) []) ∧
    frame_of σ2 "plt_df" = Some (mkFrame (columns D) []).
Proof.
  intros Hd Hh Hdem Hle.
  eexists _, _.
  split.
  { rewrite (week_plot_cell_run lo hi σ d D) by done.
    by rewrite decide_True. }
  split.
  { rewrite (year_plot_cell_run lo hi σ d D) by done.
    by rewrite decide_True. }
  split.
  - apply (frame_of_intro _ _ (length (heap σ))); simpl.
    + by rewrite lookup_insert_eq.
    + rewrite heap_lookup_new0. simpl. do 3 f_equal.
      apply filter_none, Forall_forall. intros r _.
      rewrite in_week_window. intros (ns & _ & ?). lia.
  - apply (frame_of_intro _ _ (length (heap σ) + 1)%nat); simpl.
    + by rewrite lookup_insert_eq.
    + rewrite heap_lookup_new. simpl. do 3 f_equal.
      apply filter_none, Forall_forall. intros r _.
      rewrite in_year_window. intros (ns & _ & ?). lia.
Qed.

Lemma empty_window_still_plots_witness :
  ∃ σ1 σ2,
    week_plot_cell 300 300 demo_state = (Ok tt, σ1) ∧
    year_plot_cell 300 300 demo_state = (Ok tt, σ2) ∧
    frame_of σ1 "plt_df" = Some (mkFrame (columns demo_frame) []) ∧
    frame_of σ2 "plt_df" = Some (mkFrame (columns demo_frame) []).
Proof.
  apply (empty_window_still_plots 300 300 demo_state 0%nat demo_frame).
  - reflexivity.
  - reflexivity.
  - apply demo_has_target.
  - lia.
Defined.

Lemma split_post_old_frame c σ D x W :
  x ∉ ["X_train"; "X_test"; "y_train"; "y_test"] →
  frame_of σ x = Some W →
  frame_of (split_post c σ D) x = Some W.
Proof.
  intros Hx H. unfold frame_of in H.
  destruct (globals σ !! x) as [l|] eqn:Hg; [|done]. simpl in H.
  destruct (heap σ !! l) as [[W'| |]|] eqn:E; try done.
  injection H as ->.
  apply (frame_of_intro _ _ l).
  - by rewrite split_post_old_global.
  - by apply split_post_old_heap.
Qed.

Lemma year_plot_selects_window_core lo hi σ d D :
  globals σ !! "data" = Some d →
  heap σ !! d = Some (OFrame D) →
  ∃ σ1,
    year_plot_cell lo hi σ
      = (if decide ("demand" ∈ columns D) then Ok tt else Raise KeyError, σ1) ∧
    frame_of σ1 "plt_df"
      = Some (mkFrame (columns D)
                (filter (λ r, ts_ge (timeStamp r) lo && ts_lt (timeStamp r) hi)
                        (rows D))) ∧
    globals σ1 !! "data" = Some d ∧
    heap σ1 !! d = Some (OFrame D).
Proof.
  intros Hd Hh. eexists.
  split; [by apply (year_plot_cell_run lo hi σ d D)|].
  split.
  { apply (frame_of_intro _ _ (length (heap σ) + 1)%nat); simpl.
    - by rewrite lookup_insert_eq.
    - by rewrite heap_lookup_new. }
  simpl. split; [by rewrite lookup_insert_ne|by apply heap_lookup_old].
Qed.

(** X10.  A plot window that ends at or before the split date shows
    training data only: after the second plot cell and the split cell,
    [plt_df] holds the rows of the loaded frame inside the window, every
    one of them, less its target, is a row of [X_train], in the same
    order, and none is a row of [X_test].  The notebook's window ends on
    2017-01-01 and its split date is 2017-02-01. *)
Theorem year_window_is_training_data
    (lo hi c : Z) (σ : state) (d : loc) (D : DataFrame) :
  globals σ !! "data" = Some d →
  heap σ !! d = Some (OFrame D) →
  target_column_name ∈ columns D →
  hi ≤ c →
  ∃ σ1 σ2 W X_train X_test,
    year_plot_cell lo hi σ = (Ok tt, σ1) ∧
    split_cell c σ1 = (Ok tt, σ2) ∧
    frame_of σ2 "plt_df" = Some W ∧
    frame_of σ2 "X_train" = Some X_train ∧
    frame_of σ2 "X_test" = Some X_test ∧
    sublist (drop_cell target_column_name <$> rows W) (rows X_train) ∧
    (∀ r, r ∈ rows W → drop_cell target_column_name r ∉ rows X_test) ∧
    rows W = filter (λ r, ts_ge (timeStamp r) lo && ts_lt (timeStamp r) hi)
               (rows D) ∧
    rows X_train = (drop_cell target_column_name
                      <$> filter (λ r, ts_lt (timeStamp r) c) (rows D)) ∧
    rows X_test = (drop_cell target_column_name
                     <$> filter (λ r, ts_ge (timeStamp r) c) (rows D)).
Proof.
  intros Hd Hh Ht Hc.
  destruct (year_plot_selects_window_core lo hi σ d D Hd Hh)
    as (σ1 & Hrun & Hplt & Hd1 & Hh1).
  exists σ1, (split_post c σ1 D).
  eexists _, _, _.
  split; [by rewrite Hrun, decide_True|].
  split; [by apply (split_cell_run c σ1 d D)|].
  split.
  { apply split_post_old_frame; [|exact Hplt].
    rewrite !not_elem_of_cons. repeat split; try done. apply not_elem_of_nil. }
  split; [apply split_post_X_train|].
  split; [apply split_post_X_test|].
  simpl. rewrite train_rows_filter, test_rows_filter.
  split; [|split; [|done]].
  - apply fmap_sublist.
    apply (filter_sublist_mono
             (λ r, ts_ge (timeStamp r) lo && ts_lt (timeStamp r) hi)
             (λ r, ts_lt (timeStamp r) c)).
    intros r [_ Hlt]%andb_True. by apply (ts_lt_mono _ hi).
  - intros r [[_ Hlt]%andb_True _]%list_elem_of_filter.
    intros (r' & Heq & [Hge _]%list_elem_of_filter)%list_elem_of_fmap.
    assert (timeStamp r' = timeStamp r) as Hts
      by (by apply (f_equal timeStamp) in Heq).
    rewrite Hts in Hge.
    apply (ts_lt_ge_exclusive (timeStamp r) c); [|done].
    by apply (ts_lt_mono _ hi).
Qed.

Lemma year_window_is_training_data_witness :
  ∃ σ1 σ2 W X_train X_test,
    year_plot_cell date_2016_01_01 date_2017_01_01 dated_state = (Ok tt, σ1) ∧
    split_cell cutoff_2017_02_01 σ1 = (Ok tt, σ2) ∧
    frame_of σ2 "plt_df" = Some W ∧
    frame_of σ2 "X_train" = Some X_train ∧
    frame_of σ2 "X_test" = Some X_test ∧
    sublist (drop_cell target_column_name <$> rows W) (rows X_train) ∧
    (∀ r, r ∈ rows W → drop_cell target_column_name r ∉ rows X_test) ∧
    rows W = filter (λ r, ts_ge (timeStamp r) date_2016_01_01
                          && ts_lt (timeStamp r) date_2017_01_01)
               (rows dated_frame) ∧
    rows X_train = (drop_cell target_column_name
                      <$> filter (λ r, ts_lt (timeStamp r) cutoff_2017_02_01)
                            (rows dated_frame)) ∧
    rows X_test = (drop_cell target_column_name
                     <$> filter (λ r, ts_ge (timeStamp r) cutoff_2017_02_01)
                           (rows dated_frame)).
Proof.
  apply (year_window_is_training_data date_2016_01_01 date_2017_01_01
           cutoff_2017_02_01 dated_state 0%nat dated_frame).
  - reflexivity.
  - reflexivity.
  - apply list_elem_of_here.
  - unfold date_2017_01_01, cutoff_2017_02_01. lia.
Defined.

(** On the six dated readings, with the notebook's dates: the window of
    the year 2016 holds the readings of March and July 2016, the train
    partition these two with the readings of December 2015 and January
    2017, and the test partition the readings of February and March
    2017. *)
Example year_window_on_dated_readings :
  let σ := (split_cell cutoff_2017_02_01 (cell_2_1_year dated_state).2).2 in
  (cell_2_1_year dated_state).1 = Ok tt ∧
  (split_cell cutoff_2017_02_01 (cell_2_1_year dated_state).2).1 = Ok tt ∧
  ((λ W, label <$> rows W) <$> frame_of σ "plt_df") = Some [1; 2] ∧
  ((λ W, label <$> rows W) <$> frame_of σ "X_train") = Some [0; 1; 2; 3] ∧
  ((λ W, label <$> rows W) <$> frame_of σ "X_test") = Some [4; 5].
Proof. vm_compute. repeat split; reflexivity. Qed.

(** ** The subtraction *)

Lemma np_subtract_left_one (x : float) (b : list float) :
  length b ≠ 1%nat →
  np_subtract [x] b = Ok ((λ y, PrimFloat.sub x y) <$> b).
Proof.
  intros Hb. unfold np_subtract. by rewrite decide_False by (simpl; lia).
Qed.

Lemma np_subtract_right_one (a : list float) (y : float) :
  length a ≠ 1%nat →
  np_subtract a [y] = Ok ((λ x, PrimFloat.sub x y) <$> a).
Proof.
  intros Ha. unfold np_subtract. rewrite decide_False by (simpl; lia).
  by destruct a as [|x [|x' a]].
Qed.

Lemma length_one_inv {A : Type} (l : list A) :
  length l = 1%nat → ∃ x, l = [x].
Proof. destruct l as [|x [|]]; try done. eauto. Qed.

(** X11.  numpy's subtraction of two one-dimensional arrays succeeds
    exactly when the lengths are equal or one of them is one; it then
    subtracts entry by entry, reading a length-one operand at its only
    entry, and the result is as long as the other operand.  In every other
    case it raises [ValueError]. *)
Theorem np_subtract_shapes (a b : list float) :
  ((∃ r, np_subtract a b = Ok r) ↔
     length a = length b ∨ length a = 1%nat ∨ length b = 1%nat) ∧
  (∀ e, np_subtract a b = Raise e → e = ValueError) ∧
  (∀ r, np_subtract a b = Ok r →
     length r = (if decide (length a = 1%nat) then length b else length a) ∧
     ∀ i, (i < length r)%nat →
       ∃ x y,
         a !! (if decide (length a = 1%nat) then 0%nat else i) = Some x ∧
         b !! (if decide (length b = 1%nat) then 0%nat else i) = Some y ∧
         r !! i = Some (x - y)%float).
Proof.
  destruct (decide (length a = length b)) as [Heq|Hne].
  { rewrite np_subtract_same_length by done.
    split; [split; [tauto|eauto]|]. split; [done|].
    intros r [= <-].
    assert (length (zip_with PrimFloat.sub a b) = length a) as Hlen
      by (rewrite length_zip_with; lia).
    split; [rewrite Hlen; case_decide; lia|].
    rewrite Hlen. intros i Hi.
    destruct (lookup_lt_is_Some_2 a i Hi) as [x Hx].
    destruct (lookup_lt_is_Some_2 b i ltac:(lia)) as [y Hy].
    exists x, y.
    assert (zip_with PrimFloat.sub a b !! i = Some (x - y)%float) as Hr
      by (by apply zip_with_sub_lookup).
    repeat case_decide; try lia; [|done].
    by assert (i = 0%nat) as -> by lia. }
  destruct (decide (length a = 1%nat)) as [Ha|Ha].
  { destruct (length_one_inv a Ha) as [x ->].
    rewrite np_subtract_left_one by (simpl in Hne; lia).
    split; [split; [tauto|eauto]|]. split; [done|].
    intros r [= <-]. rewrite length_fmap. split; [done|].
    intros i Hi. destruct (lookup_lt_is_Some_2 b i Hi) as [y Hy].
    exists x, y. rewrite list_lookup_fmap, Hy.
    rewrite decide_False by (simpl in Hne; lia). done. }
  destruct (decide (length b = 1%nat)) as [Hb|Hb].
  { destruct (length_one_inv b Hb) as [y ->].
    rewrite np_subtract_right_one by done.
    split; [split; [tauto|eauto]|]. split; [done|].
    intros r [= <-]. rewrite length_fmap. split; [done|].
    intros i Hi. destruct (lookup_lt_is_Some_2 a i Hi) as [x Hx].
    exists x, y. by rewrite list_lookup_fmap, Hx. }
  rewrite np_subtract_mismatch by done.
  split; [split; [by intros [? ?]|lia]|].
  split; [by intros e [= <-]|done].
Qed.

(** ** What the cells leave alone *)

Lemma untouched_refl names σ : untouched_outside names σ σ.
Proof. by split. Qed.

Lemma untouched_trans names σ1 σ2 σ3 :
  untouched_outside names σ1 σ2 →
  untouched_outside names σ2 σ3 →
  untouched_outside names σ1 σ3.
Proof.
  intros [Hh1 Hg1] [Hh2 Hg2]. split.
  - intros l o H. by apply Hh2, Hh1.
  - intros x Hx. by rewrite Hg2, Hg1.
Qed.

Section KeepsOutside.
Context (names : list string).

Lemma keeps_bind {A B : Type} (m : M A) (f : A → M B) :
  keeps_outside names m →
  (∀ a, keeps_outside names (f a)) →
  keeps_outside names (m ≫= f).
Proof.
  intros Hm Hf σ. unfold mbind, M_bind.
  specialize (Hm σ). destruct (m σ) as [[a|e] σ1]; simpl in *; [|done].
  eapply untouched_trans; [exact Hm|apply Hf].
Qed.

Lemma keeps_mret {A : Type} (a : A) : keeps_outside names (mret a).
Proof. intros σ. apply untouched_refl. Qed.

Lemma keeps_lift {A : Type} (r : result A) : keeps_outside names (lift r).
Proof. intros σ. apply untouched_refl. Qed.

Lemma keeps_load x : keeps_outside names (load x).
Proof.
  intros σ. unfold load. destruct (globals σ !! x); apply untouched_refl.
Qed.

Lemma keeps_deref_frame l : keeps_outside names (deref_frame l).
Proof.
  intros σ. unfold deref_frame.
  destruct (heap σ !! l) as [[| |]|]; apply untouched_refl.
Qed.

Lemma keeps_deref_array l : keeps_outside names (deref_array l).
Proof.
  intros σ. unfold deref_array.
  destruct (heap σ !! l) as [[| |]|]; apply untouched_refl.
Qed.

Lemma keeps_alloc o : keeps_outside names (alloc o).
Proof.
  intros σ. split; simpl; [|done]. intros l o'. apply heap_lookup_old.
Qed.

Lemma keeps_store x l : x ∈ names → keeps_outside names (store x l).
Proof.
  intros Hx σ. split; simpl; [done|].
  intros y Hy. rewrite lookup_insert_ne; [done|]. by intros ->.
Qed.

Lemma keeps_plt_plot {A : Type} (x : list A) (y : list float) :
  keeps_outside names (plt_plot x y).
Proof. unfold plt_plot. case_decide; [apply keeps_mret|apply keeps_lift]. Qed.

Lemma keeps_df_time_column l : keeps_outside names (df_time_column l).
Proof.
  apply keeps_bind; [apply keeps_deref_frame|intros; apply keeps_mret].
Qed.

Lemma keeps_df_float_column l name :
  keeps_outside names (df_float_column l name).
Proof.
  apply keeps_bind; [apply keeps_deref_frame|intros df].
  case_decide; [apply keeps_mret|apply keeps_lift].
Qed.

Lemma keeps_df_getitem_mask l mask :
  keeps_outside names (df_getitem_mask l mask).
Proof.
  apply keeps_bind; [apply keeps_deref_frame|intros df].
  apply keeps_bind; [apply keeps_lift|intros df']. apply keeps_alloc.
Qed.

Lemma keeps_df_copy l : keeps_outside names (df_copy l).
Proof.
  apply keeps_bind; [apply keeps_deref_frame|intros; apply keeps_alloc].
Qed.
End KeepsOutside.

Ltac keeps_step :=
  first
    [ apply keeps_mret | apply keeps_lift | apply keeps_load
    | apply keeps_deref_frame | apply keeps_deref_array | apply keeps_alloc
    | apply keeps_plt_plot | apply keeps_df_time_column
    | apply keeps_df_float_column | apply keeps_df_getitem_mask
    | apply keeps_df_copy
    | apply keeps_store; set_solver
    | apply keeps_bind; [|intros ?] ].

Lemma keeps_week_plot_cell lo hi :
  keeps_outside ["plt_df"] (week_plot_cell lo hi).
Proof. unfold week_plot_cell. repeat keeps_step. Qed.

Lemma keeps_year_plot_cell lo hi :
  keeps_outside ["plt_df"] (year_plot_cell lo hi).
Proof. unfold year_plot_cell. repeat keeps_step. Qed.

Lemma keeps_select_rows c :
  keeps_outside ["X_train"; "X_test"] (select_rows c).
Proof. unfold select_rows. repeat keeps_step. Qed.

Lemma keeps_test_cell m :
  keeps_outside ["y_pred_test"; "y_residual_test"] (test_cell m).
Proof. unfold test_cell. repeat keeps_step. Qed.

Lemma keeps_test_plots :
  keeps_outside ["y_pred_test"; "y_residual_test"] test_plots.
Proof. unfold test_plots. repeat keeps_step. Qed.

Lemma keeps_test_cell_with_plots m :
  keeps_outside ["y_pred_test"; "y_residual_test"] (test_cell_with_plots m).
Proof.
  unfold test_cell_with_plots.
  apply keeps_bind; [apply keeps_test_cell|intros; apply keeps_test_plots].
Qed.

(** X12.  Whatever happens in them, a raise at any statement included,
    the two plot cells, the two row selections of the split and cell 4.3
    with its plots change no object that existed before the cell ran, and
    each rebinds only its own names: [plt_df]; [X_train] and [X_test];
    [y_pred_test] and [y_residual_test]. *)
Theorem cells_leave_the_rest_alone
    (lo hi c : Z) (m : FittedModel) (σ : state) :
  untouched_outside ["plt_df"] σ (week_plot_cell lo hi σ).2 ∧
  untouched_outside ["plt_df"] σ (year_plot_cell lo hi σ).2 ∧
  untouched_outside ["X_train"; "X_test"] σ (select_rows c σ).2 ∧
  untouched_outside ["y_pred_test"; "y_residual_test"] σ
    (test_cell_with_plots m σ).2.
Proof.
  split; [apply keeps_week_plot_cell|].
  split; [apply keeps_year_plot_cell|].
  split; [apply keeps_select_rows|].
  apply keeps_test_cell_with_plots.
Qed.

(** ** Cell 4.3 in full *)

(** X13.  When [predict] raises, cell 4.3 raises the same exception and
    leaves the state exactly as it found it: no name is bound and no
    object is made. *)
Theorem predict_failure_leaves_no_trace
    (m : FittedModel) (σ : state) (lx : loc) (X : DataFrame) (e : exn) :
  globals σ !! "X_test" = Some lx →
  heap σ !! lx = Some (OFrame X) →
  predict m X = Raise e →
  test_cell m σ = (Raise e, σ) ∧
  test_cell_with_plots m σ = (Raise e, σ).
Proof.
  intros Hx HX Hp.
  assert (test_cell m σ = (Raise e, σ)) as Hrun.
  { unfold test_cell.
    rewrite (load_bind _ _ _ lx) by done.
    rewrite (deref_frame_bind _ _ _ X) by done.
    by rewrite (lift_bind_raise _ _ _ e). }
  split; [done|]. unfold test_cell_with_plots.
  by rewrite (bind_raise _ _ _ _ _ Hrun).
Qed.

Lemma predict_failure_leaves_no_trace_witness :
  test_cell (mkModel (λ _, Raise BackendError) (λ X _, Ok ([], X)))
            (demo_split 300)
    = (Raise BackendError, demo_split 300) ∧
  test_cell_with_plots
    (mkModel (λ _, Raise BackendError) (λ X _, Ok ([], X))) (demo_split 300)
    = (Raise BackendError, demo_split 300).
Proof.
  apply (predict_failure_leaves_no_trace
           (mkModel (λ _, Raise BackendError) (λ X _, Ok ([], X)))
           (demo_split 300) 2%nat
           (mkFrame ["temp"]
              (drop_cell target_column_name <$> test_rows 300 demo_frame))
           BackendError).
  - reflexivity.
  - reflexivity.
  - reflexivity.
Defined.

Lemma np_subtract_raise_inv (a b : list float) e :
  np_subtract a b = Raise e → e = ValueError ∧ length a ≠ length b.
Proof.
  unfold np_subtract. case_decide; [done|].
  destruct a as [|x [|x' a]], b as [|y [|y' b]]; try done;
    by intros [= <-].
Qed.

Lemma plt_plot_run {A : Type} (x : list A) (y : list float) σ :
  plt_plot x y σ
  = (if decide (length x = length y) then Ok tt else Raise ValueError, σ).
Proof. unfold plt_plot. by case_decide. Qed.

Lemma plt_plot_bind {A B : Type} (x : list A) (y : list float)
    (f : unit → M B) σ :
  (plt_plot x y ≫= f) σ
  = if decide (length x = length y) then f tt σ else (Raise ValueError, σ).
Proof. unfold plt_plot. by case_decide. Qed.

Lemma test_plots_run σ lx X ly a lp p :
  globals σ !! "X_test" = Some lx →
  heap σ !! lx = Some (OFrame X) →
  globals σ !! "y_test" = Some ly →
  heap σ !! ly = Some (OArray a) →
  globals σ !! "y_pred_test" = Some lp →
  heap σ !! lp = Some (OArray p) →
  test_plots σ
  = (if decide (length (rows X) = length a)
     then if decide (length (rows X) = length p)
          then Ok tt else Raise ValueError
     else Raise ValueError, σ).
Proof.
  intros Hx HX Hy Ha Hp Hp'. unfold test_plots.
  rewrite (load_bind _ _ _ lx) by done.
  rewrite (df_time_column_bind _ _ _ X) by done.
  rewrite (load_bind _ _ _ ly) by done.
  rewrite (deref_array_bind _ _ _ a) by done.
  rewrite plt_plot_bind, length_fmap.
  destruct (decide (length (rows X) = length a)); [|done].
  rewrite (load_bind _ _ _ lx) by done.
  rewrite (df_time_column_bind _ _ _ X) by done.
  rewrite (load_bind _ _ _ lp) by done.
  rewrite (deref_array_bind _ _ _ p) by done.
  by rewrite plt_plot_run, length_fmap.
Qed.

(** X14.  With one actual value per test row, cell 4.3 as a whole, plots
    included, ends normally exactly when [predict] has answered one value
    per test row; otherwise it raises [ValueError], at the subtraction or,
    where broadcasting lets the subtraction through, at the plot of the
    predictions. *)
Theorem test_cell_needs_one_prediction_per_row
    (m : FittedModel) (σ : state) (lx ly : loc) (X : DataFrame)
    (a p : list float) :
  globals σ !! "X_test" = Some lx →
  heap σ !! lx = Some (OFrame X) →
  globals σ !! "y_test" = Some ly →
  heap σ !! ly = Some (OArray a) →
  length a = length (rows X) →
  predict m X = Ok p →
  ((test_cell_with_plots m σ).1 = Ok tt ↔ length p = length (rows X)) ∧
  (length p ≠ length (rows X) →
     (test_cell_with_plots m σ).1 = Raise ValueError).
Proof.
  intros Hx HX Hy Ha Hlen Hp.
  assert (lx < length (heap σ))%nat as Hlx by (by eapply lookup_lt_Some).
  assert (ly < length (heap σ))%nat as Hly by (by eapply lookup_lt_Some).
  unfold test_cell_with_plots.
  pose proof (test_cell_run m σ lx X ly a p Hx HX Hy Ha Hp) as Hrun.
  destruct (np_subtract a p) as [r|e] eqn:E.
  - rewrite (bind_ok _ _ _ _ _ Hrun).
    rewrite (test_plots_run _ lx X ly a (length (heap σ)) p).
    + rewrite decide_True by done. simpl.
      case_decide; split; try done; intros; congruence.
    + unfold with_residuals. simpl. by rewrite !lookup_insert_ne.
    + by apply heap_lookup_old.
    + unfold with_residuals. simpl. by rewrite !lookup_insert_ne.
    + by apply heap_lookup_old.
    + unfold with_residuals. simpl.
      by rewrite lookup_insert_ne, lookup_insert_eq.
    + unfold with_residuals. simpl. by rewrite heap_lookup_new0.
  - rewrite (bind_raise _ _ _ _ _ Hrun). simpl.
    destruct (np_subtract_raise_inv a p e E) as [-> Hne].
    split; [split; [done|intros; lia]|done].
Qed.

Lemma test_cell_needs_one_prediction_per_row_witness :
  ((test_cell_with_plots (canned_model [8; 8]%float []) (demo_split 400)).1
     = Ok tt ↔
   length [8; 8]%float
   = length (rows (mkFrame ["temp"]
        (drop_cell target_column_name <$> test_rows 400 demo_frame)))) ∧
  (length [8; 8]%float
   ≠ length (rows (mkFrame ["temp"]
        (drop_cell target_column_name <$> test_rows 400 demo_frame))) →
   (test_cell_with_plots (canned_model [8; 8]%float []) (demo_split 400)).1
     = Raise ValueError).
Proof.
  apply (test_cell_needs_one_prediction_per_row
           (canned_model [8; 8]%float []) (demo_split 400) 2%nat 4%nat
           (mkFrame ["temp"]
              (drop_cell target_column_name <$> test_rows 400 demo_frame))
           [10]%float [8; 8]%float).
  - reflexivity.
  - reflexivity.
  - reflexivity.
  - reflexivity.
  - reflexivity.
  - reflexivity.
Defined.

(** On one actual value and two predictions the subtraction goes through
    and the plot of the predictions stops the cell. *)
Example broadcast_stops_at_the_plot :
  test_cell (canned_model [8; 8]%float []) (demo_split 400)
    = (Ok tt, (test_cell (canned_model [8; 8]%float []) (demo_split 400)).2) ∧
  (test_cell_with_plots (canned_model [8; 8]%float []) (demo_split 400)).1
    = Raise ValueError.
Proof. split; reflexivity. Qed.

(** ** Cell 5: failures, what it leaves alone, what it reads *)

Lemma with_query_untouched σ a :
  untouched_outside ["y_query"] σ (with_query σ a).
Proof.
  split; simpl.
  - intros l o. apply heap_lookup_old.
  - intros x Hx. rewrite lookup_insert_ne; [done|].
    intros <-. apply Hx, list_elem_of_here.
Qed.

Lemma with_forecast_untouched σ f Xt :
  untouched_outside ["y_fcst"; "X_trans"] σ (with_forecast σ f Xt).
Proof.
  split; simpl.
  - intros l o. apply heap_lookup_old.
  - intros x Hx. rewrite !lookup_insert_ne; [done|..];
      intros <-; apply Hx; set_solver.
Qed.

Ltac names_included :=
  intros ?; rewrite !elem_of_cons, ?elem_of_nil; tauto.

Lemma untouched_weaken names names' σ σ' :
  names ⊆ names' →
  untouched_outside names σ σ' → untouched_outside names' σ σ'.
Proof.
  intros Hsub [Hh Hg]. split; [done|].
  intros x Hx. apply Hg. intros Hin. by apply Hx, Hsub.
Qed.

(** X15.  When [forecast] raises, cell 5 raises the same exception.  The
    query has been built by then and stays bound, all NaN; [y_fcst] and
    [X_trans] are not bound, and the test targets are intact. *)
Theorem forecast_failure_keeps_the_query
    (m : FittedModel) (σ : state) (lx ly : loc) (X : DataFrame)
    (a : list float) (e : exn) :
  globals σ !! "X_test" = Some lx →
  heap σ !! lx = Some (OFrame X) →
  globals σ !! "y_test" = Some ly →
  heap σ !! ly = Some (OArray a) →
  forecast m X (replicate (length a) np_nan) = Raise e →
  ∃ σ',
    forecast_cell m σ = (Raise e, σ') ∧
    array_of σ' "y_query" = Some (replicate (length a) np_nan) ∧
    array_of σ' "y_test" = Some a ∧
    globals σ' !! "y_fcst" = globals σ !! "y_fcst" ∧
    globals σ' !! "X_trans" = globals σ !! "X_trans".
Proof.
  intros Hx HX Hy Ha He. exists (with_query σ a).
  split.
  { rewrite (forecast_cell_run m σ lx X ly a) by done. by rewrite He. }
  destruct (with_query_reads σ a lx X ly Hx HX Hy Ha) as (Hq & Ht & _).
  split; [done|]. split; [done|].
  unfold with_query. simpl. by rewrite !lookup_insert_ne.
Qed.

Lemma forecast_failure_keeps_the_query_witness :
  ∃ σ',
    forecast_cell (mkModel (λ _, Ok []) (λ _ _, Raise BackendError))
                  (demo_split 300)
      = (Raise BackendError, σ') ∧
    array_of σ' "y_query" = Some (replicate (length [9; 10]%float) np_nan) ∧
    array_of σ' "y_test" = Some [9; 10]%float ∧
    globals σ' !! "y_fcst" = globals (demo_split 300) !! "y_fcst" ∧
    globals σ' !! "X_trans" = globals (demo_split 300) !! "X_trans".
Proof.
  apply (forecast_failure_keeps_the_query
           (mkModel (λ _, Ok []) (λ _ _, Raise BackendError))
           (demo_split 300) 2%nat 4%nat
           (mkFrame ["temp"]
              (drop_cell target_column_name <$> test_rows 300 demo_frame))
           [9; 10]%float BackendError).
  - reflexivity.
  - reflexivity.
  - reflexivity.
  - reflexivity.
  - reflexivity.
Defined.

(** X16.  The query and forecast statements of cell 5, [forecast_cell],
    overwrite an array in place, but only the copy they have just made:
    whether [forecast] answers or raises, every object that existed before
    these statements ran, the test targets and the test frame among them,
    is unchanged, and the statements bind no name other than [y_query],
    [y_fcst] and [X_trans].  What the cell goes on to bind after the call,
    the feature names and the results of [explain_model], is outside
    [forecast_cell]. *)
Theorem forecast_cell_overwrites_only_its_copy
    (m : FittedModel) (σ : state) (lx ly : loc) (X : DataFrame)
    (a : list float) :
  globals σ !! "X_test" = Some lx →
  heap σ !! lx = Some (OFrame X) →
  globals σ !! "y_test" = Some ly →
  heap σ !! ly = Some (OArray a) →
  untouched_outside ["y_query"; "y_fcst"; "X_trans"] σ (forecast_cell m σ).2 ∧
  array_of (forecast_cell m σ).2 "y_test" = Some a ∧
  frame_of (forecast_cell m σ).2 "X_test" = Some X.
Proof.
  intros Hx HX Hy Ha.
  assert (untouched_outside ["y_query"; "y_fcst"; "X_trans"] σ
            (forecast_cell m σ).2) as Hun.
  { rewrite (forecast_cell_run m σ lx X ly a) by done.
    destruct (forecast m X _) as [[f Xt]|e]; simpl.
    - eapply untouched_trans.
      + eapply untouched_weaken; [|apply with_query_untouched]. names_included.
      + eapply untouched_weaken; [|apply with_forecast_untouched]. names_included.
    - eapply untouched_weaken; [|apply with_query_untouched]. names_included. }
  split; [done|]. destruct Hun as [Hheap Hglob]. split.
  - apply (array_of_intro _ _ ly); [|by apply Hheap].
    rewrite Hglob; [done|].
    rewrite !not_elem_of_cons. repeat split; try done. apply not_elem_of_nil.
  - apply (frame_of_intro _ _ lx); [|by apply Hheap].
    rewrite Hglob; [done|].
    rewrite !not_elem_of_cons. repeat split; try done. apply not_elem_of_nil.
Qed.

Lemma forecast_cell_overwrites_only_its_copy_witness :
  untouched_outside ["y_query"; "y_fcst"; "X_trans"] (demo_split 300)
    (forecast_cell (canned_model [8; 8]%float [8; 8]%float) (demo_split 300)).2 ∧
  array_of
    (forecast_cell (canned_model [8; 8]%float [8; 8]%float) (demo_split 300)).2
    "y_test" = Some [9; 10]%float ∧
  frame_of
    (forecast_cell (canned_model [8; 8]%float [8; 8]%float) (demo_split 300)).2
    "X_test"
  = Some (mkFrame ["temp"]
            (drop_cell target_column_name <$> test_rows 300 demo_frame)).
Proof.
  apply (forecast_cell_overwrites_only_its_copy
           (canned_model [8; 8]%float [8; 8]%float) (demo_split 300)
           2%nat 4%nat
           (mkFrame ["temp"]
              (drop_cell target_column_name <$> test_rows 300 demo_frame))
           [9; 10]%float).
  - reflexivity.
  - reflexivity.
  - reflexivity.
  - reflexivity.
Defined.

Lemma split_then_forecast_run m c σ d D :
  globals σ !! "data" = Some d →
  heap σ !! d = Some (OFrame D) →
  target_column_name ∈ columns D →
  (split_cell c;; forecast_cell m) σ
  = match forecast m
            (mkFrame (features D)
               (drop_cell target_column_name <$> test_rows c D))
            (replicate (length (test_rows c D)) np_nan) with
    | Ok (f, Xt) =>
        (Ok tt,
         with_forecast
           (with_query (split_post c σ D)
              (cell_of target_column_name <$> test_rows c D)) f Xt)
    | Raise e =>
        (Raise e,
         with_query (split_post c σ D)
           (cell_of target_column_name <$> test_rows c D))
    end.
Proof.
  intros Hd Hh Ht.
  rewrite (bind_ok _ _ _ _ _ (split_cell_run c σ d D Hd Hh Ht)).
  rewrite (forecast_cell_run m (split_post c σ D) _ _ _ _
             (split_post_X_test_global c σ D) (split_post_X_test_object c σ D)
             (split_post_y_test_global c σ D) (split_post_y_test_object c σ D)).
  by rewrite length_fmap.
Qed.

Lemma with_forecast_y_fcst σ f Xt :
  array_of (with_forecast σ f Xt) "y_fcst" = Some f.
Proof.
  apply (array_of_intro _ _ (length (heap σ))); simpl.
  - by rewrite lookup_insert_ne, lookup_insert_eq.
  - by rewrite heap_lookup_new0.
Qed.

Lemma with_forecast_X_trans σ f Xt :
  frame_of (with_forecast σ f Xt) "X_trans" = Some Xt.
Proof.
  apply (frame_of_intro _ _ (length (heap σ) + 1)%nat); simpl.
  - by rewrite lookup_insert_eq.
  - by rewrite heap_lookup_new.
Qed.

(** X17.  The arguments of the call to [forecast] do not depend on the
    demand values.  Two loaded datasets with the same columns and the same
    rows but for the cells of the demand column hand the same frame and
    the same query to [forecast]: there are one frame without target cells
    and one all-NaN query such that, for each of the two datasets and for
    every model, the split followed by the query and forecast statements
    ends as [forecast] does on that frame and that query, and binds
    [y_fcst] and [X_trans] to what it answers.  The model is quantified
    for each dataset on its own: a model fitted on other demand values is
    another model. *)
Theorem forecast_arguments_ignore_demand_values
    (c : Z) (σ1 σ2 : state) (d1 d2 : loc) (D1 D2 : DataFrame) :
  globals σ1 !! "data" = Some d1 →
  heap σ1 !! d1 = Some (OFrame D1) →
  globals σ2 !! "data" = Some d2 →
  heap σ2 !! d2 = Some (OFrame D2) →
  target_column_name ∈ columns D1 →
  columns D1 = columns D2 →
  drop_cell target_column_name <$> rows D1
    = drop_cell target_column_name <$> rows D2 →
  ∃ X q,
    Forall (λ v, is_nan v = true) q ∧
    Forall (λ r, cells r !! target_column_name = None) (rows X) ∧
    length q = length (rows X) ∧
    (∀ m,
       ((split_cell c;; forecast_cell m) σ1).1
         = match forecast m X q with Ok _ => Ok tt | Raise e => Raise e end ∧
       ∀ f Xt, forecast m X q = Ok (f, Xt) →
         array_of ((split_cell c;; forecast_cell m) σ1).2 "y_fcst" = Some f ∧
         frame_of ((split_cell c;; forecast_cell m) σ1).2 "X_trans" = Some Xt) ∧
    (∀ m,
       ((split_cell c;; forecast_cell m) σ2).1
         = match forecast m X q with Ok _ => Ok tt | Raise e => Raise e end ∧
       ∀ f Xt, forecast m X q = Ok (f, Xt) →
         array_of ((split_cell c;; forecast_cell m) σ2).2 "y_fcst" = Some f ∧
         frame_of ((split_cell c;; forecast_cell m) σ2).2 "X_trans" = Some Xt).
Proof.
  intros Hd1 Hh1 Hd2 Hh2 Ht Hcols Hrows.
  assert (features D1 = features D2) as Hf by (unfold features; by rewrite Hcols).
  assert (drop_cell target_column_name <$> test_rows c D1
          = drop_cell target_column_name <$> test_rows c D2) as Hte.
  { rewrite !test_rows_filter.
    rewrite !(drop_cell_filter_time (λ t, ts_ge t c)). by rewrite Hrows. }
  assert (length (test_rows c D1) = length (test_rows c D2)) as Hlen.
  { rewrite <- (length_fmap (drop_cell target_column_name) (test_rows c D1)).
    by rewrite Hte, length_fmap. }
  exists (mkFrame (features D1)
            (drop_cell target_column_name <$> test_rows c D1)),
         (replicate (length (test_rows c D1)) np_nan).
  split; [by apply Forall_replicate|].
  split; [apply dropped_rows_lack_target|].
  split; [simpl; by rewrite length_replicate, length_fmap|].
  split.
  - intros m. rewrite (split_then_forecast_run m c σ1 d1 D1) by done.
    destruct (forecast m _ _) as [[f Xt]|e]; simpl; [|done].
    split; [done|]. intros f' Xt' [= <- <-].
    split; [apply with_forecast_y_fcst|apply with_forecast_X_trans].
  - intros m.
    rewrite (split_then_forecast_run m c σ2 d2 D2) by (by rewrite <- ?Hcols).
    rewrite Hf, Hte, Hlen.
    destruct (forecast m _ _) as [[f Xt]|e]; simpl; [|done].
    split; [done|]. intros f' Xt' [= <- <-].
    split; [apply with_forecast_y_fcst|apply with_forecast_X_trans].
Qed.

Lemma forecast_arguments_ignore_demand_values_witness :
  ∃ X q,
    Forall (λ v, is_nan v = true) q ∧
    Forall (λ r, cells r !! target_column_name = None) (rows X) ∧
    length q = length (rows X) ∧
    (∀ m,
       ((split_cell 300;; forecast_cell m) demo_state).1
         = match forecast m X q with Ok _ => Ok tt | Raise e => Raise e end ∧
       ∀ f Xt, forecast m X q = Ok (f, Xt) →
         array_of ((split_cell 300;; forecast_cell m) demo_state).2 "y_fcst"
           = Some f ∧
         frame_of ((split_cell 300;; forecast_cell m) demo_state).2 "X_trans"
           = Some Xt) ∧
    (∀ m,
       ((split_cell 300;; forecast_cell m) flat_state).1
         = match forecast m X q with Ok _ => Ok tt | Raise e => Raise e end ∧
       ∀ f Xt, forecast m X q = Ok (f, Xt) →
         array_of ((split_cell 300;; forecast_cell m) flat_state).2 "y_fcst"
           = Some f ∧
         frame_of ((split_cell 300;; forecast_cell m) flat_state).2 "X_trans"
           = Some Xt).
Proof.
  apply (forecast_arguments_ignore_demand_values 300
           demo_state flat_state 0%nat 0%nat demo_frame flat_frame).
  - reflexivity.
  - reflexivity.
  - reflexivity.
  - reflexivity.
  - apply demo_has_target.
  - reflexivity.
  - reflexivity.
Defined.

(** The two four-row datasets differ in every demand value, and a model
    that answers with the query it was given shows what it was asked: two
    NaN, for the one as for the other. *)
Example forecast_arguments_on_demo :
  (cell_of target_column_name <$> rows demo_frame) = [7; 8; 9; 10]%float ∧
  (cell_of target_column_name <$> rows flat_frame) = [5; 5; 5; 5]%float ∧
  array_of ((split_cell 300;; forecast_cell (mkModel (λ _, Ok [])
                                               (λ X q, Ok (q, X))))
              demo_state).2 "y_fcst" = Some [np_nan; np_nan] ∧
  array_of ((split_cell 300;; forecast_cell (mkModel (λ _, Ok [])
                                               (λ X q, Ok (q, X))))
              flat_state).2 "y_fcst" = Some [np_nan; np_nan].
Proof. vm_compute. repeat split; reflexivity. Qed.

(** ** The feature names *)

(** X18.  [X_trans.columns[:-1]] drops the last label and nothing else.
    It is the list of all labels but the target exactly when the target
    is the last label and occurs once; when the target is listed
    elsewhere the target stays among the feature names and the last
    feature is dropped in its place.  On a frame without columns the
    slice is empty. *)
Theorem columns_but_last_drops_the_last_label (cols : list string) :
  columns_but_last [] = [] ∧
  (∀ last, columns_but_last (cols ++ [last]) = cols) ∧
  length (columns_but_last cols) = (length cols - 1)%nat ∧
  (NoDup cols → ∀ target,
     target ∈ cols →
     (target ∉ columns_but_last cols ↔ last cols = Some target)).
Proof.
  split; [done|]. split.
  { intros l. unfold columns_but_last. rewrite length_app. simpl.
    replace (length cols + 1 - 1)%nat with (length cols) by lia.
    by rewrite take_app_length. }
  split.
  { unfold columns_but_last. rewrite length_take. lia. }
  intros Hnd target Hin.
  destruct (decide (cols = [])) as [->|Hne]; [by apply elem_of_nil in Hin|].
  destruct (exists_last Hne) as (fs & l & ->).
  assert (columns_but_last (fs ++ [l]) = fs) as ->.
  { unfold columns_but_last. rewrite length_app. simpl.
    replace (length fs + 1 - 1)%nat with (length fs) by lia.
    by rewrite take_app_length. }
  rewrite last_snoc.
  apply NoDup_app in Hnd as (_ & Hdisj & _).
  apply elem_of_app in Hin as [Hin|Hin%list_elem_of_singleton].
  - split; [done|]. intros [= <-]. exfalso.
    apply (Hdisj l Hin), list_elem_of_here.
  - subst. split; [done|]. intros _ Hin. apply (Hdisj l Hin), list_elem_of_here.
Qed.

(** ** The cells in sequence *)

Lemma untouched_array names σ σ' x v :
  untouched_outside names σ σ' →
  x ∉ names →
  array_of σ x = Some v → array_of σ' x = Some v.
Proof.
  intros [Hh Hg] Hx H. unfold array_of in H.
  destruct (globals σ !! x) as [l|] eqn:Hgx; [|done]. simpl in H.
  destruct (heap σ !! l) as [[|a|]|] eqn:E; try done.
  injection H as ->.
  apply (array_of_intro _ _ l); [by rewrite Hg|by apply Hh].
Qed.

(** X19.  On a loaded frame with the target column, with a model whose
    [predict] answers one value per test row and whose [forecast]
    answers, the split, cell 4.3 with its plots and the statements of
    cell 5 up to and including the call to [forecast] run one after the
    other without raising; the residuals, the query and the test targets
    all have one entry per test row, and the loaded frame is unchanged.
    The statements of cell 5 after the call are calls into the service
    and are not covered. *)
Theorem cells_run_in_sequence
    (m : FittedModel) (c : Z) (σ : state) (d : loc) (D : DataFrame)
    (p f : list float) (Xt : DataFrame) :
  globals σ !! "data" = Some d →
  heap σ !! d = Some (OFrame D) →
  target_column_name ∈ columns D →
  predict m (mkFrame (features D)
               (drop_cell target_column_name <$> test_rows c D)) = Ok p →
  length p = length (test_rows c D) →
  forecast m (mkFrame (features D)
                (drop_cell target_column_name <$> test_rows c D))
             (replicate (length (test_rows c D)) np_nan) = Ok (f, Xt) →
  ∃ σ' r q,
    (split_cell c;; test_cell_with_plots m;; forecast_cell m) σ = (Ok tt, σ') ∧
    array_of σ' "y_pred_test" = Some p ∧
    array_of σ' "y_residual_test" = Some r ∧
    array_of σ' "y_query" = Some q ∧
    array_of σ' "y_fcst" = Some f ∧
    frame_of σ' "X_trans" = Some Xt ∧
    length r = length (test_rows c D) ∧
    length q = length (test_rows c D) ∧
    frame_of σ' "data" = Some D.
Proof.
  intros Hd Hh Ht Hp Hlen Hf.
  set (X := mkFrame (features D)
              (drop_cell target_column_name <$> test_rows c D)) in *.
  set (a := cell_of target_column_name <$> test_rows c D).
  set (r := zip_with PrimFloat.sub a p).
  set (σ1 := split_post c σ D).
  set (σ2 := with_residuals σ1 p r).
  set (σ3 := with_query σ2 a).
  set (σ4 := with_forecast σ3 f Xt).
  assert (d < length (heap σ))%nat as Hlt by (by eapply lookup_lt_Some).
  pose proof (split_post_X_test_global c σ D) as Hx.
  pose proof (split_post_X_test_object c σ D) as HX.
  pose proof (split_post_y_test_global c σ D) as Hy.
  pose proof (split_post_y_test_object c σ D) as Ha.
  assert (length a = length p) as Hap by (unfold a; by rewrite length_fmap).
  assert (test_cell m σ1 = (Ok tt, σ2)) as Htest.
  { unfold σ2, σ1. rewrite (test_cell_after_split m c σ D p Hp).
    fold a. by rewrite np_subtract_same_length. }
  assert (untouched_outside ["y_pred_test"; "y_residual_test"] σ1 σ2) as [Hh2 Hg2].
  { pose proof (keeps_test_cell m σ1) as H. by rewrite Htest in H. }
  assert (globals σ2 !! "X_test" = Some (length (heap σ) + 1)%nat) as Hx2.
  { rewrite Hg2; [done|]. rewrite !not_elem_of_cons.
    repeat split; try done. apply not_elem_of_nil. }
  assert (globals σ2 !! "y_test" = Some (length (heap σ) + 3)%nat) as Hy2.
  { rewrite Hg2; [done|]. rewrite !not_elem_of_cons.
    repeat split; try done. apply not_elem_of_nil. }
  assert (test_plots σ2 = (Ok tt, σ2)) as Hplots.
  { rewrite (test_plots_run σ2 _ X _ a (length (heap σ1)) p Hx2
               (Hh2 _ _ HX) Hy2 (Hh2 _ _ Ha)).
    - assert (length (rows X) = length a) as H1
        by (unfold X, a; simpl; by rewrite !length_fmap).
      assert (length (rows X) = length p) as H2
        by (unfold X; simpl; rewrite length_fmap; lia).
      by rewrite !decide_True by done.
    - unfold σ2, with_residuals. simpl.
      by rewrite lookup_insert_ne, lookup_insert_eq.
    - unfold σ2, with_residuals. simpl. by rewrite heap_lookup_new0. }
  assert (forecast_cell m σ2 = (Ok tt, σ4)) as Hfc.
  { rewrite (forecast_cell_run m σ2 _ X _ a Hx2 (Hh2 _ _ HX) Hy2 (Hh2 _ _ Ha)).
    unfold a. rewrite length_fmap. by rewrite Hf. }
  exists σ4, r, (replicate (length a) np_nan).
  split.
  { rewrite (bind_ok _ _ _ _ _ (split_cell_run c σ d D Hd Hh Ht)).
    unfold test_cell_with_plots.
    rewrite bind_assoc, (bind_ok _ _ _ _ _ Htest).
    by rewrite (bind_ok _ _ _ _ _ Hplots). }
  destruct (with_residuals_reads σ1 p r) as [Hrp Hrr].
  destruct (with_query_reads σ2 a _ X _ Hx2 (Hh2 _ _ HX) Hy2 (Hh2 _ _ Ha))
    as (Hq & _ & _).
  pose proof (with_query_untouched σ2 a) as [Hh3 Hg3].
  pose proof (with_forecast_untouched σ3 f Xt) as [Hh4 Hg4].
  assert (∀ x v, x ∉ ["y_fcst"; "X_trans"] →
            array_of σ3 x = Some v → array_of σ4 x = Some v) as Hkeep4.
  { intros x v. apply untouched_array, with_forecast_untouched. }
  assert (∀ x v, x ∉ ["y_query"] →
            array_of σ2 x = Some v → array_of σ3 x = Some v) as Hkeep3.
  { intros x v. apply untouched_array, with_query_untouched. }
  split.
  { apply Hkeep4; [|apply Hkeep3; [|done]];
      rewrite !not_elem_of_cons; repeat split; try done; apply not_elem_of_nil. }
  split.
  { apply Hkeep4; [|apply Hkeep3; [|done]];
      rewrite !not_elem_of_cons; repeat split; try done; apply not_elem_of_nil. }
  split.
  { apply Hkeep4; [|done].
    rewrite !not_elem_of_cons; repeat split; try done; apply not_elem_of_nil. }
  split; [apply with_forecast_y_fcst|].
  split.
  { apply (frame_of_intro _ _ (length (heap σ3) + 1)%nat).
    - unfold σ4, with_forecast. simpl. by rewrite lookup_insert_eq.
    - unfold σ4, with_forecast. simpl. by rewrite heap_lookup_new. }
  split; [unfold r; rewrite length_zip_with; unfold a in *;
          rewrite length_fmap in *; lia|].
  split; [rewrite length_replicate; unfold a; by rewrite length_fmap|].
  destruct (split_post_data c σ D d Hd Hh) as [Hd1 Hh1].
  apply (frame_of_intro _ _ d).
  - rewrite Hg4, Hg3, Hg2; [done|..];
      rewrite !not_elem_of_cons; repeat split; try done; apply not_elem_of_nil.
  - by apply Hh4, Hh3, Hh2.
Qed.

Lemma cells_run_in_sequence_witness :
  ∃ σ' r q,
    (split_cell 300;; test_cell_with_plots (canned_model [8; 8]%float [8; 8]%float);;
     forecast_cell (canned_model [8; 8]%float [8; 8]%float)) demo_state
      = (Ok tt, σ') ∧
    array_of σ' "y_pred_test" = Some [8; 8]%float ∧
    array_of σ' "y_residual_test" = Some r ∧
    array_of σ' "y_query" = Some q ∧
    array_of σ' "y_fcst" = Some [8; 8]%float ∧
    frame_of σ' "X_trans"
      = Some (mkFrame (features demo_frame)
                (drop_cell target_column_name <$> test_rows 300 demo_frame)) ∧
    length r = length (test_rows 300 demo_frame) ∧
    length q = length (test_rows 300 demo_frame) ∧
    frame_of σ' "data" = Some demo_frame.
Proof.
  apply (cells_run_in_sequence (canned_model [8; 8]%float [8; 8]%float)
           300 demo_state 0%nat demo_frame [8; 8]%float [8; 8]%float
           (mkFrame (features demo_frame)
              (drop_cell target_column_name <$> test_rows 300 demo_frame))).
  - reflexivity.
  - reflexivity.
  - apply demo_has_target.
  - reflexivity.
  - reflexivity.
  - reflexivity.
Defined.

(** ** The metrics of the child runs *)

Section MetricsProperties.
Variable py_int : string → option Z.

Lemma iteration_of_raises (run : Run) e :
  iteration_of py_int run = Raise e →
  (e = KeyError ∧ run_properties run !! "iteration" = None) ∨
  (e = ValueError ∧ ∃ s, run_properties run !! "iteration" = Some s
                         ∧ py_int s = None).
Proof.
  unfold iteration_of.
  destruct (run_properties run !! "iteration") as [s|]; [|intros [= <-]; by left].
  destruct (py_int s) eqn:E; [done|]. intros [= <-]. right. eauto.
Qed.

Lemma metrics_loop_app cs1 cs2 ml :
  metrics_loop py_int (cs1 ++ cs2) ml
  = match metrics_loop py_int cs1 ml with
    | (Ok _, ml1) => metrics_loop py_int cs2 ml1
    | (Raise e, ml1) => (Raise e, ml1)
    end.
Proof.
  revert ml. induction cs1 as [|r cs1 IH]; intros ml; [done|].
  simpl. destruct (iteration_of py_int r) as [i|e]; [apply IH|done].
Qed.

Lemma metrics_loop_ok cs ml :
  Forall (λ r, ∃ i, iteration_of py_int r = Ok i) cs →
  ∃ ml', metrics_loop py_int cs ml = (Ok tt, ml').
Proof.
  intros H. revert ml. induction H as [|r cs [i Hi] _ IH]; intros ml.
  - by exists ml.
  - simpl. rewrite Hi. apply IH.
Qed.

Lemma metrics_loop_ok_inv cs ml ml' :
  metrics_loop py_int cs ml = (Ok tt, ml') →
  Forall (λ r, ∃ i, iteration_of py_int r = Ok i) cs.
Proof.
  revert ml. induction cs as [|r cs IH]; intros ml; [by constructor|].
  simpl. destruct (iteration_of py_int r) as [i|e] eqn:E; [|done].
  intros H. constructor; [eauto|by eapply IH].
Qed.

Lemma metrics_loop_skips cs ml ml' i :
  metrics_loop py_int cs ml = (Ok tt, ml') →
  Forall (λ r, iteration_of py_int r ≠ Ok i) cs →
  ml' !! i = ml !! i.
Proof.
  revert ml. induction cs as [|r cs IH]; intros ml; [by intros [= ->]|].
  simpl. destruct (iteration_of py_int r) as [j|e] eqn:E; [|done].
  intros H [Hr Hcs]%Forall_cons.
  rewrite (IH _ H Hcs). apply lookup_insert_ne. congruence.
Qed.

Lemma metrics_loop_last_wins cs1 r cs2 ml ml' i :
  metrics_loop py_int (cs1 ++ r :: cs2) ml = (Ok tt, ml') →
  iteration_of py_int r = Ok i →
  Forall (λ r', iteration_of py_int r' ≠ Ok i) cs2 →
  ml' !! i = Some (float_metrics r).
Proof.
  rewrite metrics_loop_app.
  destruct (metrics_loop py_int cs1 ml) as [[[]|e] ml1]; [|done].
  simpl. intros H Hi Hcs2. rewrite Hi in H.
  rewrite (metrics_loop_skips _ _ _ i H Hcs2). apply lookup_insert_eq.
Qed.

Lemma metrics_loop_dom cs ml ml' i :
  metrics_loop py_int cs ml = (Ok tt, ml') →
  (is_Some (ml' !! i) ↔
   is_Some (ml !! i) ∨ ∃ r, r ∈ cs ∧ iteration_of py_int r = Ok i).
Proof.
  revert ml. induction cs as [|r cs IH]; intros ml.
  - intros [= ->]. split; [by left|]. intros [?|(r & Hr & _)]; [done|].
    by apply elem_of_nil in Hr.
  - simpl. destruct (iteration_of py_int r) as [j|e] eqn:E; [|done].
    intros H. rewrite (IH _ H). rewrite lookup_insert_is_Some. split.
    + intros [[->|[_ ?]]|(r' & Hr' & Hi)].
      * right. exists r. split; [apply list_elem_of_here|done].
      * by left.
      * right. exists r'. split; [by apply list_elem_of_further|done].
    + intros [?|(r' & Hr' & Hi)].
      * destruct (decide (j = i)); [left; by left|left; by right].
      * apply elem_of_cons in Hr' as [->|Hr'].
        -- left. left. congruence.
        -- right. eauto.
Qed.

Lemma float_metrics_lookup (run : Run) k x :
  float_metrics run !! k = Some x ↔ run_metrics run !! k = Some (MFloat x).
Proof.
  unfold float_metrics. rewrite lookup_omap.
  destruct (run_metrics run !! k) as [[y|n|s|t]|]; simpl; naive_solver.
Qed.

(** X20.  The metrics cell ends normally exactly when every child run has
    an 'iteration' property that [int] accepts.  Then [metricslist] has
    one entry per distinct iteration number of the children and no
    other. *)
Theorem metrics_cell_keys (children : list Run) :
  ((∃ rundata ml, metrics_cell py_int children = (Ok rundata, ml)) ↔
   Forall (λ r, ∃ i, iteration_of py_int r = Ok i) children) ∧
  (∀ rundata ml, metrics_cell py_int children = (Ok rundata, ml) →
     rundata = rundata_of ml ∧
     ∀ i, is_Some (ml !! i) ↔ ∃ r, r ∈ children ∧ iteration_of py_int r = Ok i).
Proof.
  unfold metrics_cell. split.
  - split.
    + intros (rd & ml & H).
      destruct (metrics_loop py_int children ∅) as [[[]|e] ml1] eqn:E; [|done].
      by eapply metrics_loop_ok_inv.
    + intros H. destruct (metrics_loop_ok children ∅ H) as [ml' ->]. eauto.
  - intros rd ml H.
    destruct (metrics_loop py_int children ∅) as [[[]|e] ml1] eqn:E; [|done].
    injection H as <- <-. split; [done|].
    intros i. rewrite (metrics_loop_dom _ _ _ i E), lookup_empty.
    split; [intros [[? ?]|?]; done|by right].
Qed.

Lemma rundata_has_column (ml : gmap Z (gmap string float)) i :
  i ∈ mf_columns (rundata_of ml) ↔ is_Some (ml !! i).
Proof.
  unfold rundata_of. simpl.
  by rewrite merge_sort_Permutation, elem_of_elements, elem_of_dom.
Qed.

Lemma rundata_has_row (ml : gmap Z (gmap string float)) k :
  k ∈ mf_index (rundata_of ml) ↔ ∃ i d x, ml !! i = Some d ∧ d !! k = Some x.
Proof.
  unfold rundata_of. simpl. rewrite elem_of_union_list. split.
  - intros (X & HX & Hk). apply list_elem_of_fmap in HX as ([i d] & -> & Hid).
    apply elem_of_map_to_list in Hid. simpl in Hk.
    apply elem_of_dom in Hk as [x Hx]. eauto.
  - intros (i & d & x & Hid & Hx). exists (dom d). split.
    + apply list_elem_of_fmap. exists (i, d). split; [done|].
      by apply elem_of_map_to_list.
    + apply elem_of_dom. eauto.
Qed.

(** X21.  When several child runs report the same iteration number, the
    last one in the list wins: the entry of [metricslist] for that number
    holds the metrics of the last such run and of no other.  Of a run's
    metrics exactly those whose value is a float are kept, with their
    values; the others are dropped from the entry.  [rundata] has a column
    for that iteration, in which the float metrics of the run are read
    back.  A metric that the run does not hold as a float is NaN in that
    column when the entry of some iteration holds it, and [rundata] has no
    row for it, so that reading it raises [KeyError], when none does. *)
Theorem metrics_cell_last_run_wins
    (before after : list Run) (run : Run) (i : Z) :
  Forall (λ r, ∃ j, iteration_of py_int r = Ok j) (before ++ run :: after) →
  iteration_of py_int run = Ok i →
  Forall (λ r, iteration_of py_int r ≠ Ok i) after →
  ∃ ml d,
    metrics_cell py_int (before ++ run :: after) = (Ok (rundata_of ml), ml) ∧
    ml !! i = Some d ∧
    (∀ k x, d !! k = Some x ↔ run_metrics run !! k = Some (MFloat x)) ∧
    i ∈ mf_columns (rundata_of ml) ∧
    (∀ k x, run_metrics run !! k = Some (MFloat x) →
            k ∈ mf_index (rundata_of ml) ∧
            mf_getitem (rundata_of ml) i k = Ok x) ∧
    (∀ k, (∀ x, run_metrics run !! k ≠ Some (MFloat x)) →
          d !! k = None ∧
          ((∃ j dj x, ml !! j = Some dj ∧ dj !! k = Some x) →
           mf_getitem (rundata_of ml) i k = Ok np_nan) ∧
          ((∀ j dj, ml !! j = Some dj → dj !! k = None) →
           ¬ (k ∈ mf_index (rundata_of ml)) ∧
           mf_getitem (rundata_of ml) i k = Raise KeyError)).
Proof.
  intros Hall Hi Hafter.
  destruct (metrics_loop_ok (before ++ run :: after) ∅ Hall) as [ml Hml].
  exists ml, (float_metrics run).
  pose proof (metrics_loop_last_wins _ _ _ _ _ _ Hml Hi Hafter) as Hlook.
  assert (i ∈ mf_columns (rundata_of ml)) as Hcol
    by (apply rundata_has_column; by rewrite Hlook).
  split; [unfold metrics_cell; by rewrite Hml|].
  split; [done|].
  split; [intros k x; apply float_metrics_lookup|].
  split; [done|].
  split.
  - intros k x Hk. apply float_metrics_lookup in Hk.
    assert (k ∈ mf_index (rundata_of ml)) as Hrow
      by (apply rundata_has_row; eauto).
    split; [done|].
    unfold mf_getitem. rewrite !decide_True by done.
    simpl. rewrite Hlook. simpl. by rewrite Hk.
  - intros k Hk.
    assert (float_metrics run !! k = None) as Hnone.
    { destruct (float_metrics run !! k) as [x|] eqn:E; [|done].
      apply float_metrics_lookup in E. by destruct (Hk x). }
    split; [done|]. split.
    + intros Hrow%rundata_has_row.
      unfold mf_getitem. rewrite !decide_True by done.
      simpl. rewrite Hlook. simpl. by rewrite Hnone.
    + intros Hno.
      assert (¬ (k ∈ mf_index (rundata_of ml))) as Hrow.
      { intros (j & dj & x & Hj & Hx)%rundata_has_row.
        by rewrite (Hno j dj Hj) in Hx. }
      split; [done|].
      unfold mf_getitem. rewrite decide_True by done.
      by rewrite decide_False.
Qed.


(** X22.  The loop stops at the first child run whose iteration number
    cannot be read: with [KeyError] when the run has no 'iteration'
    property and with [ValueError] when [int] rejects it.  [metricslist]
    then holds what the runs before that one have put in it, and the runs
    after it are not looked at. *)
Theorem metrics_cell_stops_at_unreadable_run
    (before after : list Run) (run : Run) (e : exn) :
  Forall (λ r, ∃ j, iteration_of py_int r = Ok j) before →
  iteration_of py_int run = Raise e →
  ∃ ml,
    metrics_cell py_int before = (Ok (rundata_of ml), ml) ∧
    metrics_cell py_int (before ++ run :: after) = (Raise e, ml) ∧
    ((e = KeyError ∧ run_properties run !! "iteration" = None) ∨
     (e = ValueError ∧ ∃ s, run_properties run !! "iteration" = Some s
                            ∧ py_int s = None)).
Proof.
  intros Hbefore He.
  destruct (metrics_loop_ok before ∅ Hbefore) as [ml Hml].
  exists ml. unfold metrics_cell.
  rewrite metrics_loop_app, Hml. simpl. rewrite He.
  split; [done|]. split; [done|]. by apply iteration_of_raises.
Qed.

Lemma omap_length_le {A B : Type} (f : A → option B) (l : list A) :
  (length (omap f l) ≤ length l)%nat.
Proof.
  induction l as [|x l IH]; [done|]. csimpl.
  destruct (f x); simpl; lia.
Qed.

Lemma sorted_nodup_strict (l : list Z) :
  StronglySorted Z.le l → NoDup l → StronglySorted Z.lt l.
Proof.
  induction 1 as [|x l Hs IH Hall]; [constructor|].
  intros [Hx Hnd]%NoDup_cons. constructor; [by apply IH|].
  rewrite Forall_forall in Hall |- *. intros y Hy.
  specialize (Hall y Hy). assert (x ≠ y) by (by intros ->). lia.
Qed.

(** X23.  [rundata] has one column per entry of [metricslist], in
    strictly ascending order of the iteration numbers whatever the order
    of the child runs, and one row per metric name that some entry
    holds. *)
Theorem rundata_columns_ascend (children : list Run) :
  Forall (λ r, ∃ j, iteration_of py_int r = Ok j) children →
  ∃ ml,
    metrics_cell py_int children = (Ok (rundata_of ml), ml) ∧
    StronglySorted Z.lt (mf_columns (rundata_of ml)) ∧
    (∀ i, i ∈ mf_columns (rundata_of ml) ↔
          ∃ r, r ∈ children ∧ iteration_of py_int r = Ok i) ∧
    (∀ k, k ∈ mf_index (rundata_of ml) ↔
          ∃ i d x, ml !! i = Some d ∧ d !! k = Some x) ∧
    (length (mf_columns (rundata_of ml)) ≤ length children)%nat.
Proof.
  intros Hall.
  destruct (metrics_loop_ok children ∅ Hall) as [ml E].
  exists ml. split; [unfold metrics_cell; by rewrite E|].
  unfold rundata_of. simpl.
  assert (∀ i, i ∈ merge_sort Z.le (elements (dom ml)) ↔
               ∃ r, r ∈ children ∧ iteration_of py_int r = Ok i) as Hcols.
  { intros i. rewrite merge_sort_Permutation, elem_of_elements, elem_of_dom.
    rewrite (metrics_loop_dom _ _ _ i E), lookup_empty.
    split; [intros [[? ?]|?]; done|by right]. }
  assert (NoDup (merge_sort Z.le (elements (dom ml)))) as Hnd.
  { rewrite merge_sort_Permutation. apply NoDup_elements. }
  split.
  { apply sorted_nodup_strict; [|done].
    apply (StronglySorted_merge_sort Z.le). }
  split; [done|]. split.
  - intros k. rewrite elem_of_union_list. split.
    + intros (X & HX & Hk). apply list_elem_of_fmap in HX as ([i d] & -> & Hid).
      apply elem_of_map_to_list in Hid. simpl in Hk.
      apply elem_of_dom in Hk as [x Hx]. eauto.
    + intros (i & d & x & Hid & Hx). exists (dom d). split.
      * apply list_elem_of_fmap. exists (i, d). split; [done|].
        by apply elem_of_map_to_list.
      * apply elem_of_dom. eauto.
  - assert (∀ i, i ∈ merge_sort Z.le (elements (dom ml)) →
                 i ∈ omap (λ r, match iteration_of py_int r with
                                | Ok j => Some j | Raise _ => None end)
                          children) as Hsub.
    { intros i (r & Hr & Hi)%Hcols. apply list_elem_of_omap.
      exists r. by rewrite Hi. }
    etrans; [apply (submseteq_length _ _
                      (NoDup_submseteq _ _ Hnd Hsub))|].
    apply omap_length_le.
Qed.
End MetricsProperties.

Lemma demo_children_readable :
  Forall (λ r, ∃ j, iteration_of digits_int r = Ok j) demo_children.
Proof. repeat constructor; by eexists. Qed.

Lemma metrics_cell_last_run_wins_witness :
  ∃ ml d,
    metrics_cell digits_int
        ([first_report; second_report] ++ third_report :: [fourth_report])
      = (Ok (rundata_of ml), ml) ∧
    ml !! 1 = Some d ∧
    (∀ k x, d !! k = Some x ↔ run_metrics third_report !! k = Some (MFloat x)) ∧
    1 ∈ mf_columns (rundata_of ml) ∧
    (∀ k x, run_metrics third_report !! k = Some (MFloat x) →
            k ∈ mf_index (rundata_of ml) ∧
            mf_getitem (rundata_of ml) 1 k = Ok x) ∧
    (∀ k, (∀ x, run_metrics third_report !! k ≠ Some (MFloat x)) →
          d !! k = None ∧
          ((∃ j dj x, ml !! j = Some dj ∧ dj !! k = Some x) →
           mf_getitem (rundata_of ml) 1 k = Ok np_nan) ∧
          ((∀ j dj, ml !! j = Some dj → dj !! k = None) →
           ¬ (k ∈ mf_index (rundata_of ml)) ∧
           mf_getitem (rundata_of ml) 1 k = Raise KeyError)).
Proof.
  apply (metrics_cell_last_run_wins digits_int [first_report; second_report]
           [fourth_report] third_report 1).
  - repeat constructor; by eexists.
  - reflexivity.
  - repeat constructor. discriminate.
Defined.

(** The four runs read back from [rundata]: iteration 1 holds the later
    of its two reports; the metric of iteration 2 alone is NaN in the
    columns of the others; a metric that no run logs as a float has no
    row, and an iteration that no run reports has no column. *)
Example rundata_cells_on_demo :
  let rundata := (metrics_cell digits_int (demo_children ++ [fourth_report])).1 in
  (mf_columns <$> (match rundata with Ok rd => Some rd | _ => None end))
    = Some [0; 1; 2] ∧
  (match rundata with Ok rd => mf_getitem rd 1 "r2_score" | Raise e => Raise e end)
    = Ok 0.75%float ∧
  (match rundata with Ok rd => mf_getitem rd 2 "mape" | Raise e => Raise e end)
    = Ok 1.5%float ∧
  (match rundata with Ok rd => mf_getitem rd 1 "mape" | Raise e => Raise e end)
    = Ok np_nan ∧
  (match rundata with Ok rd => mf_getitem rd 1 "n_features" | Raise e => Raise e end)
    = Raise KeyError ∧
  (match rundata with Ok rd => mf_getitem rd 7 "r2_score" | Raise e => Raise e end)
    = Raise KeyError.
Proof. vm_compute. repeat split; reflexivity. Qed.

Lemma metrics_cell_stops_at_unreadable_run_witness :
  ∃ ml,
    metrics_cell digits_int demo_children = (Ok (rundata_of ml), ml) ∧
    metrics_cell digits_int (demo_children ++ unreadable_report :: demo_children)
      = (Raise ValueError, ml) ∧
    ((ValueError = KeyError ∧
      run_properties unreadable_report !! "iteration" = None) ∨
     (ValueError = ValueError ∧
      ∃ s, run_properties unreadable_report !! "iteration" = Some s
           ∧ digits_int s = None)).
Proof.
  apply (metrics_cell_stops_at_unreadable_run digits_int demo_children
           demo_children unreadable_report ValueError).
  - apply demo_children_readable.
  - reflexivity.
Defined.

Lemma rundata_columns_ascend_witness :
  ∃ ml,
    metrics_cell digits_int demo_children = (Ok (rundata_of ml), ml) ∧
    StronglySorted Z.lt (mf_columns (rundata_of ml)) ∧
    (∀ i, i ∈ mf_columns (rundata_of ml) ↔
          ∃ r, r ∈ demo_children ∧ iteration_of digits_int r = Ok i) ∧
    (∀ k, k ∈ mf_index (rundata_of ml) ↔
          ∃ i d x, ml !! i = Some d ∧ d !! k = Some x) ∧
    (length (mf_columns (rundata_of ml)) ≤ length demo_children)%nat.
Proof.
  apply (rundata_columns_ascend digits_int demo_children).
  apply demo_children_readable.
Defined.

(** The three demo runs: iteration 1 is reported twice and the later
    report stays; the columns come out as 0, 1. *)
Example metrics_cell_on_demo :
  let '(outcome, ml) := metrics_cell digits_int demo_children in
  (mf_columns <$> (match outcome with Ok rd => Some rd | _ => None end))
    = Some [0; 1] ∧
  (ml !! 1 ≫= (λ d, d !! "r2_score")) = Some 0.75%float ∧
  (ml !! 0 ≫= (λ d, d !! "r2_score")) = Some 0.25%float ∧
  (ml !! 1 ≫= (λ d, d !! "n_features")) = None.
Proof. vm_compute. repeat split; reflexivity. Qed.
